(** * Recruiting-campaign assistant: conversation state machine, campaign
      generator, token substitution and step editor

    A shallow embedding of
      - [src/utils/campaignAssistantAI.ts]  (cleanJsonResponse,
        processUserInput, generateCampaignFromDraft, getConversationStage,
        determineNextStep, createFallbackResponse, createFallbackCampaign),
      - [src/utils/openai.ts]  (generateCampaignSequence,
        generateCampaignName, generatePersonalizedContent,
        applyTokenReplacement),
      - [src/components/CampaignStepsEditor.tsx]  (updateEmailStep,
        addEmailStep, removeEmailStep, duplicateEmailStep,
        validateCampaignData, handleSave, insertPersonalizationToken,
        insertHTMLTemplate, applyBasicTokenReplacement, renderPreviewSubject,
        hasPersonalizationSection).

    Conventions of the embedding.
      - A JavaScript string is a [string]: a sequence of code units, here
        restricted to the code units 0..255 (Latin-1).  [String.length] is
        the JS [length].
      - A value of TypeScript type [any] (everything read from a parsed model
        response, and the [campaignData] prop) is a [JsVal]; a JS object is a
        finite map from property names to values.  Numbers are restricted to
        integers.
      - An awaited call of the language model is an [LlmOutcome] handed to the
        function: the call may reject, answer with no content, answer with
        text that is not JSON, or answer with text that parses to a value.
      - A [throw] that leaves a function is an explicit constructor of its
        result type; a [try ... catch] is a match on that result.
      - The generator and the personalization are embedded twice: on
        arguments of their declared types, and, in [Runtime], on the values
        of type [any] that reach them once the types are erased, where a
        TypeError of their bodies is an outcome. *)

From Stdlib Require Import ZArith Ascii String DecimalString Bool Lia.
From Stdlib Require DecimalNat.
From stdpp Require Import gmap strings list.

Local Open Scope Z_scope.

(** ** JavaScript strings *)

Module JsString.

(** The double quote, which the templates of the source use in every HTML
    attribute. *)
Definition dq : string := String "034"%char EmptyString.

(** [q s] is [s] between double quotes. *)
Definition q (s : string) : string := dq +:+ s +:+ dq.

Definition code (c : ascii) : nat := nat_of_ascii c.

(** White space of [trim] and of the regular-expression class [\s], within
    the code units 0..255: TAB, LF, VT, FF, CR, SPACE and NO-BREAK SPACE. *)
Definition isWhiteSpace (c : ascii) : bool :=
  ((9 <=? code c)%nat && (code c <=? 13)%nat)
  || (code c =? 32)%nat || (code c =? 160)%nat.

Fixpoint trimStart (s : string) : string :=
  match s with
  | EmptyString => EmptyString
  | String c r => if isWhiteSpace c then trimStart r else s
  end.

Fixpoint trimEnd (s : string) : string :=
  match s with
  | EmptyString => EmptyString
  | String c r =>
      match trimEnd r with
      | EmptyString => if isWhiteSpace c then EmptyString else String c EmptyString
      | r' => String c r'
      end
  end.

(** [s.trim()] *)
Definition trim (s : string) : string := trimEnd (trimStart s).

Definition lowerChar (c : ascii) : ascii :=
  let n := code c in
  if ((65 <=? n)%nat && (n <=? 90)%nat)
     || ((192 <=? n)%nat && (n <=? 222)%nat && negb (n =? 215)%nat)
  then ascii_of_nat (n + 32) else c.

(** [s.toLowerCase()] *)
Fixpoint toLowerCase (s : string) : string :=
  match s with
  | EmptyString => EmptyString
  | String c r => String (lowerChar c) (toLowerCase r)
  end.

Fixpoint startsWith (s p : string) {struct p} : bool :=
  match p, s with
  | EmptyString, _ => true
  | String a p', String b s' => Ascii.eqb a b && startsWith s' p'
  | String _ _, EmptyString => false
  end.

(** [s.includes(sub)] *)
Fixpoint includes (s sub : string) : bool :=
  startsWith s sub
  || match s with
     | EmptyString => false
     | String _ r => includes r sub
     end.

(** [s.indexOf(sub)]: the first position at which [sub] occurs, or -1. *)
Fixpoint indexOf (s sub : string) : Z :=
  if startsWith s sub then 0
  else match s with
       | EmptyString => -1
       | String _ r =>
           let i := indexOf r sub in
           if i <? 0 then -1 else i + 1
       end.

Fixpoint take (n : nat) (s : string) : string :=
  match n, s with
  | S k, String c r => String c (take k r)
  | _, _ => EmptyString
  end.

Fixpoint drop (n : nat) (s : string) : string :=
  match n, s with
  | S k, String _ r => drop k r
  | _, _ => s
  end.

Definition len (s : string) : Z := Z.of_nat (String.length s).

(** [s.substring(i, j)]: both indices are clamped to [0, length] and
    swapped when [i > j]. *)
Definition substring (s : string) (i j : Z) : string :=
  let clamp x := Z.to_nat (Z.min (Z.max x 0) (len s)) in
  let a := Nat.min (clamp i) (clamp j) in
  let b := Nat.max (clamp i) (clamp j) in
  take (b - a) (drop a s).

(** [s.substring(i)] *)
Definition substringFrom (s : string) (i : Z) : string :=
  substring s i (len s).

(** [s.split(' ')[0]]: the code units before the first SPACE. *)
Fixpoint firstSpaceField (s : string) : string :=
  match s with
  | EmptyString => EmptyString
  | String c r => if (code c =? 32)%nat then EmptyString
                  else String c (firstSpaceField r)
  end.

(** [l.join(sep)] on an array of strings. *)
Fixpoint join (sep : string) (l : list string) : string :=
  match l with
  | [] => EmptyString
  | [x] => x
  | x :: r => x +:+ sep +:+ join sep r
  end.

(** Decimal numeral of a natural number, as a template literal prints it. *)
Definition ofNat (n : nat) : string := NilEmpty.string_of_uint (Nat.to_uint n).

(** Decimal numeral of an integer. *)
Definition ofZ (n : Z) : string :=
  if n <? 0 then String "-"%char (ofNat (Z.to_nat (- n))) else ofNat (Z.to_nat n).

(** The replacement text of [String.prototype.replace] when the second
    argument is a string and the pattern has no capture group: [$$] is a
    dollar sign, [$&] the matched text, [$`] the text before the match and
    [$'] the text after it; every other code unit stands for itself. *)
Fixpoint expandReplacement (repl matched before after : string) : string :=
  match repl with
  | EmptyString => EmptyString
  | String c r =>
      if Ascii.eqb c "$"%char then
        match r with
        | EmptyString => String c EmptyString
        | String d r' =>
            if Ascii.eqb d "$"%char then String "$"%char (expandReplacement r' matched before after)
            else if Ascii.eqb d "&"%char then matched +:+ expandReplacement r' matched before after
            else if Ascii.eqb d "`"%char then before +:+ expandReplacement r' matched before after
            else if Ascii.eqb d "'"%char then after +:+ expandReplacement r' matched before after
            else String c (String d (expandReplacement r' matched before after))
        end
      else String c (expandReplacement r matched before after)
  end.

(** [s.replace(/tok/g, repl)] for a pattern that matches the literal,
    non-empty text [tok]: a single scan from the left; at a match the
    expansion of [repl] is emitted and the scan resumes after the match.
    [before] is the part of the subject already scanned and [skip] the
    number of code units of the current match still to pass over. *)
Fixpoint replaceScan (tok repl before : string) (skip : nat) (s : string) : string :=
  match s with
  | EmptyString => EmptyString
  | String c r =>
      match skip with
      | S k => replaceScan tok repl (before +:+ String c EmptyString) k r
      | O =>
          if startsWith s tok
          then expandReplacement repl tok before (drop (String.length tok) s)
               +:+ replaceScan tok repl (before +:+ String c EmptyString)
                     (String.length tok - 1) r
          else String c (replaceScan tok repl (before +:+ String c EmptyString) 0 r)
      end
  end.

Definition replaceAll (s tok repl : string) : string :=
  replaceScan tok repl EmptyString 0 s.

End JsString.

(** ** JavaScript values *)

(** A value of type [any].  [JObj] is an object with its own enumerable
    properties; a property that is absent reads as [JUndefined]. *)
#[warnings="-register-all"] Inductive JsVal : Type :=
| JUndefined
| JNull
| JBool (b : bool)
| JNum (n : Z)
| JStr (s : string)
| JArr (l : list JsVal)
| JObj (m : gmap string JsVal).

Module Js.

(** ToBoolean *)
Definition truthy (v : JsVal) : bool :=
  match v with
  | JUndefined | JNull => false
  | JBool b => b
  | JNum n => negb (n =? 0)
  | JStr s => negb (String.eqb s EmptyString)
  | JArr _ | JObj _ => true
  end.

(** [a || b] *)
Definition or (a b : JsVal) : JsVal := if truthy a then a else b.

(** [o.k] on an object. *)
Definition get (o : gmap string JsVal) (k : string) : JsVal :=
  default JUndefined (o !! k).

(** [v.k] for the property names the code reads from a parsed response
    ([message], [suggestions], [campaignDraft], [nextStep], [isComplete],
    [emailSteps], [campaignData], [type], [subject], [content], [delay],
    [delayUnit]), from a candidate ([name], [company], [skills]) and from a
    model configuration ([model]); none of them is [length] or an index: a
    TypeError ([None])
    on [undefined] and [null], the property of an object, and [undefined] on
    a boolean, number, string or array. *)
Definition getField (v : JsVal) (k : string) : option JsVal :=
  match v with
  | JUndefined | JNull => None
  | JObj m => Some (get m k)
  | _ => Some JUndefined
  end.

(** [v === 'lit'] *)
Definition isStr (v : JsVal) (lit : string) : bool :=
  match v with
  | JStr s => String.eqb s lit
  | _ => false
  end.

(** [typeof v === 'undefined'] *)
Definition isUndefined (v : JsVal) : bool :=
  match v with
  | JUndefined => true
  | _ => false
  end.

(** [v.length === 0] for a truthy [v]. *)
Definition lengthIsZero (v : JsVal) : bool :=
  match v with
  | JArr l => match l with [] => true | _ => false end
  | JStr s => String.eqb s EmptyString
  | JObj m => match get m "length" with JNum n => n =? 0 | _ => false end
  | _ => false
  end.

(** ToString *)
Fixpoint toString (v : JsVal) : string :=
  match v with
  | JUndefined => "undefined"
  | JNull => "null"
  | JBool b => if b then "true" else "false"
  | JNum n => JsString.ofZ n
  | JStr s => s
  | JArr l =>
      (fix elems (l : list JsVal) : string :=
         let elem x := match x with
                       | JUndefined | JNull => EmptyString
                       | _ => toString x
                       end in
         match l with
         | [] => EmptyString
         | [x] => elem x
         | x :: r => elem x +:+ "," +:+ elems r
         end) l
  | JObj _ => "[object Object]"
  end.

Fixpoint indexed (i : nat) (l : list JsVal) : gmap string JsVal :=
  match l with
  | [] => ∅
  | x :: r => <[JsString.ofNat i := x]> (indexed (S i) r)
  end.

Fixpoint chars (s : string) : list JsVal :=
  match s with
  | EmptyString => []
  | String c r => JStr (String c EmptyString) :: chars r
  end.

(** The properties that the spread [{ ...v }] copies: those of an object,
    the indexed elements of an array or string, none for anything else. *)
Definition spread (v : JsVal) : gmap string JsVal :=
  match v with
  | JObj m => m
  | JArr l => indexed 0 l
  | JStr s => indexed 0 (chars s)
  | _ => ∅
  end.

Definition ofOption (o : option string) : JsVal :=
  match o with
  | Some s => JStr s
  | None => JUndefined
  end.

Definition strings (l : list string) : JsVal := JArr (JStr <$> l).

End Js.

(** ** The awaited model call *)

(** What [openai.chat.completions.create] followed by the extraction of the
    content and [JSON.parse] ends in: the promise rejects; the response has no
    content ([!response]); the content, once cleaned of its code fence, is not
    JSON; or it parses to [v]. *)
Inductive LlmOutcome : Type :=
| LlmRejects
| LlmNoContent
| LlmNotJson (text : string)
| LlmParsed (v : JsVal).

(** The same for a call whose content is used as text. *)
Inductive LlmText : Type :=
| TextRejects
| TextContent (response : string).

(** ** The conversation state machine (campaignAssistantAI.ts) *)

(** The values of [AssistantResponse['nextStep']]. *)
Inductive Step : Type :=
| goal | audience | tone | context | personalization | review | generate.

Definition stepName (s : Step) : string :=
  match s with
  | goal => "goal"
  | audience => "audience"
  | tone => "tone"
  | context => "context"
  | personalization => "personalization"
  | review => "review"
  | generate => "generate"
  end.

(** Position of a state in the conversation flow. *)
Definition stepRank (s : Step) : nat :=
  match s with
  | goal => 0
  | audience => 1
  | tone => 2
  | context => 3
  | personalization => 4
  | review => 5
  | generate => 6
  end.

(** [interface AssistantResponse].  The draft is a [Partial<CampaignDraft>]
    into which the properties of the parsed response are spread, so it is an
    object of arbitrary values; [nextStep] is whatever the response carried,
    or one of the step names. *)
Record AssistantResponse : Type := {
  message : JsVal;
  suggestions : JsVal;
  campaignDraft : gmap string JsVal;
  nextStep : JsVal;
  isComplete : JsVal
}.

Definition withMessage (m : string) (r : AssistantResponse) : AssistantResponse :=
  {| message := JStr m; suggestions := suggestions r;
     campaignDraft := campaignDraft r; nextStep := nextStep r;
     isComplete := isComplete r |}.

Definition withSuggestions (l : list string) (r : AssistantResponse) : AssistantResponse :=
  {| message := message r; suggestions := Js.strings l;
     campaignDraft := campaignDraft r; nextStep := nextStep r;
     isComplete := isComplete r |}.

Definition withNextStep (s : Step) (r : AssistantResponse) : AssistantResponse :=
  {| message := message r; suggestions := suggestions r;
     campaignDraft := campaignDraft r; nextStep := JStr (stepName s);
     isComplete := isComplete r |}.

(** [result.campaignDraft.k = v] *)
Definition withDraftField (k : string) (v : JsVal) (r : AssistantResponse) : AssistantResponse :=
  {| message := message r; suggestions := suggestions r;
     campaignDraft := <[k := v]> (campaignDraft r); nextStep := nextStep r;
     isComplete := isComplete r |}.

Definition determineNextStep (draft : gmap string JsVal) : Step :=
  if negb (Js.truthy (Js.get draft "goal")) then goal
  else if negb (Js.truthy (Js.get draft "targetAudience")) then audience
  else if negb (Js.truthy (Js.get draft "tone")) then tone
  else if negb (Js.truthy (Js.get draft "additionalContext")) then context
  else if Js.truthy (Js.get draft "additionalContext")
          && Js.isUndefined (Js.get draft "enablePersonalization") then personalization
  else review.

(** [recentSearches.slice(0, 3).map(search => `Candidates matching: "${search}"`)] *)
Definition audienceSuggestions (recentSearches : list string) : list string :=
  (fun search => "Candidates matching: " +:+ JsString.q search) <$> take 3 recentSearches.

Definition toneSuggestions : list string :=
  [ "Professional tone, concise emails (60-80 words)";
    "Friendly tone, medium emails (100-120 words)";
    "Professional tone, short emails (30-50 words)";
    "Warm tone, long emails (150+ words)" ].

Definition contextSuggestions : list string :=
  [ "Include company benefits information";
    "Focus on career development opportunities";
    "Highlight work-life balance";
    "Emphasize competitive compensation" ].

Definition personalizationSuggestions : list string :=
  [ "Yes, enable personalization";
    "No, use general content for all candidates" ].

(** The table [fallbackResponses], keyed by state.  [determineNextStep] never
    returns [generate]; for it the lookup is undefined and the entry of
    [goal] is used. *)
Definition fallbackResponses (recentSearches : list string) (s : Step) : string * list string :=
  match s with
  | goal | generate =>
      ("I'd love to help you create a campaign! What's the main goal you want to achieve with this campaign?",
       [ "Build a talent community for healthcare professionals";
         "Nurture passive candidates with industry insights";
         "Reengage inactive candidates with new opportunities";
         "Provide educational content to boost candidate skills" ])
  | audience =>
      ("Great goal! Now, who is your target audience for this campaign?",
       if (0 <? length recentSearches)%nat then audienceSuggestions recentSearches
       else [ "Healthcare professionals nationwide";
              "Registered nurses in specific locations";
              "New graduates entering healthcare";
              "Experienced specialists in oncology/ICU" ])
  | tone =>
      ("Perfect! What tone would you like for your campaign communications, and what email length do you prefer?",
       toneSuggestions)
  | context =>
      ("Excellent! Is there any additional context or specific requirements for this campaign?",
       contextSuggestions)
  | personalization =>
      ("Would you like to enable personalization for each candidate? This will customize the email content based on each candidate's profile data.",
       personalizationSuggestions)
  | review =>
      ("Let me review your campaign details. Does everything look correct?",
       [ "Yes, generate the campaign"; "Let me make some changes" ])
  end.

Definition createFallbackResponse (userInput : string) (currentDraft : gmap string JsVal)
    (recentSearches : list string) : AssistantResponse :=
  let nextStep := determineNextStep currentDraft in
  let response := fallbackResponses recentSearches nextStep in
  {| message := JStr (fst response);
     suggestions := Js.strings (snd response);
     campaignDraft :=
       <["emailLength" := Js.or (Js.get currentDraft "emailLength") (JStr "concise")]> currentDraft;
     nextStep := JStr (stepName nextStep);
     isComplete := JBool false |}.

(** The object literal that opens the [try] block: any property read of a
    [null] response throws. *)
Definition initialResult (parsedResponse : JsVal) (currentDraft : gmap string JsVal)
    : option AssistantResponse :=
  m ← Js.getField parsedResponse "message";
  s ← Js.getField parsedResponse "suggestions";
  d ← Js.getField parsedResponse "campaignDraft";
  n ← Js.getField parsedResponse "nextStep";
  c ← Js.getField parsedResponse "isComplete";
  Some {| message := Js.or m (JStr "I'm here to help you create your campaign.");
          suggestions := Js.or s (JArr []);
          campaignDraft :=
            Js.spread d ∪ currentDraft
              ∪ {[ "emailLength" := JStr "concise"; "enablePersonalization" := JBool false ]};
          nextStep := Js.or n (JStr (stepName (determineNextStep currentDraft)));
          isComplete := Js.or c (JBool false) |}.

(** "Goal was just set, automatically transition to audience" *)
Definition autoAdvanceToAudience (currentDraft : gmap string JsVal) (result : AssistantResponse)
    : AssistantResponse :=
  if Js.truthy (Js.get (campaignDraft result) "goal")
     && Js.truthy (Js.get (campaignDraft result) "matchedExampleId")
     && negb (Js.truthy (Js.get currentDraft "goal"))
  then withNextStep audience result
  else result.

(** "Enhanced audience step handling with recent searches" *)
Definition suggestFromRecentSearches (recentSearches : list string) (result : AssistantResponse)
    : AssistantResponse :=
  if Js.isStr (nextStep result) "audience"
     && (0 <? length recentSearches)%nat
     && (negb (Js.truthy (suggestions result)) || Js.lengthIsZero (suggestions result))
  then withMessage "Great! Now let's define your target audience. Based on your recent searches, I've prepared some options for you to choose from, or you can describe a different audience."
         (withSuggestions (audienceSuggestions recentSearches) result)
  else result.

Definition audienceKeywords : list string :=
  [ "candidates"; "nurses"; "professionals"; "specialists"; "workers"; "staff";
    "employees"; "people"; "individuals"; "practitioners"; "technicians";
    "administrators"; "managers"; "directors"; "coordinators" ].

Definition locationKeywords : list string :=
  [ "in"; "from"; "at"; "near"; "around"; "within" ].

Definition experienceKeywords : list string :=
  [ "years"; "experience"; "experienced"; "senior"; "junior"; "entry"; "level" ].

(** [keywords.some(keyword => inputLower.includes(keyword))] *)
Definition someIncluded (keywords : list string) (inputLower : string) : bool :=
  existsb (JsString.includes inputLower) keywords.

(** "Handle target audience input detection" *)
Definition detectTargetAudience (userInput : string) (currentDraft : gmap string JsVal)
    (result : AssistantResponse) : AssistantResponse :=
  if Js.truthy (Js.get currentDraft "goal")
     && negb (Js.truthy (Js.get currentDraft "targetAudience"))
     && (10 <? JsString.len (JsString.trim userInput))
  then
    let inputLower := JsString.toLowerCase userInput in
    let hasAudienceKeywords := someIncluded audienceKeywords inputLower in
    let hasLocationKeywords := someIncluded locationKeywords inputLower in
    let hasExperienceKeywords := someIncluded experienceKeywords inputLower in
    if hasAudienceKeywords || hasLocationKeywords || hasExperienceKeywords
       || (20 <? JsString.len (JsString.trim userInput))
    then
      withSuggestions toneSuggestions
        (withMessage ("Perfect! I've set your target audience as "
                      +:+ JsString.q (JsString.trim userInput)
                      +:+ ". Now, what tone would you like for your campaign communications, and what email length do you prefer?")
           (withNextStep tone
              (withDraftField "targetAudience" (JStr (JsString.trim userInput)) result)))
    else result
  else result.

Definition toneKeywords : list string :=
  [ "professional"; "friendly"; "casual"; "warm"; "formal" ].

Definition lengthKeywords : list string :=
  [ "short"; "concise"; "medium"; "long"; "brief"; "detailed" ].

Definition detectedTone (inputLower : string) : string :=
  if JsString.includes inputLower "friendly" then "friendly"
  else if JsString.includes inputLower "casual" then "casual"
  else if JsString.includes inputLower "warm" then "warm"
  else if JsString.includes inputLower "formal" then "formal"
  else "professional".

Definition detectedLength (inputLower : string) : string :=
  if JsString.includes inputLower "short" || JsString.includes inputLower "brief" then "short"
  else if JsString.includes inputLower "medium" then "medium"
  else if JsString.includes inputLower "long" || JsString.includes inputLower "detailed" then "long"
  else "concise".

(** "Handle tone and email length input detection" *)
Definition detectToneAndLength (userInput : string) (currentDraft : gmap string JsVal)
    (result : AssistantResponse) : AssistantResponse :=
  if Js.truthy (Js.get currentDraft "targetAudience")
     && negb (Js.truthy (Js.get currentDraft "tone"))
     && (5 <? JsString.len (JsString.trim userInput))
  then
    let inputLower := JsString.toLowerCase userInput in
    if someIncluded toneKeywords inputLower || someIncluded lengthKeywords inputLower
    then
      let dTone := detectedTone inputLower in
      let dLength := detectedLength inputLower in
      withSuggestions contextSuggestions
        (withMessage ("Great choice on the " +:+ dTone +:+ " tone and " +:+ dLength
                      +:+ " email length! We'll ensure the emails maintain a " +:+ dTone
                      +:+ " tone and are " +:+ dLength
                      +:+ " in length. Let's move on to gather any additional context or specific requirements you might have for this campaign. Is there any particular information or detail you'd like to include?")
           (withNextStep context
              (withDraftField "emailLength" (JStr dLength)
                 (withDraftField "tone" (JStr dTone) result))))
    else result
  else result.

(** "Handle additional context input - preserve verbatim" *)
Definition captureAdditionalContext (userInput : string) (currentDraft : gmap string JsVal)
    (result : AssistantResponse) : AssistantResponse :=
  if Js.truthy (Js.get currentDraft "targetAudience")
     && Js.truthy (Js.get currentDraft "tone")
     && negb (Js.truthy (Js.get currentDraft "additionalContext"))
     && (10 <? JsString.len (JsString.trim userInput))
  then
    withSuggestions personalizationSuggestions
      (withMessage "Perfect! I've captured your additional context exactly as provided. Now, would you like to enable personalization for each candidate? This will customize the email content based on each candidate's profile data."
         (withNextStep personalization
            (withDraftField "additionalContext" (JStr userInput) result)))
  else result.

Definition isEnablingPersonalization (inputLower : string) : bool :=
  JsString.includes inputLower "yes"
  || JsString.includes inputLower "enable"
  || JsString.includes inputLower "personalization"
  || JsString.includes inputLower "customize"
  || JsString.includes inputLower "personalize".

(** "Handle personalization preference input" *)
Definition detectPersonalizationPreference (userInput : string)
    (currentDraft : gmap string JsVal) (result : AssistantResponse) : AssistantResponse :=
  if Js.truthy (Js.get currentDraft "additionalContext")
     && Js.isStr (nextStep result) "personalization"
     && (0 <? JsString.len (JsString.trim userInput))
  then
    let enabling := isEnablingPersonalization (JsString.toLowerCase userInput) in
    withSuggestions [ "Generate the campaign now";
                      "Let me review the details first";
                      "I want to make some changes" ]
      (withMessage
         (if enabling
          then "Great! I've enabled personalization for your campaign. Each email will be customized based on the candidate's profile data. Your campaign is now ready for generation. Let me review the details with you before we proceed."
          else "Understood. I've disabled personalization for your campaign. All candidates will receive the same email content. Your campaign is now ready for generation. Let me review the details with you before we proceed.")
         (withNextStep review
            (withDraftField "enablePersonalization" (JBool enabling) result)))
  else result.

(** The body of the [try] block once the response is parsed; [None] when it
    throws. *)
Definition processParsedResponse (userInput : string) (currentDraft : gmap string JsVal)
    (recentSearches : list string) (parsedResponse : JsVal) : option AssistantResponse :=
  result ← initialResult parsedResponse currentDraft;
  Some (detectPersonalizationPreference userInput currentDraft
          (captureAdditionalContext userInput currentDraft
             (detectToneAndLength userInput currentDraft
                (detectTargetAudience userInput currentDraft
                   (suggestFromRecentSearches recentSearches
                      (autoAdvanceToAudience currentDraft result)))))).

(** [processUserInput].  [conversationHistory] only enters the prompt of the
    model call, whose outcome is [llm]. *)
Definition processUserInput (userInput : string) (currentDraft : gmap string JsVal)
    (recentSearches : list string) (llm : LlmOutcome) : AssistantResponse :=
  match llm with
  | LlmParsed parsedResponse =>
      match processParsedResponse userInput currentDraft recentSearches parsedResponse with
      | Some result => result
      | None => createFallbackResponse userInput currentDraft recentSearches
      end
  | LlmRejects | LlmNoContent | LlmNotJson _ =>
      createFallbackResponse userInput currentDraft recentSearches
  end.

(** ** Email steps, catalog examples, collateral and drafts *)

Module Email.

(** [interface EmailStep] (openai.ts).  The interface declares string and
    number fields, but the generators fill them from a parsed model response
    of type [any], so at run time a field holds an arbitrary value. *)
Record EmailStep : Type := {
  id : string;
  type : JsVal;
  subject : JsVal;
  content : JsVal;
  delay : JsVal;
  delayUnit : JsVal
}.

End Email.

Module Collateral.

(** Modelled from the spec: the declaration of [CompanyCollateral] in
    [src/lib/supabase] is not among the sources; the fields are those the
    spec lists and the code reads (type tag, content text, links). *)
Record CompanyCollateral : Type := {
  type : string;
  content : string;
  links : list string
}.

End Collateral.

Module Example.

Record SequenceAndExamples : Type := {
  steps : Z;
  duration : Z;
  examples : list string
}.

(** Modelled from the spec: the declaration of [CampaignExample] in
    [src/types] is not among the sources; the fields are those the spec lists
    for a catalog entry and the code reads. *)
Record CampaignExample : Type := {
  id : string;
  campaignType : string;
  goal : string;
  sequenceAndExamples : SequenceAndExamples;
  collateralToUse : list string
}.

End Example.

Inductive EmailLength : Type := short | concise | medium | long.

Definition emailLengthName (l : EmailLength) : string :=
  match l with
  | short => "short"
  | concise => "concise"
  | medium => "medium"
  | long => "long"
  end.

Module Draft.

(** Modelled from the spec: the declaration of [CampaignDraft] in
    [src/types] is not among the sources.  The generator takes a complete
    [CampaignDraft]: [goal] is a string (the code calls [substring] on it
    unguarded), every other field is optional (the code guards each read with
    [||] or an [if]), and [emailLength] ranges over its four names, the keys
    of [emailLengthSpecs]. *)
Record CampaignDraft : Type := {
  goal : string;
  matchedExampleId : option string;
  targetAudience : option string;
  tone : option string;
  emailLength : option EmailLength;
  additionalContext : option string;
  enablePersonalization : option bool;
  companyName : option string;
  recruiterName : option string
}.

End Draft.

(** ** The deterministic email template *)

Module Template.

Definition nl : string := String "010"%char EmptyString.

Fixpoint html (s : string) : string :=
  match s with
  | EmptyString => EmptyString
  | String c r => (if Ascii.eqb c "~"%char then JsString.dq else String c EmptyString) +:+ html r
  end.

(** Static text of the templates is written with [~] standing for the double
    quote, one literal per line of the source. *)
Notation "'h' s" := (html s) (at level 9, s at level 0, only parsing).

Definition lines (l : list string) : string := JsString.join nl l.

Definition nonEmpty (s : string) : bool := negb (String.eqb s EmptyString).

Definition startMarker : string := "<!-- PERSONALIZATION_SECTION_START -->".
Definition endMarker : string := "<!-- PERSONALIZATION_SECTION_END -->".

(** A template literal prints an absent string as [undefined]. *)
Definition shown (o : option string) : string := Js.toString (Js.ofOption o).

Definition collateralParagraph (text : string) : string :=
  lines [ EmptyString;
          h "      <p style=~color: #555; font-size: 16px; margin: 0 0 15px 0;~>";
          "        " +:+ text;
          "      </p>";
          "      " ].

(** [benefitsHeading] is the one place where the two copies of
    [createEmailContent] differ. *)
Definition benefitsBlock (benefitsHeading companyBenefits : string) : string :=
  lines [ EmptyString;
          h "      <div style=~margin: 15px 0;~>";
          h "        <p style=~color: #555; font-size: 16px; margin: 0 0 10px 0;~>"
            +:+ benefitsHeading +:+ "</p>";
          h "        <ul style=~color: #555; font-size: 16px; margin: 0; padding-left: 20px;~>";
          h "          <li style=~margin-bottom: 8px;~>" +:+ companyBenefits +:+ "</li>";
          "        </ul>";
          "      </div>";
          "      " ].

Definition contentBase (benefitsHeading : string) (index : nat)
    (title contextText companyInfo companyMission companyBenefits : string) : string :=
  lines [ h "<table width=~100%~ cellpadding=~0~ cellspacing=~0~ style=~max-width: 600px; margin: 0 auto; font-family: Arial, sans-serif; line-height: 1.6;~>";
          "  <tr>";
          h "    <td style=~padding: 20px;~>";
          h "      <h2 style=~color: #333; font-size: 20px; margin: 0 0 15px 0;~>Hi {{First Name}},</h2>";
          "      ";
          h "      <p style=~color: #555; font-size: 16px; margin: 0 0 15px 0;~>";
          "        " +:+ title +:+ h " at <strong style=~color: #333;~>{{Company Name}}</strong>.";
          "      </p>";
          "      ";
          h "      <p style=~color: #555; font-size: 16px; margin: 0 0 15px 0;~>";
          "        " +:+ contextText;
          "      </p>";
          "      ";
          "      " +:+ (if (index =? 0)%nat && nonEmpty companyInfo
                        then collateralParagraph companyInfo else EmptyString);
          "      ";
          "      " +:+ (if (index =? 1)%nat && nonEmpty companyMission
                        then collateralParagraph companyMission else EmptyString);
          "      ";
          "      " +:+ (if (index =? 2)%nat && nonEmpty companyBenefits
                        then benefitsBlock benefitsHeading companyBenefits else EmptyString) ].

Definition personalizationSentence (index : nat) (companyName : string) : string :=
  if (index =? 0)%nat
  then h "Your experience at <strong style=~color: #333;~>{{Current Company}}</strong> caught my attention, particularly your background in healthcare."
  else if (index =? 1)%nat
  then "Your skills in {{Skill}} would be valuable to our team at " +:+ companyName +:+ "."
  else "Your professional journey at {{Current Company}} shows the kind of expertise we're looking for.".

Definition personalizationSection (index : nat) (companyName : string) : string :=
  lines [ EmptyString;
          "      " +:+ startMarker;
          h "      <p style=~color: #555; font-size: 16px; margin: 15px 0;~>";
          "        " +:+ personalizationSentence index companyName;
          "      </p>";
          "      " +:+ endMarker ].

Definition callToAction (index : nat) : string :=
  lines [ EmptyString;
          h "      <p style=~color: #555; font-size: 16px; margin: 15px 0;~>";
          (if (index =? 0)%nat
           then "        Would you be interested in exploring opportunities with us?"
           else if (index =? 1)%nat
           then h "        I'd love to discuss how your experience at <strong style=~color: #333;~>{{Current Company}}</strong> could be valuable to our team."
           else "        Would you be available for a brief conversation this week?");
          "      </p>";
          "      " ].

Definition linkBlock (index : nat) (companyName talentCommunityLink careerSiteLink : string) : string :=
  if nonEmpty talentCommunityLink && (index =? 2)%nat
  then lines [ EmptyString;
               h "      <div style=~margin: 20px 0;~>";
               h "        <a href=~" +:+ talentCommunityLink
                 +:+ h "~ style=~display: inline-block; padding: 10px 20px; background-color: #0066cc; color: white; text-decoration: none; border-radius: 4px; font-weight: bold;~>Join Our Talent Community</a>";
               "      </div>";
               "      " ]
  else if nonEmpty careerSiteLink
  then lines [ EmptyString;
               h "      <p style=~color: #555; font-size: 16px; margin: 15px 0;~>";
               "        Learn more about opportunities at " +:+ companyName
                 +:+ h ": <a href=~" +:+ careerSiteLink
                 +:+ h "~ style=~color: #0066cc; text-decoration: none; font-weight: bold;~>View Career Site</a>";
               "      </p>";
               "      " ]
  else EmptyString.

Definition contentTail (index : nat) (companyName talentCommunityLink careerSiteLink : string) : string :=
  lines [ EmptyString;
          "      " +:+ callToAction index;
          "      ";
          "      " +:+ linkBlock index companyName talentCommunityLink careerSiteLink;
          "      ";
          h "      <p style=~color: #555; font-size: 16px; margin: 15px 0 0 0;~>";
          "        Best regards,<br>";
          h "        <strong style=~color: #333;~>{{Your Name}}</strong>";
          "      </p>";
          "    </td>";
          "  </tr>";
          "</table>" ].

(** [find(item => item.type === tag)] *)
Definition findByType (tag : string) (l : list Collateral.CompanyCollateral)
    : option Collateral.CompanyCollateral :=
  List.find (fun item => String.eqb (Collateral.type item) tag) l.

(** The text a collateral item of type [tag] contributes: its content,
    truncated to 150 code units when [limit] is set; empty when the list has
    no such item. *)
Definition collateralText (tag : string) (limit : bool) (l : list Collateral.CompanyCollateral)
    : string :=
  if (0 <? length l)%nat
  then match findByType tag l with
       | Some item => if limit then JsString.substring (Collateral.content item) 0 150
                      else Collateral.content item
       | None => EmptyString
       end
  else EmptyString.

(** [createEmailContent(index, title)] of both generators: [contextText] is
    the additional context (or the AI instructions) with its default already
    applied, [companyName] the printed company name. *)
Definition createEmailContent (benefitsHeading contextText companyName : string)
    (enablePersonalization : bool) (l : list Collateral.CompanyCollateral)
    (index : nat) (title : string) : string :=
  contentBase benefitsHeading index title contextText
    (collateralText "who_we_are" true l)
    (collateralText "mission_statements" true l)
    (collateralText "benefits" true l)
  +:+ (if enablePersonalization then personalizationSection index companyName else EmptyString)
  +:+ contentTail index companyName
        (collateralText "talent_community_link" false l)
        (collateralText "career_site_link" false l).

End Template.

(** ** The campaign generator (campaignAssistantAI.ts) *)

(** What a generator ends in: an error that leaves the function, or the
    returned campaign record and email steps. *)
Inductive Generation : Type :=
| Throws (error : string)
| Returns (campaignData : gmap string JsVal) (emailSteps : list Email.EmailStep).

Definition noGuidelineError : string :=
  "No matching campaign example found. Cannot proceed without a guideline.".

Definition truthyString (o : option string) : bool :=
  match o with
  | Some s => negb (String.eqb s EmptyString)
  | None => false
  end.

Definition defaultContext : string :=
  "We have exciting opportunities that align with your background and career goals.".

(** [`step-${index + 1}`] *)
Definition stepId (index : nat) : string := "step-" +:+ JsString.ofNat (index + 1).

(** [l.map((x, index) => f(index, x))] for a callback that may throw. *)
Fixpoint mapIndexed {A B : Type} (f : nat -> A -> option B) (index : nat) (l : list A)
    : option (list B) :=
  match l with
  | [] => Some []
  | x :: r =>
      y ← f index x;
      ys ← mapIndexed f (S index) r;
      Some (y :: ys)
  end.

(** The callback of [result.emailSteps.map] in [generateCampaignFromDraft];
    reading a property of a [null] element throws. *)
Definition ensureStep (index : nat) (step : JsVal) : option Email.EmailStep :=
  type ← Js.getField step "type";
  subject ← Js.getField step "subject";
  content ← Js.getField step "content";
  delay ← Js.getField step "delay";
  delayUnit ← Js.getField step "delayUnit";
  Some {| Email.id := stepId index;
          Email.type := Js.or type (JStr "email");
          Email.subject := Js.or subject (JStr ("Follow-up " +:+ JsString.ofNat (index + 1)));
          Email.content := Js.or content (JStr "Email content here...");
          Email.delay := if (index =? 0)%nat then JNum 0
                         else Js.or delay (JNum (Z.of_nat index * 2));
          Email.delayUnit := if (index =? 0)%nat then JStr "immediately"
                             else Js.or delayUnit (JStr "business days") |}.

(** [array.map(f)] on a value of type [any]: only an array has [map]. *)
Definition mapArray {B : Type} (f : nat -> JsVal -> option B) (v : JsVal) : option (list B) :=
  match v with
  | JArr l => mapIndexed f 0%nat l
  | _ => None
  end.

Definition optBool (o : option bool) : bool := default false o.

Definition lengthOrConcise (o : option EmailLength) : string :=
  emailLengthName (default concise o).

(** The part of the [try] block that follows [JSON.parse]. *)
Definition campaignFromResponse (draft : Draft.CampaignDraft) (result : JsVal)
    : option (gmap string JsVal * list Email.EmailStep) :=
  steps ← Js.getField result "emailSteps";
  emailSteps ← mapArray ensureStep steps;
  data ← Js.getField result "campaignData";
  Some (<["enablePersonalization" := JBool (optBool (Draft.enablePersonalization draft))]>
          (<["emailLength" := JStr (lengthOrConcise (Draft.emailLength draft))]>
             (Js.spread data)),
        emailSteps).

Definition fallbackCampaignData (draft : Draft.CampaignDraft) (example : Example.CampaignExample)
    : gmap string JsVal :=
  {[ "name" := JStr (JsString.substring (Draft.goal draft) 0 50
                     +:+ (if 50 <? JsString.len (Draft.goal draft) then "..." else EmptyString));
     "type" := JStr (Example.campaignType example);
     "targetAudience" := Js.ofOption (Draft.targetAudience draft);
     "campaignGoal" := JStr (Draft.goal draft);
     "tone" := Js.ofOption (Draft.tone draft);
     "emailLength" := JStr (lengthOrConcise (Draft.emailLength draft));
     "companyName" := Js.ofOption (Draft.companyName draft);
     "recruiterName" := Js.ofOption (Draft.recruiterName draft);
     "contentSources" := Js.strings (Example.collateralToUse example);
     "aiInstructions" := Js.ofOption (Draft.additionalContext draft);
     "enablePersonalization" := JBool (optBool (Draft.enablePersonalization draft)) ]}.

Definition draftEmailContent (draft : Draft.CampaignDraft)
    (relevantCompanyCollateral : list Collateral.CompanyCollateral)
    (index : nat) (title : string) : string :=
  Template.createEmailContent
    (Template.html "<strong style=~color: #333;~>Our benefits include:</strong>")
    (if truthyString (Draft.additionalContext draft)
     then default EmptyString (Draft.additionalContext draft) else defaultContext)
    (Template.shown (Draft.companyName draft))
    (optBool (Draft.enablePersonalization draft))
    relevantCompanyCollateral index title.

Definition fallbackStep (draft : Draft.CampaignDraft)
    (relevantCompanyCollateral : list Collateral.CompanyCollateral)
    (index : nat) (exampleTitle : string) : Email.EmailStep :=
  {| Email.id := stepId index;
     Email.type := JStr "email";
     Email.subject := JStr ("{{First Name}}, " +:+ JsString.toLowerCase exampleTitle);
     Email.content := JStr (draftEmailContent draft relevantCompanyCollateral index exampleTitle);
     Email.delay := JNum (if (index =? 0)%nat then 0 else Z.of_nat index * 2);
     Email.delayUnit := JStr (if (index =? 0)%nat then "immediately" else "business days") |}.

Definition createFallbackCampaign (draft : Draft.CampaignDraft)
    (example : Example.CampaignExample)
    (relevantCompanyCollateral : list Collateral.CompanyCollateral)
    : gmap string JsVal * list Email.EmailStep :=
  (fallbackCampaignData draft example,
   imap (fallbackStep draft relevantCompanyCollateral)
        (Example.examples (Example.sequenceAndExamples example))).

Section Generator.

(** Modelled from the spec: [findCampaignExampleById] and
    [findCampaignExampleByGoal] live in [src/data/campaignExamples], which is
    not among the sources; they are lookups into the static catalog by id and
    by goal text that may find no example. *)
Variable findCampaignExampleById : string -> option Example.CampaignExample.
Variable findCampaignExampleByGoal : string -> option Example.CampaignExample.

(** The lookup by [matchedExampleId], made only when the id is set. *)
Definition lookupById (draft : Draft.CampaignDraft) : option Example.CampaignExample :=
  if truthyString (Draft.matchedExampleId draft)
  then findCampaignExampleById (default EmptyString (Draft.matchedExampleId draft))
  else None.

(** "Find matching campaign example using matchedExampleId first, then
    fallback to goal matching" *)
Definition findMatchingExample (draft : Draft.CampaignDraft) : option Example.CampaignExample :=
  match lookupById draft with
  | Some example => Some example
  | None => findCampaignExampleByGoal (Draft.goal draft)
  end.

Definition generateCampaignFromDraft (draft : Draft.CampaignDraft)
    (relevantCompanyCollateral : list Collateral.CompanyCollateral) (llm : LlmOutcome)
    : Generation :=
  match findMatchingExample draft with
  | None => Throws noGuidelineError
  | Some matchingExample =>
      let fallback :=
        let r := createFallbackCampaign draft matchingExample relevantCompanyCollateral in
        Returns (fst r) (snd r) in
      match llm with
      | LlmParsed result =>
          match campaignFromResponse draft result with
          | Some r => Returns (fst r) (snd r)
          | None => fallback
          end
      | LlmRejects | LlmNoContent | LlmNotJson _ => fallback
      end
  end.

End Generator.

(** ** Sequence generation, personalization and tokens (openai.ts) *)

Module Prompt.

(** [interface CampaignPrompt] *)
Record CampaignPrompt : Type := {
  campaignType : string;
  targetAudience : string;
  campaignGoal : string;
  contentSources : list string;
  aiInstructions : string;
  tone : string;
  emailLength : option EmailLength;
  companyName : string;
  recruiterName : string;
  enablePersonalization : option bool
}.

End Prompt.

Module Candidate.

(** The [candidate] parameter of [generatePersonalizedContent] and
    [applyTokenReplacement], and an entry of [testCandidates]. *)
Record Candidate : Type := {
  name : string;
  company : string;
  skills : list string
}.

End Candidate.

Module ParseInt.

Definition digitValue (radix : Z) (c : ascii) : option Z :=
  let n := Z.of_nat (JsString.code c) in
  let d := if (48 <=? n) && (n <=? 57) then n - 48
           else if (97 <=? n) && (n <=? 122) then n - 87
           else if (65 <=? n) && (n <=? 90) then n - 55
           else radix in
  if d <? radix then Some d else None.

(** The value of the longest prefix of digits, [None] when there is none. *)
Fixpoint digits (radix : Z) (acc : option Z) (s : string) : option Z :=
  match s with
  | EmptyString => acc
  | String c r =>
      match digitValue radix c with
      | Some d => digits radix (Some (default 0 acc * radix + d)) r
      | None => acc
      end
  end.

Definition unsigned (s : string) : option Z :=
  if JsString.startsWith s "0x" || JsString.startsWith s "0X"
  then digits 16 None (JsString.drop 2 s)
  else digits 10 None s.

(** [parseInt(v)] without a radix: leading white space is skipped, a sign
    and a [0x] prefix are honoured, and the longest prefix of digits is read;
    [None] stands for NaN.  The value is the integer that the digits denote,
    which is what JavaScript returns up to the size 2^53; beyond that
    JavaScript returns the nearest double, and [Infinity] past the range of
    doubles. *)
Definition parseInt (v : JsVal) : option Z :=
  match JsString.trimStart (Js.toString v) with
  | String c r =>
      if Ascii.eqb c "-"%char then Z.opp <$> unsigned r
      else if Ascii.eqb c "+"%char then unsigned r
      else unsigned (String c r)
  | EmptyString => None
  end.

End ParseInt.

(** The callback of [emailData.map] in [generateCampaignSequence]. *)
Definition validateEmail (index : nat) (email : JsVal) : option Email.EmailStep :=
  delayUnit ← Js.getField email "delayUnit";
  type ← Js.getField email "type";
  subject ← Js.getField email "subject";
  content ← Js.getField email "content";
  delay ← Js.getField email "delay";
  Some {| Email.id := stepId index;
          Email.type := if Js.isStr type "connection" then JStr "connection" else JStr "email";
          Email.subject := Js.or subject (JStr ("Follow-up " +:+ JsString.ofNat (index + 1)));
          Email.content := Js.or content (JStr "Email content here...");
          Email.delay :=
            JNum (Z.max 0
                    (match ParseInt.parseInt delay with
                     | Some n => if n =? 0
                                 then (if (index =? 0)%nat then 0 else Z.of_nat index * 2)
                                 else n
                     | None => if (index =? 0)%nat then 0 else Z.of_nat index * 2
                     end));
          Email.delayUnit :=
            if (index =? 0)%nat then JStr "immediately"
            else if Js.isStr delayUnit "immediately" || Js.isStr delayUnit "business days"
            then delayUnit
            else JStr "business days" |}.

Definition promptEmailContent (prompt : Prompt.CampaignPrompt)
    (relevantCompanyCollateral : list Collateral.CompanyCollateral)
    (index : nat) (title : string) : string :=
  Template.createEmailContent
    "Our benefits include:"
    (if Template.nonEmpty (Prompt.aiInstructions prompt)
     then Prompt.aiInstructions prompt else defaultContext)
    (Prompt.companyName prompt)
    (optBool (Prompt.enablePersonalization prompt))
    relevantCompanyCollateral index title.

Definition fallbackSequence (prompt : Prompt.CampaignPrompt)
    (relevantCompanyCollateral : list Collateral.CompanyCollateral) : list Email.EmailStep :=
  [ {| Email.id := "step-1";
       Email.type := JStr "email";
       Email.subject := JStr "{{First Name}}, interested in a new opportunity?";
       Email.content := JStr (promptEmailContent prompt relevantCompanyCollateral 0 "Opportunity");
       Email.delay := JNum 0;
       Email.delayUnit := JStr "immediately" |};
    {| Email.id := "step-2";
       Email.type := JStr "email";
       Email.subject := JStr "Following up on healthcare opportunities";
       Email.content := JStr (promptEmailContent prompt relevantCompanyCollateral 1 "Follow-up");
       Email.delay := JNum 3;
       Email.delayUnit := JStr "business days" |};
    {| Email.id := "step-3";
       Email.type := JStr "email";
       Email.subject := JStr "Last follow-up - {{Company Name}} opportunities";
       Email.content := JStr (promptEmailContent prompt relevantCompanyCollateral 2 "Final follow-up");
       Email.delay := JNum 5;
       Email.delayUnit := JStr "business days" |} ].

(** [generateCampaignSequence]: here the content of the response is parsed as
    it is, and the parsed value itself must be the array of emails. *)
Definition generateCampaignSequence (prompt : Prompt.CampaignPrompt)
    (relevantCompanyCollateral : list Collateral.CompanyCollateral) (llm : LlmOutcome)
    : list Email.EmailStep :=
  match llm with
  | LlmParsed emailData =>
      match mapArray validateEmail emailData with
      | Some emailSteps => emailSteps
      | None => fallbackSequence prompt relevantCompanyCollateral
      end
  | LlmRejects | LlmNoContent | LlmNotJson _ => fallbackSequence prompt relevantCompanyCollateral
  end.

(** [candidate.skills[0] || 'healthcare'] *)
Definition firstSkill (skills : list string) : string :=
  match skills with
  | s :: _ => if Template.nonEmpty s then s else "healthcare"
  | [] => "healthcare"
  end.

(** "Helper function to apply token replacement throughout the email" *)
Definition applyTokenReplacement (content : string) (candidate : Candidate.Candidate) : string :=
  JsString.replaceAll
    (JsString.replaceAll
       (JsString.replaceAll
          (JsString.replaceAll
             (JsString.replaceAll content
                "{{First Name}}" (JsString.firstSpaceField (Candidate.name candidate)))
             "{{Current Company}}" (Candidate.company candidate))
          "{{Company Name}}" "HCA Healthcare")
       "{{Your Name}}" "Saurabh Agrawal")
    "{{Skill}}" (firstSkill (Candidate.skills candidate)).

(** [hasPersonalizationSection] (CampaignStepsEditor.tsx), and the guard of
    [generatePersonalizedContent]. *)
Definition hasPersonalizationSection (content : string) : bool :=
  JsString.includes content Template.startMarker
  && JsString.includes content Template.endMarker.

Definition wrapParagraph (personalizedContent : string) : string :=
  if JsString.includes personalizedContent "<p" then personalizedContent
  else Template.html "<p style=~color: #555; font-size: 16px; margin: 15px 0; background-color: #f0f7ff; padding: 15px; border-left: 4px solid #0066cc; border-radius: 4px;~>"
       +:+ personalizedContent +:+ "</p>".

(** "Replace the personalization section in the email" *)
Definition replaceSection (emailContent personalizedContent : string) : string :=
  if hasPersonalizationSection emailContent
  then
    let startIndex := JsString.indexOf emailContent Template.startMarker in
    let endIndex := JsString.indexOf emailContent Template.endMarker
                    + JsString.len Template.endMarker in
    JsString.substring emailContent 0 startIndex
    +:+ Template.startMarker
    +:+ Template.nl +:+ personalizedContent +:+ Template.nl
    +:+ Template.endMarker
    +:+ JsString.substringFrom emailContent endIndex
  else emailContent.

(** The result of [generatePersonalizedContent] together with the number of
    requests sent to the model. *)
Record Personalized : Type := {
  output : string;
  requests : nat
}.

Definition generatePersonalizedContent (emailContent : string)
    (candidate : Candidate.Candidate) (llm : LlmText) : Personalized :=
  if negb (JsString.includes emailContent Template.startMarker)
     || negb (JsString.includes emailContent Template.endMarker)
  then {| output := applyTokenReplacement emailContent candidate; requests := 0 |}
  else
    match llm with
    | TextContent response =>
        if Template.nonEmpty response
        then {| output := applyTokenReplacement
                          (replaceSection emailContent (wrapParagraph (JsString.trim response)))
                          candidate;
                requests := 1 |}
        else {| output := applyTokenReplacement emailContent candidate; requests := 1 |}
    | TextRejects => {| output := applyTokenReplacement emailContent candidate; requests := 1 |}
    end.

(** ** The step editor (CampaignStepsEditor.tsx) *)

Module Editor.

(** The props and state of the component that the modelled handlers read or
    write.  [user], [currentProject] and [editingCampaign] are kept as the
    [id] they carry, absent when the object or its [id] is. *)
Record State : Type := {
  campaignData : gmap string JsVal;
  emailSteps : list Email.EmailStep;
  activeStepId : string;
  user : option string;
  currentProject : option string;
  editingCampaign : option string;
  selectedTestCandidate : string
}.

Definition withSteps (steps : list Email.EmailStep) (active : string) (st : State) : State :=
  {| campaignData := campaignData st; emailSteps := steps; activeStepId := active;
     user := user st; currentProject := currentProject st;
     editingCampaign := editingCampaign st;
     selectedTestCandidate := selectedTestCandidate st |}.


Definition newStepContent : string :=
  Template.lines
    [ Template.html "<table width=~100%~ cellpadding=~0~ cellspacing=~0~ style=~max-width: 600px; margin: 0 auto; font-family: Arial, sans-serif; line-height: 1.6;~>";
      "  <tr>";
      Template.html "    <td style=~padding: 20px;~>";
      Template.html "      <h2 style=~color: #333; font-size: 20px; margin: 0 0 15px 0;~>Hi {{First Name}},</h2>";
      "      ";
      Template.html "      <p style=~color: #555; font-size: 16px; margin: 0 0 15px 0;~>";
      Template.html "        I wanted to follow up on our previous conversation about opportunities at <strong style=~color: #333;~>{{Company Name}}</strong>.";
      "      </p>";
      "      ";
      Template.html "      <p style=~color: #555; font-size: 16px; margin: 0 0 15px 0;~>";
      "        We have some exciting new positions that might be a perfect fit for your background and career goals:";
      "      </p>";
      "      ";
      Template.html "      <ul style=~color: #555; font-size: 16px; margin: 15px 0; padding-left: 20px;~>";
      Template.html "        <li style=~margin-bottom: 8px;~>Competitive compensation packages</li>";
      Template.html "        <li style=~margin-bottom: 8px;~>Comprehensive benefits</li>";
      Template.html "        <li style=~margin-bottom: 8px;~>Professional development opportunities</li>";
      "      </ul>";
      "      ";
      Template.html "      <p style=~color: #555; font-size: 16px; margin: 15px 0;~>";
      "        Would you be available for a brief call this week? ";
      Template.html "        <a href=~#~ style=~color: #0066cc; text-decoration: none; font-weight: bold;~>Schedule a conversation</a>";
      "      </p>";
      "      ";
      Template.html "      <p style=~color: #555; font-size: 16px; margin: 15px 0 0 0;~>";
      "        Best regards,<br>";
      Template.html "        <strong style=~color: #333;~>{{Your Name}}</strong>";
      "      </p>";
      "    </td>";
      "  </tr>";
      "</table>" ].

Definition addEmailStep (st : State) : State :=
  let n := length (emailSteps st) in
  let newStep :=
    {| Email.id := "step-" +:+ JsString.ofNat (n + 1);
       Email.type := JStr "email";
       Email.subject := JStr "Following up on our conversation";
       Email.content := JStr newStepContent;
       Email.delay := JNum (if (n =? 0)%nat then 0 else 3);
       Email.delayUnit := JStr (if (n =? 0)%nat then "immediately" else "business days") |} in
  withSteps (emailSteps st ++ [newStep]) (Email.id newStep) st.

(** [steps.filter(step => step.id !== stepId)] *)
Definition withoutId (stepId : string) (steps : list Email.EmailStep) : list Email.EmailStep :=
  List.filter (fun step => negb (String.eqb (Email.id step) stepId)) steps.

(** [steps.findIndex(step => step.id === stepId)], -1 when there is none. *)
Fixpoint findIndex (stepId : string) (steps : list Email.EmailStep) : Z :=
  match steps with
  | [] => -1
  | step :: r =>
      if String.eqb (Email.id step) stepId then 0
      else let i := findIndex stepId r in if i <? 0 then -1 else i + 1
  end.

(** [remaining[i]?.id] *)
Definition idAt (remaining : list Email.EmailStep) (i : nat) : option string :=
  Email.id <$> remaining !! i.

Definition removeEmailStep (stepId : string) (st : State) : State :=
  let stepIndex := findIndex stepId (emailSteps st) in
  let remainingSteps := withoutId stepId (emailSteps st) in
  let active :=
    if (0 <? length remainingSteps)%nat
    then let newActiveIndex := Z.to_nat (Z.max 0 (stepIndex - 1)) in
         if truthyString (idAt remainingSteps newActiveIndex)
         then default EmptyString (idAt remainingSteps newActiveIndex)
         else default EmptyString (idAt remainingSteps 0)
    else activeStepId st in
  withSteps remainingSteps active st.

(** [duplicateEmailStep]; [now] is the value of [Date.now()]. *)
Definition duplicateEmailStep (now : Z) (stepId : string) (st : State) : State :=
  match List.find (fun step => String.eqb (Email.id step) stepId) (emailSteps st) with
  | Some stepToDuplicate =>
      let newStep :=
        {| Email.id := "step-" +:+ JsString.ofZ now;
           Email.type := Email.type stepToDuplicate;
           Email.subject := JStr (Js.toString (Email.subject stepToDuplicate) +:+ " (Copy)");
           Email.content := Email.content stepToDuplicate;
           Email.delay := JNum 3;
           Email.delayUnit := JStr "business days" |} in
      let stepIndex := Z.to_nat (findIndex stepId (emailSteps st)) in
      withSteps (take (stepIndex + 1) (emailSteps st) ++ [newStep]
                 ++ drop (stepIndex + 1) (emailSteps st))
                (Email.id newStep) st
  | None => st
  end.

(** [!v?.trim()]: true for [undefined], [null] and a string that is blank;
    a value of another kind has no [trim], and calling it throws ([None]). *)
Definition blank (v : JsVal) : option bool :=
  match v with
  | JUndefined | JNull => Some true
  | JStr s => Some (String.eqb (JsString.trim s) EmptyString)
  | _ => None
  end.

Definition when (b : bool) (error : string) : list string := if b then [error] else [].

(** The three checks of one step inside [emailSteps.forEach]. *)
Definition stepErrors (index : nat) (step : Email.EmailStep) : option (list string) :=
  noSubject ← blank (Email.subject step);
  noContent ← blank (Email.content step);
  let label := "Email step " +:+ JsString.ofNat (index + 1) in
  Some (when noSubject (label +:+ ": Subject is required")
        ++ when noContent (label +:+ ": Content is required")
        ++ when (negb (Js.isStr (Email.delayUnit step) "immediately")
                 && negb (Js.isStr (Email.delayUnit step) "business days"))
             (label +:+ ": Invalid delay unit (must be 'immediately' or 'business days')")).

(** [validateCampaignData]; [None] when a TypeError leaves it. *)
Definition validateCampaignData (st : State) : option (list string) :=
  noName ← blank (Js.get (campaignData st) "name");
  noAudience ← blank (Js.get (campaignData st) "targetAudience");
  noGoal ← blank (Js.get (campaignData st) "campaignGoal");
  perStep ← mapIndexed stepErrors 0%nat (emailSteps st);
  Some (when noName "Campaign name is required"
        ++ when (negb (Js.truthy (Js.get (campaignData st) "type"))) "Campaign type is required"
        ++ when noAudience "Target audience is required"
        ++ when noGoal "Campaign goal is required"
        ++ when (length (emailSteps st) =? 0)%nat "At least one email step is required"
        ++ when (negb (truthyString (user st))) "User authentication required"
        ++ when (negb (truthyString (currentProject st))) "Project selection required"
        ++ concat perStep).

Inductive PersistenceCall : Type :=
| UpdateCampaign (id : string)
| CreateCampaign.

(** How far [handleSave] gets.  The record and the steps handed to the
    persistence call are not modelled, only whether the call is made:
    it is made exactly when validation passes and the record is built
    without a TypeError (which the [catch] turns into a save error). *)
Inductive SaveOutcome : Type :=
| ValidationThrows
| ValidationFailed (saveError : string)
| PreparationThrows
| Calls (call : PersistenceCall).

(** [v.trim()] is defined on a string only. *)
Definition hasTrim (v : JsVal) : bool :=
  match v with
  | JStr _ => true
  | _ => false
  end.

Definition handleSave (st : State) : SaveOutcome :=
  match validateCampaignData st with
  | None => ValidationThrows
  | Some validationErrors =>
      if (0 <? length validationErrors)%nat
      then ValidationFailed ("Please fix the following issues: "
                             +:+ JsString.join ", " validationErrors)
      else
        if hasTrim (Js.get (campaignData st) "name")
           && hasTrim (Js.get (campaignData st) "targetAudience")
           && hasTrim (Js.get (campaignData st) "campaignGoal")
           && bool_decide (is_Some (blank (Js.get (campaignData st) "aiInstructions")))
           && hasTrim (Js.get (campaignData st) "companyName")
           && hasTrim (Js.get (campaignData st) "recruiterName")
        then match editingCampaign st with
             | Some id => if Template.nonEmpty id then Calls (UpdateCampaign id)
                          else Calls CreateCampaign
             | None => Calls CreateCampaign
             end
        else PreparationThrows
  end.



End Editor.

(** ** Vocabulary of the stated properties *)

(** A draft field counts as set when its value is truthy, which is how the
    code itself tests it. *)
Definition isSet (draft : gmap string JsVal) (k : string) : bool :=
  Js.truthy (Js.get draft k).

(** The draft waits for the additional context. *)
Definition contextPending (draft : gmap string JsVal) : bool :=
  isSet draft "goal" && isSet draft "targetAudience" && isSet draft "tone"
  && negb (isSet draft "additionalContext").




(** The draft properties the response of the model carries in its
    [campaignDraft], and the [nextStep] it states. *)
Definition patchOf (llm : LlmOutcome) : gmap string JsVal :=
  match llm with
  | LlmParsed (JObj m) => Js.spread (Js.get m "campaignDraft")
  | _ => ∅
  end.

Definition statedNextStep (llm : LlmOutcome) : JsVal :=
  match llm with
  | LlmParsed (JObj m) => Js.get m "nextStep"
  | _ => JUndefined
  end.

(** The response is one on which the [try] block of [processUserInput] runs
    to its end. *)
Definition usable (llm : LlmOutcome) : bool :=
  match llm with
  | LlmParsed JNull | LlmParsed JUndefined => false
  | LlmParsed _ => true
  | _ => false
  end.

(** The lowercased input contains an audience, location or experience
    keyword. *)
Definition hasAudienceKeyword (userInput : string) : bool :=
  someIncluded audienceKeywords (JsString.toLowerCase userInput)
  || someIncluded locationKeywords (JsString.toLowerCase userInput)
  || someIncluded experienceKeywords (JsString.toLowerCase userInput).

(** [free c s]: the code unit [c] does not occur in [s]. *)
Fixpoint free (c : ascii) (s : string) : bool :=
  match s with
  | EmptyString => true
  | String d r => negb (Ascii.eqb d c) && free c r
  end.

(** Number of positions of [s] at which [sub] occurs. *)
Fixpoint countOcc (s sub : string) : nat :=
  ((if JsString.startsWith s sub then 1 else 0)
   + match s with
     | EmptyString => 0
     | String _ r => countOcc r sub
     end)%nat.

(** The result of a generator as a list of steps; none when it throws. *)
Definition emailStepsOf (g : Generation) : list Email.EmailStep :=
  match g with
  | Returns _ steps => steps
  | Throws _ => []
  end.

(** The delay invariant of an email-step list: the first step is sent
    immediately with delay 0, every later one after business days. *)
Definition delaysWellFormed (steps : list Email.EmailStep) : Prop :=
  (forall s, steps !! 0%nat = Some s ->
             Email.delay s = JNum 0 /\ Email.delayUnit s = JStr "immediately")
  /\ (forall i s, steps !! S i = Some s -> Email.delayUnit s = JStr "business days").

(** The personalization contract of one step content: exactly one start and
    one end marker when personalization is enabled, neither marker when it
    is not. *)
Definition personalizationContract (enabled : bool) (content : JsVal) : Prop :=
  exists text, content = JStr text
    /\ if enabled
       then countOcc text Template.startMarker = 1%nat
            /\ countOcc text Template.endMarker = 1%nat
       else JsString.includes text Template.startMarker = false
            /\ JsString.includes text Template.endMarker = false.

(** The model call did not yield a campaign: it failed, or the [try] block
    threw on its response. *)
Definition llmFails (draft : Draft.CampaignDraft) (llm : LlmOutcome) : bool :=
  match llm with
  | LlmParsed result =>
      match campaignFromResponse draft result with
      | Some _ => false
      | None => true
      end
  | _ => true
  end.

(** The [i]-th element of the [emailSteps] array of the model's response. *)
Definition responseStep (llm : LlmOutcome) (i : nat) : option JsVal :=
  match llm with
  | LlmParsed result =>
      match Js.getField result "emailSteps" with
      | Some (JArr l) => l !! i
      | _ => None
      end
  | _ => None
  end.

(** Sample data for the concrete instances below. *)
Definition sampleExample : Example.CampaignExample :=
  {| Example.id := "talent-community";
     Example.campaignType := "nurture";
     Example.goal := "Build a talent community";
     Example.sequenceAndExamples :=
       {| Example.steps := 3; Example.duration := 10;
          Example.examples := [ "Welcome to our community"; "Life on our teams";
                                "Stay in touch" ] |};
     Example.collateralToUse := [ "who_we_are"; "benefits" ] |}.

Definition sampleCatalogById (id : string) : option Example.CampaignExample :=
  if String.eqb id "talent-community" then Some sampleExample else None.

Definition emptyCatalog (key : string) : option Example.CampaignExample := None.

Definition sampleDraft (enablePersonalization : bool) (additionalContext : option string)
    : Draft.CampaignDraft :=
  {| Draft.goal := "Build a talent community";
     Draft.matchedExampleId := Some "talent-community";
     Draft.targetAudience := Some "ICU nurses in Denver";
     Draft.tone := Some "friendly";
     Draft.emailLength := Some concise;
     Draft.additionalContext := additionalContext;
     Draft.enablePersonalization := Some enablePersonalization;
     Draft.companyName := Some "Acme Health";
     Draft.recruiterName := Some "Dana Fox" |}.

(** [lastIsNot c x]: [x] does not end with the code unit [c]. *)
Fixpoint lastIsNot (c : ascii) (x : string) : bool :=
  match x with
  | EmptyString => true
  | String d r =>
      match r with
      | EmptyString => negb (Ascii.eqb d c)
      | String _ _ => lastIsNot c r
      end
  end.

(** [headIsNot c x]: [x] does not begin with the code unit [c]. *)
Definition headIsNot (c : ascii) (x : string) : bool :=
  match x with
  | EmptyString => true
  | String d _ => negb (Ascii.eqb d c)
  end.

(** [pairFree a b s]: nowhere in [s] is the code unit [a] directly followed
    by [b]. *)
Fixpoint pairFree (a b : ascii) (s : string) : bool :=
  match s with
  | EmptyString => true
  | String c r => negb (Ascii.eqb c a && negb (headIsNot b r)) && pairFree a b r
  end.

(** [s] does not contain the two code units that open an HTML comment, and
    with it a personalization marker. *)
Definition opensNoComment (s : string) : bool := pairFree "<"%char "!"%char s.

(** None of the texts that the fallback generator interpolates into a step
    (the example titles, the additional context, the company name and the
    collateral contents) opens an HTML comment. *)
Definition commentFreeInputs (draft : Draft.CampaignDraft) (example : Example.CampaignExample)
    (relevantCompanyCollateral : list Collateral.CompanyCollateral) : bool :=
  opensNoComment (default EmptyString (Draft.additionalContext draft))
  && opensNoComment (default EmptyString (Draft.companyName draft))
  && forallb opensNoComment (Example.examples (Example.sequenceAndExamples example))
  && forallb (fun item => opensNoComment (Collateral.content item)) relevantCompanyCollateral.















Definition sampleCandidate : Candidate.Candidate :=
  {| Candidate.name := "Sarah Johnson"; Candidate.company := "Baptist Health";
     Candidate.skills := [ "Pediatric Care"; "Family Education" ] |}.




Definition sampleStep (id subject : string) : Email.EmailStep :=
  {| Email.id := id; Email.type := JStr "email"; Email.subject := JStr subject;
     Email.content := JStr "<p>Hi {{First Name}}</p>"; Email.delay := JNum 3;
     Email.delayUnit := JStr "business days" |}.

Definition sampleEditor (targetAudience : string) (steps : list Email.EmailStep)
    : Editor.State :=
  {| Editor.campaignData :=
       {[ "name" := JStr "Talent community";
          "type" := JStr "nurture";
          "targetAudience" := JStr targetAudience;
          "campaignGoal" := JStr "Build a talent community";
          "tone" := JStr "friendly";
          "companyName" := JStr "Acme Health";
          "recruiterName" := JStr "Dana Fox" ]};
     Editor.emailSteps := steps;
     Editor.activeStepId := "step-1";
     Editor.user := Some "user-1";
     Editor.currentProject := Some "project-1";
     Editor.editingCampaign := None;
     Editor.selectedTestCandidate := "Sarah Johnson" |}.

(** The personalization section of the template, cut around its two
    markers. *)
Definition sectionLead : string := Template.nl +:+ "      ".

Definition sectionBody (index : nat) (companyName : string) : string :=
  Template.lines
    [ EmptyString;
      Template.html "      <p style=~color: #555; font-size: 16px; margin: 15px 0;~>";
      "        " +:+ Template.personalizationSentence index companyName;
      "      </p>";
      "      " ].


(** ** Cleaning of a model response (campaignAssistantAI.ts) *)

(** [s.replace(/^```json\s*/i, '')]: when the text begins with three
    backticks and the letters [json], in either case, these and the white
    space that follows them are removed. *)
Definition stripJsonFence (s : string) : string :=
  if JsString.startsWith (JsString.toLowerCase s) "```json"
  then JsString.trimStart (JsString.drop 7 s)
  else s.

(** [s.replace(/^```\s*/i, '')] *)
Definition stripFence (s : string) : string :=
  if JsString.startsWith s "```" then JsString.trimStart (JsString.drop 3 s) else s.

(** [s.replace(/\s*```$/i, '')]: the match is sought from the left, so it
    begins at the first position from which only white space and then three
    backticks remain up to the end of the text. *)
Fixpoint stripClosingFence (s : string) : string :=
  if String.eqb (JsString.trimStart s) "```" then EmptyString
  else match s with
       | EmptyString => EmptyString
       | String c r => String c (stripClosingFence r)
       end.

(** "Utility function to clean markdown code blocks from AI responses" *)
Definition cleanJsonResponse (response : string) : string :=
  JsString.trim (stripClosingFence (stripFence (stripJsonFence response))).

(** [s] consists of white space only. *)
Fixpoint allWhite (s : string) : bool :=
  match s with
  | EmptyString => true
  | String c r => JsString.isWhiteSpace c && allWhite r
  end.

(** [s] begins like the text of a JSON object or array. *)
Definition opensJson (s : string) : bool :=
  JsString.startsWith s "{" || JsString.startsWith s "[".

(** The language tag of an opening fence: none, or [json] in any case. *)
Definition fenceTag (tag : string) : bool :=
  String.eqb tag EmptyString || String.eqb (JsString.toLowerCase tag) "json".

(** ** The stage description of the prompt (campaignAssistantAI.ts) *)

Definition getConversationStage (draft : gmap string JsVal) : string :=
  if negb (Js.truthy (Js.get draft "goal")) then "starting the campaign creation process"
  else if negb (Js.truthy (Js.get draft "targetAudience")) then "defining their target audience"
  else if negb (Js.truthy (Js.get draft "tone"))
  then "selecting the campaign tone and email length"
  else if negb (Js.truthy (Js.get draft "additionalContext")) then "providing additional context"
  else if Js.truthy (Js.get draft "additionalContext")
          && Js.isUndefined (Js.get draft "enablePersonalization")
  then "choosing personalization preferences"
  else "reviewing their campaign details".

(** The draft field that [determineNextStep] finds missing when it returns a
    state. *)
Definition askedField (s : Step) : string :=
  match s with
  | goal => "goal"
  | audience => "targetAudience"
  | tone => "tone"
  | context => "additionalContext"
  | personalization => "enablePersonalization"
  | review | generate => EmptyString
  end.

(** The [suggestions] that the response of the model carries. *)
Definition statedSuggestions (llm : LlmOutcome) : JsVal :=
  match llm with
  | LlmParsed (JObj m) => Js.get m "suggestions"
  | _ => JUndefined
  end.

(** ** Campaign naming (openai.ts) *)

(** [generateCampaignName].  The three parameters only enter the prompt and
    the fallback name; [llm] is the outcome of the awaited call, a response
    without content being the empty text, on which the optional chain ending
    in [?.trim()] yields [undefined]. *)
Definition generateCampaignName (campaignType targetAudience campaignGoal : string)
    (llm : LlmText) : string :=
  let fallbackName := campaignType +:+ " Campaign" in
  match llm with
  | TextContent content =>
      let response := JsString.trim content in
      if Template.nonEmpty response then response else fallbackName
  | TextRejects => fallbackName
  end.


(** The ids [step-1], ..., [step-n]. *)
Definition stepIds (n : nat) : list string := stepId <$> seq 0 n.

(** ** Editing a step (CampaignStepsEditor.tsx) *)

Module Editing.

(** [emailSteps.find(step => step.id === activeStepId)] *)
Definition activeStep (st : Editor.State) : option Email.EmailStep :=
  List.find (fun step => String.eqb (Email.id step) (Editor.activeStepId st))
            (Editor.emailSteps st).

(** The keys of [EmailStep] that the component passes to [updateEmailStep]:
    every key but [id], which no call names. *)
Inductive Field : Type := type | subject | content | delay | delayUnit.

(** [{ ...step, [field]: value }] *)
Definition setField (field : Field) (value : JsVal) (step : Email.EmailStep) : Email.EmailStep :=
  {| Email.id := Email.id step;
     Email.type := match field with type => value | _ => Email.type step end;
     Email.subject := match field with subject => value | _ => Email.subject step end;
     Email.content := match field with content => value | _ => Email.content step end;
     Email.delay := match field with delay => value | _ => Email.delay step end;
     Email.delayUnit := match field with delayUnit => value | _ => Email.delayUnit step end |}.

Definition updateEmailStep (stepId : string) (field : Field) (value : JsVal)
    (st : Editor.State) : Editor.State :=
  Editor.withSteps
    (List.map (fun step => if String.eqb (Email.id step) stepId
                           then setField field value step else step)
              (Editor.emailSteps st))
    (Editor.activeStepId st) st.

(** [activeStep.content + text]: the content is printed as a string in front
    of the text. *)
Definition appended (step : Email.EmailStep) (text : string) : JsVal :=
  JStr (Js.toString (Email.content step) +:+ text).

Definition insertPersonalizationToken (token : string) (st : Editor.State) : Editor.State :=
  match activeStep st with
  | Some step =>
      updateEmailStep (Email.id step) content (appended step ("{{" +:+ token +:+ "}}")) st
  | None => st
  end.

(** The [switch] of [insertHTMLTemplate]; none for a type it does not list. *)
Definition htmlTemplate (templateType : string) : option string :=
  if String.eqb templateType "button" then
    Some (Template.lines
            [ Template.html "<div style=~margin: 20px 0;~>";
              Template.html "  <a href=~#~ style=~display: inline-block; padding: 10px 20px; background-color: #0066cc; color: white; text-decoration: none; border-radius: 4px; font-weight: bold;~>Click Here</a>";
              "</div>" ])
  else if String.eqb templateType "list" then
    Some (Template.lines
            [ Template.html "<ul style=~color: #555; font-size: 16px; margin: 15px 0; padding-left: 20px;~>";
              Template.html "  <li style=~margin-bottom: 8px;~>First item</li>";
              Template.html "  <li style=~margin-bottom: 8px;~>Second item</li>";
              Template.html "  <li style=~margin-bottom: 8px;~>Third item</li>";
              "</ul>" ])
  else if String.eqb templateType "section" then
    Some (Template.lines
            [ Template.html "<div style=~margin: 20px 0; padding: 15px; background-color: #f5f5f5; border-left: 4px solid #0066cc; border-radius: 4px;~>";
              Template.html "  <h3 style=~color: #333; font-size: 18px; margin: 0 0 10px 0;~>Section Heading</h3>";
              Template.html "  <p style=~color: #555; font-size: 16px; margin: 0;~>Important information goes here.</p>";
              "</div>" ])
  else if String.eqb templateType "quote" then
    Some (Template.lines
            [ Template.html "<blockquote style=~margin: 20px 0; padding: 10px 20px; border-left: 4px solid #ccc; font-style: italic; color: #666;~>";
              Template.html "  ~This is a testimonial or quote that adds credibility to your message.~";
              "</blockquote>" ])
  else if String.eqb templateType "image" then
    Some (Template.lines
            [ Template.html "<div style=~margin: 20px 0; text-align: center;~>";
              Template.html "  <img src=~https://example.com/image.jpg~ alt=~Description of image~ style=~max-width: 100%; height: auto; border-radius: 4px;~ />";
              Template.html "  <p style=~color: #777; font-size: 14px; margin-top: 5px;~>Caption text</p>";
              "</div>" ])
  else if String.eqb templateType "personalization" then
    Some (Template.lines
            [ "<!-- PERSONALIZATION_SECTION_START -->";
              Template.html "<p style=~color: #555; font-size: 16px; margin: 15px 0;~>";
              "  Your experience with {{Skill}} at {{Current Company}} would be valuable in our team.";
              "</p>";
              "<!-- PERSONALIZATION_SECTION_END -->" ])
  else None.

Definition insertHTMLTemplate (templateType : string) (st : Editor.State) : Editor.State :=
  match activeStep st with
  | None => st
  | Some step =>
      match htmlTemplate templateType with
      | Some template => updateEmailStep (Email.id step) content (appended step template) st
      | None => st
      end
  end.


End Editing.

(** The ids of the steps in the editor, in order. *)
Definition idsOf (st : Editor.State) : list string := Email.id <$> Editor.emailSteps st.

(** The id [addEmailStep] gives the step it adds. *)
Definition nextId (st : Editor.State) : string :=
  "step-" +:+ JsString.ofNat (length (Editor.emailSteps st) + 1).

(** The copy [duplicateEmailStep] makes of a step at the time [now]. *)
Definition copyOf (now : Z) (step : Email.EmailStep) : Email.EmailStep :=
  {| Email.id := "step-" +:+ JsString.ofZ now;
     Email.type := Email.type step;
     Email.subject := JStr (Js.toString (Email.subject step) +:+ " (Copy)");
     Email.content := Email.content step;
     Email.delay := JNum 3;
     Email.delayUnit := JStr "business days" |}.

(** The [isComplete] flag that the response of the model carries. *)
Definition statedComplete (llm : LlmOutcome) : JsVal :=
  match llm with
  | LlmParsed (JObj m) => Js.get m "isComplete"
  | _ => JUndefined
  end.

(** The delay that the model wrote for an email is one that the code reads
    exactly: [parseInt] finds no integer in it, or an integer of size at most
    2^53.  (Beyond that JavaScript rounds the value to a double, prints a
    number from 10^21 on in exponent form, and reads a long enough digit
    string as [Infinity].) *)
Definition exactDelay (email : JsVal) : bool :=
  match Js.getField email "delay" with
  | Some delay =>
      match ParseInt.parseInt delay with
      | Some n => Z.abs n <=? 2 ^ 53
      | None => true
      end
  | None => true
  end.

Definition exactDelays (llm : LlmOutcome) : bool :=
  match llm with
  | LlmParsed (JArr emails) => forallb exactDelay emails
  | _ => true
  end.







(** ** The generator and the personalization on run-time values *)

(** TypeScript erases its types.  The draft handed to
    [generateCampaignFromDraft] is the object that a conversation turn
    returned, into which the patch of the model was spread unchecked, and the
    content handed to [generatePersonalizedContent] is the [content] of a
    step, which the generator copies from the model's response.  This section
    embeds both functions once more, on values of type [any] and with every
    operation of their bodies that can throw, inside and outside the [try]
    block.  On values of the declared types they agree with the embeddings
    above. *)

Module Runtime.

(** What leaves a function: an [Error] made by the code, a TypeError (a
    property read of [undefined] or [null], or a call of a value that is no
    function), or what [getAIModelForTask] threw. *)
Inductive Thrown : Type :=
| ErrorOf (message : string)
| TypeError
| ConfigError.

(** How the promise of an [async] function settles. *)
Inductive Outcome (A : Type) : Type :=
| Rejects (error : Thrown)
| Resolves (a : A).

Arguments Rejects {A} error.
Arguments Resolves {A} a.

(** The call [getAIModelForTask(task)].  The function lives in
    [src/config/ai], which is not among the sources, so the outcome of the
    call is an input of the embedding: it throws, or it returns a value,
    whose [model] property the request reads inside the [try] block. *)
Inductive ModelConfig : Type :=
| ConfigThrows
| ConfigIs (modelConfig : JsVal).


(** [modelConfig.model] is read without a TypeError. *)
Definition modelReadable (config : ModelConfig) : bool :=
  match config with
  | ConfigIs modelConfig => bool_decide (is_Some (Js.getField modelConfig "model"))
  | ConfigThrows => false
  end.

(** *** [generateCampaignFromDraft] *)

(** The property names that every object inherits from [Object.prototype]. *)
Definition objectPrototypeKeys : list string :=
  [ "constructor"; "hasOwnProperty"; "isPrototypeOf"; "propertyIsEnumerable";
    "toLocaleString"; "toString"; "valueOf"; "__proto__";
    "__defineGetter__"; "__defineSetter__"; "__lookupGetter__"; "__lookupSetter__" ].

(** [emailLengthSpecs[draft.emailLength || 'concise']] is an object, so that
    reading its [range] does not throw: the key is one of the four of the
    table, or names an inherited property (whose [range] is [undefined]). *)
Definition hasLengthSpec (draft : gmap string JsVal) : bool :=
  let key := Js.toString (Js.or (Js.get draft "emailLength") (JStr "concise")) in
  existsb (String.eqb key) (emailLengthName <$> [ short; concise; medium; long ])
  || existsb (String.eqb key) objectPrototypeKeys.

(** The part of the [try] block that follows [JSON.parse]. *)
Definition campaignFromResponse (draft : gmap string JsVal) (result : JsVal)
    : option (gmap string JsVal * list Email.EmailStep) :=
  steps ← Js.getField result "emailSteps";
  emailSteps ← mapArray ensureStep steps;
  data ← Js.getField result "campaignData";
  Some (<["enablePersonalization" :=
            Js.or (Js.get draft "enablePersonalization") (JBool false)]>
          (<["emailLength" := Js.or (Js.get draft "emailLength") (JStr "concise")]>
             (Js.spread data)),
        emailSteps).

(** [campaignData] of [createFallbackCampaign]: [draft.goal.substring] is a
    function only when the goal is a string. *)
Definition fallbackCampaignData (draft : gmap string JsVal) (example : Example.CampaignExample)
    : option (gmap string JsVal) :=
  match Js.get draft "goal" with
  | JStr goalText =>
      Some {[ "name" := JStr (JsString.substring goalText 0 50
                              +:+ (if 50 <? JsString.len goalText
                                   then "..." else EmptyString));
              "type" := JStr (Example.campaignType example);
              "targetAudience" := Js.get draft "targetAudience";
              "campaignGoal" := JStr goalText;
              "tone" := Js.get draft "tone";
              "emailLength" := Js.or (Js.get draft "emailLength") (JStr "concise");
              "companyName" := Js.get draft "companyName";
              "recruiterName" := Js.get draft "recruiterName";
              "contentSources" := Js.strings (Example.collateralToUse example);
              "aiInstructions" := Js.get draft "additionalContext";
              "enablePersonalization" :=
                Js.or (Js.get draft "enablePersonalization") (JBool false) ]}
  | _ => None
  end.

Definition draftEmailContent (draft : gmap string JsVal)
    (relevantCompanyCollateral : list Collateral.CompanyCollateral)
    (index : nat) (title : string) : string :=
  Template.createEmailContent
    (Template.html "<strong style=~color: #333;~>Our benefits include:</strong>")
    (Js.toString (Js.or (Js.get draft "additionalContext") (JStr defaultContext)))
    (Js.toString (Js.get draft "companyName"))
    (Js.truthy (Js.get draft "enablePersonalization"))
    relevantCompanyCollateral index title.

Definition fallbackStep (draft : gmap string JsVal)
    (relevantCompanyCollateral : list Collateral.CompanyCollateral)
    (index : nat) (exampleTitle : string) : Email.EmailStep :=
  {| Email.id := stepId index;
     Email.type := JStr "email";
     Email.subject := JStr ("{{First Name}}, " +:+ JsString.toLowerCase exampleTitle);
     Email.content := JStr (draftEmailContent draft relevantCompanyCollateral index exampleTitle);
     Email.delay := JNum (if (index =? 0)%nat then 0 else Z.of_nat index * 2);
     Email.delayUnit := JStr (if (index =? 0)%nat then "immediately" else "business days") |}.

(** [createFallbackCampaign]; [None] when the TypeError of the first
    property of its record leaves it. *)
Definition createFallbackCampaign (draft : gmap string JsVal)
    (example : Example.CampaignExample)
    (relevantCompanyCollateral : list Collateral.CompanyCollateral)
    : option (gmap string JsVal * list Email.EmailStep) :=
  campaignData ← fallbackCampaignData draft example;
  Some (campaignData,
        imap (fallbackStep draft relevantCompanyCollateral)
             (Example.examples (Example.sequenceAndExamples example))).

Section Generator.

(** The two catalog lookups (see the section of the same name above), here
    on whatever value the draft holds. *)
Variable findCampaignExampleById : JsVal -> option Example.CampaignExample.
Variable findCampaignExampleByGoal : JsVal -> option Example.CampaignExample.

Definition lookupById (draft : gmap string JsVal) : option Example.CampaignExample :=
  if Js.truthy (Js.get draft "matchedExampleId")
  then findCampaignExampleById (Js.get draft "matchedExampleId")
  else None.

Definition findMatchingExample (draft : gmap string JsVal) : option Example.CampaignExample :=
  match lookupById draft with
  | Some example => Some example
  | None => findCampaignExampleByGoal (Js.get draft "goal")
  end.

(** [generateCampaignFromDraft].  Between the lookup and the [try] block the
    function calls [getAIModelForTask] and builds its prompts, which read
    [lengthSpec.range]; the [catch] block returns the fallback campaign,
    whose construction can throw in turn. *)
Definition generateCampaignFromDraft (draft : gmap string JsVal)
    (relevantCompanyCollateral : list Collateral.CompanyCollateral)
    (config : ModelConfig) (llm : LlmOutcome)
    : Outcome (gmap string JsVal * list Email.EmailStep) :=
  match findMatchingExample draft with
  | None => Rejects (ErrorOf noGuidelineError)
  | Some matchingExample =>
      match config with
      | ConfigThrows => Rejects ConfigError
      | ConfigIs modelConfig =>
          if hasLengthSpec draft
          then
            let fallback :=
              match createFallbackCampaign draft matchingExample relevantCompanyCollateral with
              | Some r => Resolves r
              | None => Rejects TypeError
              end in
            match Js.getField modelConfig "model" with
            | Some _ =>
                match llm with
                | LlmParsed result =>
                    match campaignFromResponse draft result with
                    | Some r => Resolves r
                    | None => fallback
                    end
                | LlmRejects | LlmNoContent | LlmNotJson _ => fallback
                end
            | None => fallback
            end
          else Rejects TypeError
      end
  end.

End Generator.

(** The [catch] block of [generateCampaignFromDraft] is entered. *)
Definition llmFails (draft : gmap string JsVal) (config : ModelConfig) (llm : LlmOutcome)
    : bool :=
  negb (modelReadable config)
  || match llm with
     | LlmParsed result =>
         match campaignFromResponse draft result with
         | Some _ => false
         | None => true
         end
     | _ => true
     end.

(** *** [generatePersonalizedContent] and [applyTokenReplacement] *)

(** [v.includes(lit)]: a string has the method of strings and an array that
    of arrays, which looks for an element equal to [lit]; on any other value
    the call throws ([None]). *)
Definition includes (v : JsVal) (lit : string) : option bool :=
  match v with
  | JStr s => Some (JsString.includes s lit)
  | JArr l => Some (existsb (fun x => Js.isStr x lit) l)
  | _ => None
  end.

(** [candidate.skills[0] || 'healthcare']; reading an index of [undefined]
    or [null] throws. *)
Definition firstSkill (skills : JsVal) : option JsVal :=
  match skills with
  | JUndefined | JNull => None
  | _ => Some (Js.or (Js.get (Js.spread skills) "0") (JStr "healthcare"))
  end.

(** [name.split(' ')[0]]: only a string has [split]. *)
Definition firstName (name : JsVal) : option string :=
  match name with
  | JStr s => Some (JsString.firstSpaceField s)
  | _ => None
  end.

(** [applyTokenReplacement]: only a string has [replace]; a replacement
    value that is no string is converted to one.  [None] is a TypeError. *)
Definition applyTokenReplacement (content candidate : JsVal) : option string :=
  match content with
  | JStr text =>
      name ← Js.getField candidate "name";
      first ← firstName name;
      company ← Js.getField candidate "company";
      skills ← Js.getField candidate "skills";
      skill ← firstSkill skills;
      Some (JsString.replaceAll
              (JsString.replaceAll
                 (JsString.replaceAll
                    (JsString.replaceAll
                       (JsString.replaceAll text "{{First Name}}" first)
                       "{{Current Company}}" (Js.toString company))
                    "{{Company Name}}" "HCA Healthcare")
                 "{{Your Name}}" "Saurabh Agrawal")
              "{{Skill}}" (Js.toString skill))
  | _ => None
  end.

(** [return applyTokenReplacement(content, candidate)] after [requests]
    requests to the model. *)
Definition replaced (content candidate : JsVal) (requests : nat) : Outcome Personalized :=
  match applyTokenReplacement content candidate with
  | Some text => Resolves {| output := text; requests := requests |}
  | None => Rejects TypeError
  end.

(** [candidate.skills.join(', ')]: only an array has [join]. *)
Definition joinable (skills : JsVal) : bool :=
  match skills with
  | JArr _ => true
  | _ => false
  end.

(** [generatePersonalizedContent].  Before the [try] block the function reads
    [candidate.name], calls [emailContent.includes], and, when both markers
    are found, calls [getAIModelForTask] and builds its prompts, which call
    [candidate.skills.join].  Whatever is thrown inside the [try] block,
    also by the token replacement that ends it, is caught, and the [catch]
    block returns the token replacement of the original content, which can
    throw in turn.  (The match below reads [candidate.skills] and makes both
    calls of [includes] at once: a property of a candidate whose [name] was
    read can be read, and the second call throws exactly when the first
    does.) *)
Definition generatePersonalizedContent (emailContent candidate : JsVal)
    (config : ModelConfig) (llm : LlmText) : Outcome Personalized :=
  match Js.getField candidate "name", Js.getField candidate "skills",
        includes emailContent Template.startMarker,
        includes emailContent Template.endMarker with
  | Some _, Some skills, Some hasStart, Some hasEnd =>
      if negb hasStart || negb hasEnd
      then replaced emailContent candidate 0
      else
        match config with
        | ConfigThrows => Rejects ConfigError
        | ConfigIs modelConfig =>
            if joinable skills
            then
              match Js.getField modelConfig "model" with
              | Some _ =>
                  match llm, emailContent with
                  | TextContent response, JStr text =>
                      if Template.nonEmpty response
                      then
                        match applyTokenReplacement
                                (JStr (replaceSection text
                                         (wrapParagraph (JsString.trim response))))
                                candidate with
                        | Some updated => Resolves {| output := updated; requests := 1 |}
                        | None => replaced emailContent candidate 1
                        end
                      else replaced emailContent candidate 1
                  | _, _ => replaced emailContent candidate 1
                  end
              | None => replaced emailContent candidate 0
              end
            else Rejects TypeError
        end
  | _, _, _, _ => Rejects TypeError
  end.


End Runtime.

(** A value of a declared type as the run-time value it is. *)
Definition candidateValue (candidate : Candidate.Candidate) : JsVal :=
  JObj {[ "name" := JStr (Candidate.name candidate);
          "company" := JStr (Candidate.company candidate);
          "skills" := Js.strings (Candidate.skills candidate) ]}.

Definition optionalField (k : string) (v : option JsVal) (m : gmap string JsVal)
    : gmap string JsVal :=
  match v with
  | Some x => <[k := x]> m
  | None => m
  end.

Definition draftValue (draft : Draft.CampaignDraft) : gmap string JsVal :=
  optionalField "matchedExampleId" (JStr <$> Draft.matchedExampleId draft)
    (optionalField "targetAudience" (JStr <$> Draft.targetAudience draft)
       (optionalField "tone" (JStr <$> Draft.tone draft)
          (optionalField "emailLength"
             (JStr <$> (emailLengthName <$> Draft.emailLength draft))
             (optionalField "additionalContext" (JStr <$> Draft.additionalContext draft)
                (optionalField "enablePersonalization"
                   (JBool <$> Draft.enablePersonalization draft)
                   (optionalField "companyName" (JStr <$> Draft.companyName draft)
                      (optionalField "recruiterName" (JStr <$> Draft.recruiterName draft)
                         {[ "goal" := JStr (Draft.goal draft) ]}))))))).

(** The catalog lookups of a typed caller, on run-time values. *)
Definition onStrings (find : string -> option Example.CampaignExample) (v : JsVal)
    : option Example.CampaignExample :=
  match v with
  | JStr s => find s
  | _ => None
  end.


(** ** Facts about strings *)

Local Arguments String.append : simpl nomatch.

Lemma append_assoc' (a b c : string) : (a +:+ b) +:+ c = a +:+ (b +:+ c).
Proof. induction a as [|x a IH]; cbn; [reflexivity | rewrite IH; reflexivity]. Qed.

Lemma append_empty_r (a : string) : a +:+ EmptyString = a.
Proof. induction a as [|x a IH]; cbn; [reflexivity | rewrite IH; reflexivity]. Qed.

Lemma free_app c a b : free c (a +:+ b) = free c a && free c b.
Proof.
  induction a as [|x a IH]; cbn; [reflexivity|]. rewrite IH. apply andb_assoc.
Qed.

Lemma free_take c n s : free c s = true -> free c (JsString.take n s) = true.
Proof.
  revert s. induction n as [|n IH]; intros [|x s]; cbn; try reflexivity.
  intros [-> H]%andb_true_iff. cbn. apply IH, H.
Qed.

Lemma free_drop c n s : free c s = true -> free c (JsString.drop n s) = true.
Proof.
  revert s. induction n as [|n IH]; intros [|x s]; cbn; try tauto.
  intros [_ H]%andb_true_iff. apply IH, H.
Qed.

Lemma free_substring c s i j : free c s = true -> free c (JsString.substring s i j) = true.
Proof. intros H. unfold JsString.substring. apply free_take, free_drop, H. Qed.

Lemma startsWith_free c s sub :
  free c s = true -> free c sub = false -> JsString.startsWith s sub = false.
Proof.
  revert s. induction sub as [|y sub IH]; intros s Hs Hsub; [discriminate Hsub|].
  destruct s as [|x s]; [reflexivity|]. cbn in *.
  apply andb_true_iff in Hs as [Hx Hs].
  destruct (Ascii.eqb_spec y x) as [-> | Hne]; [|reflexivity]. cbn.
  rewrite Hx in Hsub. cbn in Hsub. apply IH; assumption.
Qed.


Lemma countOcc_free c s sub :
  free c s = true -> free c sub = false -> countOcc s sub = 0%nat.
Proof.
  intros Hs Hsub. induction s as [|x s IH].
  - cbn [countOcc]. rewrite (startsWith_free c EmptyString sub) by assumption.
    reflexivity.
  - cbn [countOcc]. rewrite (startsWith_free c (String x s) sub) by assumption.
    cbn in Hs. apply andb_true_iff in Hs as [_ Hs]. rewrite IH by exact Hs. reflexivity.
Qed.

Lemma startsWith_app s sub : JsString.startsWith (sub +:+ s) sub = true.
Proof.
  induction sub as [|y sub IH]; [destruct s; reflexivity|].
  cbn. rewrite Ascii.eqb_refl. exact IH.
Qed.

Lemma includes_app_r a s sub :
  JsString.includes s sub = true -> JsString.includes (a +:+ s) sub = true.
Proof.
  intros H. induction a as [|x a IH]; [exact H|].
  cbn [String.append JsString.includes]. rewrite IH. apply orb_true_r.
Qed.

Lemma includes_startsWith s sub :
  JsString.startsWith s sub = true -> JsString.includes s sub = true.
Proof. intros H. destruct s; cbn [JsString.includes]; rewrite H; reflexivity. Qed.

Lemma includes_mid a b sub : JsString.includes (a +:+ sub +:+ b) sub = true.
Proof. apply includes_app_r, includes_startsWith, startsWith_app. Qed.

(** ** Conversation turns *)

Lemma initialResult_usable parsed draft :
  usable (LlmParsed parsed) = true ->
  exists r, initialResult parsed draft = Some r
            /\ campaignDraft r
               = Js.spread (default JUndefined (Js.getField parsed "campaignDraft")) ∪ draft
                 ∪ {[ "emailLength" := JStr "concise"; "enablePersonalization" := JBool false ]}
            /\ nextStep r
               = Js.or (default JUndefined (Js.getField parsed "nextStep"))
                       (JStr (stepName (determineNextStep draft))).
Proof.
  intros Hu. destruct parsed; try discriminate Hu; eexists; (split; [reflexivity|]); split; reflexivity.
Qed.

Lemma processUserInput_usable userInput draft recent parsed :
  usable (LlmParsed parsed) = true ->
  exists r, initialResult parsed draft = Some r
    /\ processUserInput userInput draft recent (LlmParsed parsed)
       = detectPersonalizationPreference userInput draft
           (captureAdditionalContext userInput draft
              (detectToneAndLength userInput draft
                 (detectTargetAudience userInput draft
                    (suggestFromRecentSearches recent
                       (autoAdvanceToAudience draft r))))).
Proof.
  intros Hu. destruct (initialResult_usable parsed draft Hu) as (r & Hr & _).
  exists r. split; [exact Hr|].
  unfold processUserInput, processParsedResponse. rewrite Hr. reflexivity.
Qed.

Lemma detectTargetAudience_skip userInput draft r :
  isSet draft "goal" = false \/ isSet draft "targetAudience" = true ->
  detectTargetAudience userInput draft r = r.
Proof.
  unfold isSet, detectTargetAudience. intros [-> | ->]; [reflexivity|].
  rewrite andb_false_r. reflexivity.
Qed.

Lemma detectToneAndLength_skip userInput draft r :
  isSet draft "targetAudience" = false \/ isSet draft "tone" = true ->
  detectToneAndLength userInput draft r = r.
Proof.
  unfold isSet, detectToneAndLength. intros [-> | ->]; [reflexivity|].
  rewrite andb_false_r. reflexivity.
Qed.

Lemma captureAdditionalContext_skip userInput draft r :
  isSet draft "targetAudience" = false \/ isSet draft "tone" = false
  \/ isSet draft "additionalContext" = true ->
  captureAdditionalContext userInput draft r = r.
Proof.
  unfold isSet, captureAdditionalContext. intros [-> | [-> | ->]]; [reflexivity| |].
  - rewrite andb_false_r. reflexivity.
  - cbn [negb]. rewrite !andb_false_r. reflexivity.
Qed.

Lemma detectPersonalizationPreference_skip userInput draft r :
  isSet draft "additionalContext" = false \/ Js.isStr (nextStep r) "personalization" = false ->
  detectPersonalizationPreference userInput draft r = r.
Proof.
  unfold isSet, detectPersonalizationPreference. intros [-> | ->]; [reflexivity|].
  rewrite andb_false_r. reflexivity.
Qed.

(** C1 (as stated) fails: in the context-pending state a short reply is not
    captured, and the draft keeps the text the model put in its patch. *)
Lemma context_short_input_not_verbatim :
  let draft : gmap string JsVal :=
    {[ "goal" := JStr "Build a talent community";
       "targetAudience" := JStr "ICU nurses in Denver";
       "tone" := JStr "friendly" ]} in
  let llm := LlmParsed (JObj {[ "campaignDraft" :=
                                  JObj {[ "additionalContext" := JStr "The user agrees" ]} ]}) in
  contextPending draft = true
  /\ Js.get (campaignDraft (processUserInput "ok thanks" draft [] llm)) "additionalContext"
     = JStr "The user agrees"
  /\ Js.get (campaignDraft (processUserInput "ok thanks" draft [] llm)) "additionalContext"
     <> JStr "ok thanks".
Proof.
  vm_compute. split; [reflexivity|]. split; [reflexivity|]. discriminate.
Qed.

(** C1 (amended): in the context-pending state, when the model's response
    parses and the trimmed input is longer than 10 code units, the returned
    draft holds the raw input, unchanged, as [additionalContext]. *)
Theorem context_stored_verbatim userInput draft recent parsed :
  isSet draft "targetAudience" = true ->
  isSet draft "tone" = true ->
  isSet draft "additionalContext" = false ->
  10 < JsString.len (JsString.trim userInput) ->
  usable (LlmParsed parsed) = true ->
  campaignDraft (processUserInput userInput draft recent (LlmParsed parsed))
    !! "additionalContext" = Some (JStr userInput).
Proof.
  intros Ha Ht Hc Hlen Hu.
  destruct (processUserInput_usable userInput draft recent parsed Hu) as (r & _ & ->).
  rewrite detectPersonalizationPreference_skip by (left; exact Hc).
  unfold captureAdditionalContext. unfold isSet in Ha, Ht, Hc. rewrite Ha, Ht, Hc.
  apply Z.ltb_lt in Hlen. rewrite Hlen. cbn.
  apply lookup_insert_eq.
Qed.

Lemma context_stored_verbatim_witness :
  let userInput := "  Please mention   our new clinic <!-- opening in May -->  " in
  let draft : gmap string JsVal :=
    {[ "goal" := JStr "Build a talent community";
       "targetAudience" := JStr "ICU nurses in Denver";
       "tone" := JStr "friendly" ]} in
  (isSet draft "targetAudience" = true
   /\ isSet draft "tone" = true
   /\ isSet draft "additionalContext" = false
   /\ 10 < JsString.len (JsString.trim userInput)
   /\ usable (LlmParsed (JObj ∅)) = true)
  /\ campaignDraft (processUserInput userInput draft [] (LlmParsed (JObj ∅)))
       !! "additionalContext" = Some (JStr userInput).
Proof.
  split.
  - vm_compute. repeat split; reflexivity.
  - apply context_stored_verbatim; vm_compute; reflexivity.
Defined.

(** C7 (as stated) fails: with the goal set and no audience yet, a reply of
    more than 10 code units without a keyword, and a short reply with a
    keyword, are both left out of the draft and the state stays [audience]. *)
Lemma audience_input_not_always_accepted :
  let draft : gmap string JsVal := {[ "goal" := JStr "Build a talent community" ]} in
  let long := processUserInput "hello world!" draft [] (LlmParsed (JObj ∅)) in
  let keyword := processUserInput "nurses" draft [] (LlmParsed (JObj ∅)) in
  isSet draft "goal" = true /\ isSet draft "targetAudience" = false
  /\ 10 < JsString.len "hello world!"
  /\ hasAudienceKeyword "nurses" = true
  /\ campaignDraft long !! "targetAudience" = None /\ nextStep long = JStr "audience"
  /\ campaignDraft keyword !! "targetAudience" = None /\ nextStep keyword = JStr "audience".
Proof.
  vm_compute. repeat split; reflexivity.
Qed.

(** C7 (amended): with the goal set and no audience yet, when the model's
    response parses, a reply whose trimmed length exceeds 20, or exceeds 10
    while its lowercase form contains an audience, location or experience
    keyword, is stored trimmed as [targetAudience], and the next state is
    [tone]. *)
Theorem audience_heuristic userInput draft recent parsed :
  isSet draft "goal" = true ->
  isSet draft "targetAudience" = false ->
  usable (LlmParsed parsed) = true ->
  (20 < JsString.len (JsString.trim userInput)
   \/ (10 < JsString.len (JsString.trim userInput) /\ hasAudienceKeyword userInput = true)) ->
  campaignDraft (processUserInput userInput draft recent (LlmParsed parsed))
    !! "targetAudience" = Some (JStr (JsString.trim userInput))
  /\ nextStep (processUserInput userInput draft recent (LlmParsed parsed)) = JStr "tone".
Proof.
  intros Hg Ha Hu Hin.
  destruct (processUserInput_usable userInput draft recent parsed Hu) as (r & _ & ->).
  set (r1 := suggestFromRecentSearches recent (autoAdvanceToAudience draft r)).
  assert (Hfire : detectTargetAudience userInput draft r1
                  = withSuggestions toneSuggestions
                      (withMessage ("Perfect! I've set your target audience as "
                                    +:+ JsString.q (JsString.trim userInput)
                                    +:+ ". Now, what tone would you like for your campaign communications, and what email length do you prefer?")
                         (withNextStep tone
                            (withDraftField "targetAudience" (JStr (JsString.trim userInput)) r1)))).
  { unfold detectTargetAudience. unfold isSet in Hg, Ha. rewrite Hg, Ha. cbn [andb negb].
    unfold hasAudienceKeyword in Hin.
    destruct Hin as [H20 | [H10 Hk]].
    - assert (H10 : (10 <? JsString.len (JsString.trim userInput)) = true) by (apply Z.ltb_lt; lia).
      apply Z.ltb_lt in H20. rewrite H10, H20. rewrite !orb_true_r. reflexivity.
    - apply Z.ltb_lt in H10. rewrite H10, Hk. reflexivity. }
  rewrite Hfire.
  rewrite detectToneAndLength_skip by (left; exact Ha).
  rewrite captureAdditionalContext_skip by (left; exact Ha).
  rewrite detectPersonalizationPreference_skip by (right; reflexivity).
  split; [apply lookup_insert_eq | reflexivity].
Qed.

Lemma audience_heuristic_witness :
  let draft : gmap string JsVal := {[ "goal" := JStr "Build a talent community" ]} in
  let userInput := "  ER nurses, Ohio  " in
  (isSet draft "goal" = true
   /\ isSet draft "targetAudience" = false
   /\ usable (LlmParsed (JObj ∅)) = true
   /\ (20 < JsString.len (JsString.trim userInput)
       \/ (10 < JsString.len (JsString.trim userInput)
           /\ hasAudienceKeyword userInput = true)))
  /\ campaignDraft (processUserInput userInput draft [] (LlmParsed (JObj ∅)))
       !! "targetAudience" = Some (JStr (JsString.trim userInput))
  /\ nextStep (processUserInput userInput draft [] (LlmParsed (JObj ∅))) = JStr "tone".
Proof.
  split.
  - vm_compute. repeat split; try reflexivity. right. split; reflexivity.
  - apply audience_heuristic; try (vm_compute; reflexivity).
    right. vm_compute. split; reflexivity.
Defined.

(** *** Frame and progress of a turn *)

Lemma isSet_lookup draft k : isSet draft k = true -> exists v, draft !! k = Some v.
Proof.
  unfold isSet, Js.get. destruct (draft !! k) as [v|]; [eauto | discriminate].
Qed.

Lemma patchOf_usable parsed :
  usable (LlmParsed parsed) = true ->
  Js.spread (default JUndefined (Js.getField parsed "campaignDraft")) = patchOf (LlmParsed parsed)
  /\ default JUndefined (Js.getField parsed "nextStep") = statedNextStep (LlmParsed parsed).
Proof.
  destruct parsed; try discriminate; intros _; split; reflexivity.
Qed.

Lemma autoAdvanceToAudience_draft draft r :
  campaignDraft (autoAdvanceToAudience draft r) = campaignDraft r.
Proof. unfold autoAdvanceToAudience. case_match; reflexivity. Qed.

Lemma suggestFromRecentSearches_draft recent r :
  campaignDraft (suggestFromRecentSearches recent r) = campaignDraft r.
Proof. unfold suggestFromRecentSearches. case_match; reflexivity. Qed.

Lemma suggestFromRecentSearches_nextStep recent r :
  nextStep (suggestFromRecentSearches recent r) = nextStep r.
Proof. unfold suggestFromRecentSearches. case_match; reflexivity. Qed.

Lemma detectTargetAudience_draft userInput draft r k :
  k <> "targetAudience" \/ isSet draft k = true ->
  campaignDraft (detectTargetAudience userInput draft r) !! k = campaignDraft r !! k.
Proof.
  intros Hk. destruct (decide (k = "targetAudience")) as [-> | Hne].
  - destruct Hk as [Hk | Hk]; [congruence|].
    rewrite detectTargetAudience_skip by (right; exact Hk). reflexivity.
  - unfold detectTargetAudience. repeat case_match; try reflexivity.
    cbn. apply lookup_insert_ne. congruence.
Qed.

Lemma detectToneAndLength_draft userInput draft r k :
  k <> "emailLength" -> k <> "tone" \/ isSet draft k = true ->
  campaignDraft (detectToneAndLength userInput draft r) !! k = campaignDraft r !! k.
Proof.
  intros Hl Hk. destruct (decide (k = "tone")) as [-> | Hne].
  - destruct Hk as [Hk | Hk]; [congruence|].
    rewrite detectToneAndLength_skip by (right; exact Hk). reflexivity.
  - unfold detectToneAndLength. repeat case_match; try reflexivity.
    cbn. rewrite lookup_insert_ne by congruence. apply lookup_insert_ne. congruence.
Qed.

Lemma captureAdditionalContext_draft userInput draft r k :
  k <> "additionalContext" \/ isSet draft k = true ->
  campaignDraft (captureAdditionalContext userInput draft r) !! k = campaignDraft r !! k.
Proof.
  intros Hk. destruct (decide (k = "additionalContext")) as [-> | Hne].
  - destruct Hk as [Hk | Hk]; [congruence|].
    rewrite captureAdditionalContext_skip by (right; right; exact Hk). reflexivity.
  - unfold captureAdditionalContext. case_match; try reflexivity.
    cbn. apply lookup_insert_ne. congruence.
Qed.

Lemma detectPersonalizationPreference_draft userInput draft r k :
  k <> "enablePersonalization" ->
  campaignDraft (detectPersonalizationPreference userInput draft r) !! k = campaignDraft r !! k.
Proof.
  intros Hk. unfold detectPersonalizationPreference. case_match; try reflexivity.
  cbn. apply lookup_insert_ne. congruence.
Qed.









Lemma processUserInput_unusable userInput draft recent llm :
  usable llm = false ->
  processUserInput userInput draft recent llm = createFallbackResponse userInput draft recent.
Proof.
  destruct llm as [| | |v]; try reflexivity. destruct v; try discriminate; reflexivity.
Qed.

(** *** What one turn writes *)












(** *** Occurrences of the personalization markers *)

Lemma pairFree_app a b s t :
  pairFree a b s = true -> pairFree a b t = true ->
  lastIsNot a s = true \/ headIsNot b t = true ->
  pairFree a b (s +:+ t) = true.
Proof.
  intros Hs Ht. induction s as [|c s IH]; intros Hb; [exact Ht|].
  cbn [pairFree] in Hs. apply andb_true_iff in Hs as [Hc Hs].
  cbn [String.append pairFree]. apply andb_true_iff. split.
  - destruct s as [|d s]; [|exact Hc]. cbn [String.append].
    destruct Hb as [Hb | Hb].
    + cbn in Hb. apply negb_true_iff in Hb. rewrite Hb. reflexivity.
    + rewrite Hb. cbn. rewrite andb_false_r. reflexivity.
  - destruct s as [|d s]; [exact Ht|]. apply IH; [exact Hs|].
    destruct Hb as [Hb | Hb]; [left; exact Hb | right; exact Hb].
Qed.

Lemma pairFree_take a b n s : pairFree a b s = true -> pairFree a b (JsString.take n s) = true.
Proof.
  revert s. induction n as [|n IH]; intros [|c s]; cbn [JsString.take pairFree];
    try reflexivity.
  intros [Hc Hs]%andb_true_iff. apply andb_true_iff. split; [|apply IH, Hs].
  destruct n as [|n]; [destruct s; cbn; rewrite andb_false_r; reflexivity|].
  destruct s as [|d s]; [cbn; rewrite andb_false_r; reflexivity | exact Hc].
Qed.

Lemma pairFree_drop a b n s : pairFree a b s = true -> pairFree a b (JsString.drop n s) = true.
Proof.
  revert s. induction n as [|n IH]; intros [|c s]; cbn [JsString.drop pairFree]; try tauto.
  intros [_ Hs]%andb_true_iff. apply IH, Hs.
Qed.

Lemma pairFree_substring a b s i j :
  pairFree a b s = true -> pairFree a b (JsString.substring s i j) = true.
Proof. intros H. unfold JsString.substring. apply pairFree_take, pairFree_drop, H. Qed.

(** Text in which [a] is never followed by [b], in front of a subject,
    cannot start an occurrence of a word that begins with [a] and [b], unless
    the text ends with [a] and the subject begins with [b]. *)
Lemma countOcc_skip a b s x sub :
  pairFree a b s = true ->
  lastIsNot a s = true \/ headIsNot b x = true ->
  countOcc (s +:+ x) (String a (String b sub)) = countOcc x (String a (String b sub)).
Proof.
  intros Hs. induction s as [|c s IH]; intros Hb; [reflexivity|].
  cbn [pairFree] in Hs. apply andb_true_iff in Hs as [Hc Hs].
  cbn [String.append countOcc].
  assert (Hn : JsString.startsWith (String c (s +:+ x)) (String a (String b sub)) = false).
  { cbn [JsString.startsWith]. destruct (Ascii.eqb_spec a c) as [<- | _]; [|reflexivity].
    rewrite Ascii.eqb_refl in Hc. cbn [andb] in *.
    destruct s as [|d s]; cbn [String.append].
    - destruct Hb as [Hb | Hb]; [cbn in Hb; rewrite Ascii.eqb_refl in Hb; discriminate Hb|].
      destruct x as [|e x]; [reflexivity|]. cbn in Hb. cbn [JsString.startsWith].
      apply negb_true_iff in Hb. rewrite (Ascii.eqb_sym b e), Hb. reflexivity.
    - cbn in Hc. rewrite negb_involutive in Hc. cbn [JsString.startsWith].
      apply negb_true_iff in Hc. rewrite (Ascii.eqb_sym b d), Hc. reflexivity. }
  rewrite Hn. cbn [Nat.add].
  destruct s as [|d s]; [reflexivity|]. apply IH; [exact Hs|].
  destruct Hb as [Hb | Hb]; [left; exact Hb | right; exact Hb].
Qed.

Lemma countOcc_pairFree a b s sub :
  pairFree a b s = true -> countOcc s (String a (String b sub)) = 0%nat.
Proof.
  intros Hs. rewrite <- (append_empty_r s).
  rewrite (countOcc_skip a b s EmptyString sub Hs) by (right; reflexivity). reflexivity.
Qed.

Lemma includes_countOcc s sub : countOcc s sub = 0%nat -> JsString.includes s sub = false.
Proof.
  induction s as [|c s IH]; cbn [countOcc JsString.includes].
  - destruct (JsString.startsWith EmptyString sub); [discriminate | reflexivity].
  - destruct (JsString.startsWith (String c s) sub); [discriminate|].
    cbn. exact IH.
Qed.

Lemma countOcc_skip_marker s x :
  opensNoComment s = true -> headIsNot "!"%char x = true ->
  countOcc (s +:+ x) Template.startMarker = countOcc x Template.startMarker
  /\ countOcc (s +:+ x) Template.endMarker = countOcc x Template.endMarker.
Proof.
  intros Hs Hx. split.
  - exact (countOcc_skip "<"%char "!"%char s x "-- PERSONALIZATION_SECTION_START -->"
             Hs (or_intror Hx)).
  - exact (countOcc_skip "<"%char "!"%char s x "-- PERSONALIZATION_SECTION_END -->"
             Hs (or_intror Hx)).
Qed.

Lemma countOcc_marker (r : string) :
  countOcc (Template.startMarker +:+ r) Template.startMarker
  = S (countOcc r Template.startMarker)
  /\ countOcc (Template.endMarker +:+ r) Template.startMarker
     = countOcc r Template.startMarker
  /\ countOcc (Template.startMarker +:+ r) Template.endMarker
     = countOcc r Template.endMarker
  /\ countOcc (Template.endMarker +:+ r) Template.endMarker
     = S (countOcc r Template.endMarker).
Proof. repeat split; reflexivity. Qed.

Lemma markers_absent s :
  opensNoComment s = true ->
  JsString.includes s Template.startMarker = false
  /\ JsString.includes s Template.endMarker = false.
Proof.
  intros H. split; apply includes_countOcc.
  - exact (countOcc_pairFree "<"%char "!"%char s "-- PERSONALIZATION_SECTION_START -->" H).
  - exact (countOcc_pairFree "<"%char "!"%char s "-- PERSONALIZATION_SECTION_END -->" H).
Qed.

Lemma markers_once a b c :
  opensNoComment a = true -> opensNoComment b = true -> opensNoComment c = true ->
  let text := a +:+ Template.startMarker +:+ b +:+ Template.endMarker +:+ c in
  countOcc text Template.startMarker = 1%nat /\ countOcc text Template.endMarker = 1%nat.
Proof.
  intros Ha Hb Hc. cbv zeta.
  destruct (countOcc_marker (b +:+ Template.endMarker +:+ c)) as (Hss & _ & Hse & _).
  destruct (countOcc_marker c) as (_ & Hes & _ & Hee).
  destruct (countOcc_skip_marker a (Template.startMarker +:+ b +:+ Template.endMarker +:+ c)
              Ha eq_refl) as (Has & Hae).
  destruct (countOcc_skip_marker b (Template.endMarker +:+ c) Hb eq_refl) as (Hbs & Hbe).
  destruct (markers_absent c Hc) as (Hcs & Hce).
  assert (Hcs0 : countOcc c Template.startMarker = 0%nat)
    by exact (countOcc_pairFree "<"%char "!"%char c "-- PERSONALIZATION_SECTION_START -->" Hc).
  assert (Hce0 : countOcc c Template.endMarker = 0%nat)
    by exact (countOcc_pairFree "<"%char "!"%char c "-- PERSONALIZATION_SECTION_END -->" Hc).
  split; congruence.
Qed.

Lemma markers_present a b c :
  hasPersonalizationSection
    (a +:+ Template.startMarker +:+ b +:+ Template.endMarker +:+ c) = true.
Proof.
  unfold hasPersonalizationSection. rewrite includes_mid. cbn [andb].
  rewrite <- (append_assoc' Template.startMarker), <- (append_assoc' a).
  apply includes_mid.
Qed.

(** *** The personalization section of the deterministic template *)

Lemma personalizationSection_shape index companyName :
  Template.personalizationSection index companyName
  = sectionLead +:+ Template.startMarker +:+ sectionBody index companyName
    +:+ Template.endMarker.
Proof.
  unfold Template.personalizationSection, sectionBody, sectionLead.
  cbn [Template.lines JsString.join]. rewrite !append_assoc'. reflexivity.
Qed.

(** Splits a goal [opensNoComment (x +:+ y)] along the concatenation; a
    piece is settled by a hypothesis or by evaluation, a seam by evaluating
    the end of the left piece or the beginning of the right one. *)
Ltac comment_free :=
  lazymatch goal with
  | |- pairFree _ _ (_ +:+ _) = true =>
      apply pairFree_app;
      [ comment_free | comment_free | first [left; reflexivity | right; reflexivity] ]
  | |- _ => first [assumption | reflexivity | idtac]
  end.

Lemma opensNoComment_collateralParagraph text :
  opensNoComment text = true -> opensNoComment (Template.collateralParagraph text) = true.
Proof.
  unfold opensNoComment, Template.collateralParagraph. intros H.
  cbn [Template.lines JsString.join]. comment_free.
Qed.

Lemma opensNoComment_benefitsBlock heading text :
  opensNoComment heading = true -> opensNoComment text = true ->
  opensNoComment (Template.benefitsBlock heading text) = true.
Proof.
  unfold opensNoComment, Template.benefitsBlock. intros Hh H.
  cbn [Template.lines JsString.join]. comment_free.
Qed.

Lemma opensNoComment_contentBase heading index title contextText info mission benefits :
  opensNoComment heading = true -> opensNoComment title = true ->
  opensNoComment contextText = true -> opensNoComment info = true ->
  opensNoComment mission = true -> opensNoComment benefits = true ->
  opensNoComment
    (Template.contentBase heading index title contextText info mission benefits) = true.
Proof.
  intros Hh Ht Hc Hi Hm Hb. unfold Template.contentBase.
  pose proof (opensNoComment_collateralParagraph info Hi) as Pi.
  pose proof (opensNoComment_collateralParagraph mission Hm) as Pm.
  pose proof (opensNoComment_benefitsBlock heading benefits Hh Hb) as Pb.
  unfold opensNoComment in *.
  cbn [Template.lines JsString.join]. comment_free; case_match; assumption || reflexivity.
Qed.

Lemma opensNoComment_sectionBody index companyName :
  opensNoComment companyName = true ->
  opensNoComment (sectionBody index companyName) = true.
Proof.
  unfold opensNoComment, sectionBody, Template.personalizationSentence. intros H.
  cbn [Template.lines JsString.join]. comment_free.
  repeat case_match; comment_free.
Qed.

Lemma opensNoComment_contentTail index companyName talentCommunityLink careerSiteLink :
  opensNoComment companyName = true -> opensNoComment talentCommunityLink = true ->
  opensNoComment careerSiteLink = true ->
  opensNoComment
    (Template.contentTail index companyName talentCommunityLink careerSiteLink) = true.
Proof.
  unfold opensNoComment. intros Hn Ht Hc.
  unfold Template.contentTail, Template.callToAction, Template.linkBlock.
  cbn [Template.lines JsString.join]. comment_free.
  - repeat case_match; reflexivity.
  - repeat case_match; cbn [Template.lines JsString.join]; comment_free.
Qed.

Lemma opensNoComment_collateralText tag limit l :
  forallb (fun item => opensNoComment (Collateral.content item)) l = true ->
  opensNoComment (Template.collateralText tag limit l) = true.
Proof.
  intros H. unfold Template.collateralText, Template.findByType.
  case_match; [|reflexivity].
  destruct (find _ l) as [item|] eqn:E; [|reflexivity].
  apply find_some in E as [Hin _].
  rewrite forallb_forall in H. specialize (H item Hin).
  case_match; [apply pairFree_substring, H | exact H].
Qed.

(** The content of a step of the deterministic template, cut at its
    personalization section. *)
Lemma createEmailContent_markers heading contextText companyName enabled l index title :
  opensNoComment heading = true -> opensNoComment contextText = true ->
  opensNoComment companyName = true -> opensNoComment title = true ->
  forallb (fun item => opensNoComment (Collateral.content item)) l = true ->
  personalizationContract enabled
    (JStr (Template.createEmailContent heading contextText companyName enabled l index title)).
Proof.
  intros Hh Hc Hn Ht Hl. eexists. split; [reflexivity|].
  unfold Template.createEmailContent.
  set (base := Template.contentBase _ _ _ _ _ _ _).
  set (tail := Template.contentTail _ _ _ _).
  assert (Hbase : opensNoComment base = true)
    by (apply opensNoComment_contentBase; try assumption;
        apply opensNoComment_collateralText, Hl).
  assert (Htail : opensNoComment tail = true)
    by (apply opensNoComment_contentTail; try assumption;
        apply opensNoComment_collateralText, Hl).
  destruct enabled.
  - rewrite personalizationSection_shape, !append_assoc', <- (append_assoc' base).
    apply markers_once; [|apply opensNoComment_sectionBody, Hn | exact Htail].
    unfold opensNoComment in *. comment_free.
  - apply markers_absent. unfold opensNoComment in *. cbn [String.append]. exact Htail || comment_free.
Qed.

Lemma createEmailContent_has_section heading contextText companyName l index title :
  hasPersonalizationSection
    (Template.createEmailContent heading contextText companyName true l index title) = true.
Proof.
  unfold Template.createEmailContent.
  rewrite personalizationSection_shape, !append_assoc'.
  rewrite <- (append_assoc' (Template.contentBase _ _ _ _ _ _ _)).
  apply markers_present.
Qed.

(** ** The generators *)

Lemma mapIndexed_lookup {A B : Type} (f : nat -> A -> option B) n l l' i y :
  mapIndexed f n l = Some l' -> l' !! i = Some y ->
  exists x, l !! i = Some x /\ f (n + i)%nat x = Some y.
Proof.
  revert n l' i. induction l as [|x l IH]; intros n l' i Hm Hy; cbn in Hm.
  - injection Hm as <-. discriminate Hy.
  - destruct (f n x) as [y0|] eqn:Hf; [|discriminate Hm]. cbn in Hm.
    destruct (mapIndexed f (S n) l) as [ys|] eqn:Hr; [|discriminate Hm]. cbn in Hm.
    injection Hm as <-. destruct i as [|i]; cbn in Hy.
    + injection Hy as <-. exists x. rewrite Nat.add_0_r. split; [reflexivity | exact Hf].
    + destruct (IH (S n) ys i Hr Hy) as (x' & Hx' & Hfx').
      exists x'. split; [exact Hx'|]. rewrite <- Nat.add_succ_comm. exact Hfx'.
Qed.

Lemma getField_Some v k w :
  Js.getField v k = Some w -> w = default JUndefined (Js.getField v k).
Proof. intros ->. reflexivity. Qed.

Lemma ensureStep_delays index raw s :
  ensureStep index raw = Some s ->
  match index with
  | O => Email.delay s = JNum 0 /\ Email.delayUnit s = JStr "immediately"
  | S _ => Email.delayUnit s
           = Js.or (default JUndefined (Js.getField raw "delayUnit")) (JStr "business days")
  end.
Proof.
  unfold ensureStep. intros H.
  destruct (Js.getField raw "type") as [t|] eqn:Et; [|discriminate H].
  destruct (Js.getField raw "subject") as [sj|]; [|discriminate H].
  destruct (Js.getField raw "content") as [c|]; [|discriminate H].
  destruct (Js.getField raw "delay") as [d|]; [|discriminate H].
  destruct (Js.getField raw "delayUnit") as [u|]; [|discriminate H].
  cbn in H. injection H as <-. destruct index; cbn; [split|]; reflexivity.
Qed.

Lemma campaignFromResponse_steps draft result data steps :
  campaignFromResponse draft result = Some (data, steps) ->
  exists l, Js.getField result "emailSteps" = Some (JArr l)
            /\ mapIndexed ensureStep 0%nat l = Some steps.
Proof.
  unfold campaignFromResponse. intros H.
  destruct (Js.getField result "emailSteps") as [v|]; [|discriminate H]. cbn in H.
  destruct v; try discriminate H. cbn in H.
  destruct (mapIndexed ensureStep 0%nat l) as [st|] eqn:Hm; [|discriminate H]. cbn in H.
  destruct (Js.getField result "campaignData"); [|discriminate H]. cbn in H.
  injection H as _ <-. exists l. split; [reflexivity | exact Hm].
Qed.

Lemma createFallbackCampaign_delays draft example l :
  delaysWellFormed (snd (createFallbackCampaign draft example l)).
Proof.
  split.
  - intros s [title [_ ->]]%list_lookup_imap_Some. split; reflexivity.
  - intros i s [title [_ ->]]%list_lookup_imap_Some. reflexivity.
Qed.

Lemma generateCampaignFromDraft_cases byId byGoal draft l llm :
  match findMatchingExample byId byGoal draft with
  | None => generateCampaignFromDraft byId byGoal draft l llm = Throws noGuidelineError
  | Some example =>
      if llmFails draft llm
      then generateCampaignFromDraft byId byGoal draft l llm
           = Returns (fst (createFallbackCampaign draft example l))
                     (snd (createFallbackCampaign draft example l))
      else exists result data steps,
             llm = LlmParsed result
             /\ campaignFromResponse draft result = Some (data, steps)
             /\ generateCampaignFromDraft byId byGoal draft l llm = Returns data steps
  end.
Proof.
  unfold generateCampaignFromDraft, llmFails.
  destruct (findMatchingExample byId byGoal draft) as [example|]; [|reflexivity].
  destruct llm as [| | |result]; try reflexivity.
  destruct (campaignFromResponse draft result) as [[data steps]|] eqn:E; [|reflexivity].
  exists result, data, steps. auto.
Qed.

Lemma validateEmail_delayUnit index raw s :
  validateEmail index raw = Some s ->
  match index with
  | O => Email.delayUnit s = JStr "immediately"
  | S _ => Email.delayUnit s = JStr "immediately"
           \/ Email.delayUnit s = JStr "business days"
  end.
Proof.
  unfold validateEmail. intros H.
  destruct (Js.getField raw "delayUnit") as [u|]; [|discriminate H].
  destruct (Js.getField raw "type") as [t|]; [|discriminate H].
  destruct (Js.getField raw "subject") as [sj|]; [|discriminate H].
  destruct (Js.getField raw "content") as [c|]; [|discriminate H].
  destruct (Js.getField raw "delay") as [d|]; [|discriminate H].
  cbn in H. injection H as <-. destruct index; cbn; [reflexivity|].
  destruct u as [| | | |u| |]; cbn; auto.
  destruct (String.eqb_spec u "immediately") as [-> | _]; cbn; [auto|].
  destruct (String.eqb_spec u "business days") as [-> | _]; cbn; auto.
Qed.

Lemma fallbackSequence_delays prompt l :
  delaysWellFormed (fallbackSequence prompt l).
Proof.
  split.
  - intros s [= <-]. split; reflexivity.
  - intros [|[|i]] s [= <-]; reflexivity.
Qed.

(** C2 (as stated) fails: on the primary path a later step keeps the delay
    unit the model wrote, here [immediately]. *)
Lemma generated_later_step_immediately :
  let llm :=
    LlmParsed (JObj {[ "emailSteps" :=
      JArr [ JObj {[ "subject" := JStr "Welcome"; "content" := JStr "<p>Hello</p>";
                     "delay" := JNum 0; "delayUnit" := JStr "immediately" ]};
             JObj {[ "subject" := JStr "Checking in"; "content" := JStr "<p>Hello again</p>";
                     "delay" := JNum 2; "delayUnit" := JStr "immediately" ]} ] ]}) in
  let steps :=
    emailStepsOf (generateCampaignFromDraft sampleCatalogById emptyCatalog
                    (sampleDraft false None) [] llm) in
  Email.delayUnit <$> steps = [ JStr "immediately"; JStr "immediately" ]
  /\ ~ delaysWellFormed steps.
Proof.
  cbv zeta. split; [vm_compute; reflexivity|].
  intros [_ H]. specialize (H 0%nat). vm_compute in H.
  specialize (H _ eq_refl). discriminate H.
Qed.

(** C2 (amended): every list [generateCampaignFromDraft] returns starts with
    a step of delay 0 sent [immediately]; a later step has the unit
    [business days] on the fallback path, and on the primary path the unit the
    model wrote, or [business days] when it wrote none.  The fallbacks of both
    generators satisfy the delay invariant, and every list
    [generateCampaignSequence] returns starts with a step sent [immediately]
    and continues with steps whose unit is [immediately] or
    [business days]. *)
Theorem generated_delays :
  (forall byId byGoal draft l llm data steps,
     generateCampaignFromDraft byId byGoal draft l llm = Returns data steps ->
     (forall s, steps !! 0%nat = Some s ->
                Email.delay s = JNum 0 /\ Email.delayUnit s = JStr "immediately")
     /\ (forall i s, steps !! S i = Some s ->
           if llmFails draft llm
           then Email.delayUnit s = JStr "business days"
           else exists raw, responseStep llm (S i) = Some raw
                  /\ Email.delayUnit s
                     = Js.or (default JUndefined (Js.getField raw "delayUnit"))
                             (JStr "business days")))
  /\ (forall draft example l, delaysWellFormed (snd (createFallbackCampaign draft example l)))
  /\ (forall prompt l, delaysWellFormed (fallbackSequence prompt l))
  /\ (forall prompt l llm,
        (forall s, generateCampaignSequence prompt l llm !! 0%nat = Some s ->
                   Email.delayUnit s = JStr "immediately")
        /\ (forall i s, generateCampaignSequence prompt l llm !! S i = Some s ->
                        Email.delayUnit s = JStr "immediately"
                        \/ Email.delayUnit s = JStr "business days")).
Proof.
  split; [|split; [exact createFallbackCampaign_delays|split; [exact fallbackSequence_delays|]]].
  - intros byId byGoal draft l llm data steps Hgen.
    pose proof (generateCampaignFromDraft_cases byId byGoal draft l llm) as Hc.
    destruct (findMatchingExample byId byGoal draft) as [example|];
      [|rewrite Hc in Hgen; discriminate Hgen].
    destruct (llmFails draft llm).
    + rewrite Hc in Hgen. injection Hgen as _ <-.
      destruct (createFallbackCampaign_delays draft example l) as [H0 HS]. split; assumption.
    + destruct Hc as (result & data' & steps' & -> & Hr & Hg').
      rewrite Hg' in Hgen. injection Hgen as -> ->.
      destruct (campaignFromResponse_steps _ _ _ _ Hr) as (raws & Hf & Hm).
      split.
      * intros s Hs. destruct (mapIndexed_lookup _ _ _ _ _ _ Hm Hs) as (raw & _ & He).
        exact (ensureStep_delays _ _ _ He).
      * intros i s Hs. destruct (mapIndexed_lookup _ _ _ _ _ _ Hm Hs) as (raw & Hraw & He).
        exists raw. split; [cbn; rewrite Hf; exact Hraw|].
        exact (ensureStep_delays _ _ _ He).
  - intros prompt l llm.
    assert (Hfb : forall steps, steps = fallbackSequence prompt l ->
              (forall s, steps !! 0%nat = Some s -> Email.delayUnit s = JStr "immediately")
              /\ (forall i s, steps !! S i = Some s ->
                              Email.delayUnit s = JStr "immediately"
                              \/ Email.delayUnit s = JStr "business days")).
    { intros steps ->. destruct (fallbackSequence_delays prompt l) as [H0 HS]. split.
      - intros s Hs. apply H0, Hs.
      - intros i s Hs. right. exact (HS i s Hs). }
    unfold generateCampaignSequence.
    destruct llm as [| | |emailData]; try (apply Hfb; reflexivity).
    destruct (mapArray validateEmail emailData) as [steps|] eqn:Hm; [|apply Hfb; reflexivity].
    destruct emailData; try discriminate Hm. cbn in Hm. split.
    + intros s Hs. destruct (mapIndexed_lookup _ _ _ _ _ _ Hm Hs) as (raw & _ & He).
      exact (validateEmail_delayUnit _ _ _ He).
    + intros i s Hs. destruct (mapIndexed_lookup _ _ _ _ _ _ Hm Hs) as (raw & _ & He).
      exact (validateEmail_delayUnit _ _ _ He).
Qed.

Lemma generated_delays_witness :
  let llm :=
    LlmParsed (JObj {[ "emailSteps" :=
      JArr [ JObj {[ "subject" := JStr "Welcome"; "delay" := JNum 4;
                     "delayUnit" := JStr "business days" ]};
             JObj {[ "subject" := JStr "Checking in" ]} ] ]}) in
  exists data steps,
    generateCampaignFromDraft sampleCatalogById emptyCatalog (sampleDraft false None) [] llm
    = Returns data steps
    /\ (forall s, steps !! 0%nat = Some s ->
                  Email.delay s = JNum 0 /\ Email.delayUnit s = JStr "immediately").
Proof.
  cbv zeta.
  destruct (generateCampaignFromDraft sampleCatalogById emptyCatalog (sampleDraft false None) []
              (LlmParsed (JObj {[ "emailSteps" :=
                 JArr [ JObj {[ "subject" := JStr "Welcome"; "delay" := JNum 4;
                                "delayUnit" := JStr "business days" ]};
                        JObj {[ "subject" := JStr "Checking in" ]} ] ]})))
    as [error | data steps] eqn:E; [vm_compute in E; discriminate E|].
  exists data, steps. split; [reflexivity|].
  exact (proj1 (proj1 generated_delays _ _ _ _ _ _ _ E)).
Defined.

Lemma generateCampaignFromDraft_returns byId byGoal draft l llm example :
  findMatchingExample byId byGoal draft = Some example ->
  exists data steps,
    generateCampaignFromDraft byId byGoal draft l llm = Returns data steps
    /\ (llmFails draft llm = true -> (data, steps) = createFallbackCampaign draft example l).
Proof.
  intros He. pose proof (generateCampaignFromDraft_cases byId byGoal draft l llm) as Hc.
  rewrite He in Hc. destruct (llmFails draft llm).
  - eexists _, _. split; [exact Hc|]. intros _. apply surjective_pairing.
  - destruct Hc as (result & data & steps & _ & _ & Hr).
    exists data, steps. split; [exact Hr | discriminate].
Qed.

Lemma findMatchingExample_None byId byGoal draft :
  findMatchingExample byId byGoal draft = None
  <-> lookupById byId draft = None /\ byGoal (Draft.goal draft) = None.
Proof.
  unfold findMatchingExample. destruct (lookupById byId draft); [|tauto].
  split; [discriminate | intros [H _]; discriminate H].
Qed.

(** ** The generator on run-time values *)







(** *** Agreement with the typed embedding *)

Lemma draftValue_get draft :
  Js.get (draftValue draft) "goal" = JStr (Draft.goal draft)
  /\ Js.get (draftValue draft) "matchedExampleId" = Js.ofOption (Draft.matchedExampleId draft)
  /\ Js.get (draftValue draft) "targetAudience" = Js.ofOption (Draft.targetAudience draft)
  /\ Js.get (draftValue draft) "tone" = Js.ofOption (Draft.tone draft)
  /\ Js.get (draftValue draft) "emailLength"
     = Js.ofOption (emailLengthName <$> Draft.emailLength draft)
  /\ Js.get (draftValue draft) "additionalContext"
     = Js.ofOption (Draft.additionalContext draft)
  /\ Js.get (draftValue draft) "enablePersonalization"
     = match Draft.enablePersonalization draft with
       | Some b => JBool b
       | None => JUndefined
       end
  /\ Js.get (draftValue draft) "companyName" = Js.ofOption (Draft.companyName draft)
  /\ Js.get (draftValue draft) "recruiterName" = Js.ofOption (Draft.recruiterName draft).
Proof.
  destruct draft as [g [id|] [a|] [t|] [el|] [c|] [p|] [n|] [r|]];
    vm_compute; repeat split; reflexivity.
Qed.

Lemma runtime_hasLengthSpec_typed draft : Runtime.hasLengthSpec (draftValue draft) = true.
Proof.
  unfold Runtime.hasLengthSpec.
  destruct (draftValue_get draft) as (_ & _ & _ & _ & -> & _).
  destruct (Draft.emailLength draft) as [[]|]; vm_compute; reflexivity.
Qed.

Lemma runtime_campaignFromResponse_typed draft result :
  Runtime.campaignFromResponse (draftValue draft) result = campaignFromResponse draft result.
Proof.
  unfold Runtime.campaignFromResponse, campaignFromResponse.
  destruct (draftValue_get draft) as (_ & _ & _ & _ & -> & _ & -> & _).
  replace (Js.or (Js.ofOption (emailLengthName <$> Draft.emailLength draft)) (JStr "concise"))
    with (JStr (lengthOrConcise (Draft.emailLength draft)))
    by (destruct (Draft.emailLength draft) as [[]|]; reflexivity).
  replace (Js.or match Draft.enablePersonalization draft with
                 | Some b => JBool b
                 | None => JUndefined
                 end (JBool false))
    with (JBool (optBool (Draft.enablePersonalization draft)))
    by (destruct (Draft.enablePersonalization draft) as [[]|]; reflexivity).
  reflexivity.
Qed.

Lemma runtime_createFallbackCampaign_typed draft example l :
  Runtime.createFallbackCampaign (draftValue draft) example l
  = Some (createFallbackCampaign draft example l).
Proof.
  unfold Runtime.createFallbackCampaign, createFallbackCampaign,
    Runtime.fallbackCampaignData, fallbackCampaignData.
  assert (Hstep : Runtime.fallbackStep (draftValue draft) l = fallbackStep draft l).
  { unfold Runtime.fallbackStep, fallbackStep, Runtime.draftEmailContent, draftEmailContent.
    destruct (draftValue_get draft) as (_ & _ & _ & _ & _ & -> & -> & -> & _).
    replace (Js.toString (Js.or (Js.ofOption (Draft.additionalContext draft))
                                (JStr defaultContext)))
      with (if truthyString (Draft.additionalContext draft)
            then default EmptyString (Draft.additionalContext draft) else defaultContext)
      by (destruct (Draft.additionalContext draft) as [[|c s]|]; reflexivity).
    replace (Js.truthy match Draft.enablePersonalization draft with
                       | Some b => JBool b
                       | None => JUndefined
                       end)
      with (optBool (Draft.enablePersonalization draft))
      by (destruct (Draft.enablePersonalization draft) as [[]|]; reflexivity).
    reflexivity. }
  rewrite Hstep.
  destruct (draftValue_get draft) as (-> & _ & -> & -> & -> & -> & -> & -> & ->).
  cbn [mbind option_bind].
  replace (Js.or (Js.ofOption (emailLengthName <$> Draft.emailLength draft)) (JStr "concise"))
    with (JStr (lengthOrConcise (Draft.emailLength draft)))
    by (destruct (Draft.emailLength draft) as [[]|]; reflexivity).
  replace (Js.or match Draft.enablePersonalization draft with
                 | Some b => JBool b
                 | None => JUndefined
                 end (JBool false))
    with (JBool (optBool (Draft.enablePersonalization draft)))
    by (destruct (Draft.enablePersonalization draft) as [[]|]; reflexivity).
  reflexivity.
Qed.

Lemma runtime_findMatchingExample_typed byId byGoal draft :
  Runtime.findMatchingExample (onStrings byId) (onStrings byGoal) (draftValue draft)
  = findMatchingExample byId byGoal draft.
Proof.
  unfold Runtime.findMatchingExample, findMatchingExample, Runtime.lookupById, lookupById.
  destruct (draftValue_get draft) as (-> & -> & _).
  destruct (Draft.matchedExampleId draft) as [[|c s]|]; reflexivity.
Qed.

(** On a draft of the declared type, and with a configuration whose [model]
    can be read, the generator on run-time values does what the typed
    embedding does. *)
Lemma runtime_generation_typed byId byGoal draft l modelConfig llm :
  is_Some (Js.getField modelConfig "model") ->
  Runtime.generateCampaignFromDraft (onStrings byId) (onStrings byGoal) (draftValue draft) l
    (Runtime.ConfigIs modelConfig) llm
  = match generateCampaignFromDraft byId byGoal draft l llm with
    | Throws error => Runtime.Rejects (Runtime.ErrorOf error)
    | Returns campaignData emailSteps => Runtime.Resolves (campaignData, emailSteps)
    end.
Proof.
  intros (m & Hm).
  unfold Runtime.generateCampaignFromDraft, generateCampaignFromDraft.
  rewrite runtime_findMatchingExample_typed, runtime_hasLengthSpec_typed, Hm.
  destruct (findMatchingExample byId byGoal draft) as [example|]; [|reflexivity].
  rewrite runtime_createFallbackCampaign_typed.
  destruct llm as [| | |result]; try (rewrite <- surjective_pairing; reflexivity).
  rewrite runtime_campaignFromResponse_typed.
  destruct (campaignFromResponse draft result) as [[data steps]|];
    [reflexivity | rewrite <- surjective_pairing; reflexivity].
Qed.

(** C6 (as stated) fails: on the primary path the step contents are the
    model's, so with personalization enabled a step may carry no marker; and
    on the fallback path, with personalization disabled, a marker that the
    user typed into the additional context is copied into every step. *)
Lemma generated_markers_not_guaranteed :
  let llm :=
    LlmParsed (JObj {[ "emailSteps" :=
      JArr [ JObj {[ "subject" := JStr "Welcome";
                     "content" := JStr "<p>Hi {{First Name}}</p>" ]} ] ]}) in
  let primary :=
    emailStepsOf (generateCampaignFromDraft sampleCatalogById emptyCatalog
                    (sampleDraft true None) [] llm) in
  let fallback :=
    emailStepsOf (generateCampaignFromDraft sampleCatalogById emptyCatalog
                    (sampleDraft false (Some "<!-- PERSONALIZATION_SECTION_START -->"))
                    [] LlmRejects) in
  Email.content <$> primary = [ JStr "<p>Hi {{First Name}}</p>" ]
  /\ ~ (forall i s, primary !! i = Some s -> personalizationContract true (Email.content s))
  /\ ~ (forall i s, fallback !! i = Some s -> personalizationContract false (Email.content s)).
Proof.
  cbv zeta. split; [vm_compute; reflexivity|]. split.
  - intros H.
    destruct (emailStepsOf _) as [|s rest] eqn:E; [vm_compute in E; discriminate E|].
    specialize (H 0%nat s eq_refl). vm_compute in E. injection E as <- _.
    destruct H as (text & Heq & Hc). cbn in Heq. injection Heq as <-.
    vm_compute in Hc. destruct Hc as [Hc _]. discriminate Hc.
  - intros H.
    destruct (emailStepsOf _) as [|s rest] eqn:E; [vm_compute in E; discriminate E|].
    specialize (H 0%nat s eq_refl). vm_compute in E. injection E as <- _.
    destruct H as (text & Heq & Hc). cbn in Heq. injection Heq as <-.
    vm_compute in Hc. destruct Hc as [Hc _]. discriminate Hc.
Qed.

Lemma commentFreeInputs_context draft example l :
  commentFreeInputs draft example l = true ->
  opensNoComment (if truthyString (Draft.additionalContext draft)
             then default EmptyString (Draft.additionalContext draft)
             else defaultContext) = true
  /\ opensNoComment (Template.shown (Draft.companyName draft)) = true
  /\ (forall i title,
        Example.examples (Example.sequenceAndExamples example) !! i = Some title ->
        opensNoComment title = true)
  /\ forallb (fun item => opensNoComment (Collateral.content item)) l = true.
Proof.
  unfold commentFreeInputs. intros H.
  apply andb_true_iff in H as [H Hl]. apply andb_true_iff in H as [H He].
  apply andb_true_iff in H as [Hc Hn]. repeat split.
  - case_match; [exact Hc | reflexivity].
  - destruct (Draft.companyName draft); [exact Hn | reflexivity].
  - intros i title Hi. rewrite forallb_forall in He. apply He.
    apply list_elem_of_In, list_elem_of_lookup. eauto.
  - exact Hl.
Qed.

(** C6 (amended): on the fallback path, every step of a campaign generated
    with personalization enabled contains both markers, and exactly one of
    each when no interpolated text (example titles, additional context,
    company name, collateral contents) contains the two code units [<!]
    that open an HTML comment; with personalization disabled and such texts,
    no step contains a marker.  On the primary path the step contents are the
    model's. *)
Theorem fallback_personalization draft example l :
  let enabled := optBool (Draft.enablePersonalization draft) in
  let steps := snd (createFallbackCampaign draft example l) in
  (forall byId byGoal llm,
     findMatchingExample byId byGoal draft = Some example -> llmFails draft llm = true ->
     emailStepsOf (generateCampaignFromDraft byId byGoal draft l llm) = steps)
  /\ (forall i s, steps !! i = Some s ->
        exists text, Email.content s = JStr text
                     /\ (enabled = true -> hasPersonalizationSection text = true))
  /\ (commentFreeInputs draft example l = true ->
      forall i s, steps !! i = Some s -> personalizationContract enabled (Email.content s)).
Proof.
  cbv zeta. split; [|split].
  - intros byId byGoal llm He Hf.
    pose proof (generateCampaignFromDraft_cases byId byGoal draft l llm) as Hc.
    rewrite He, Hf in Hc. rewrite Hc. reflexivity.
  - intros i s [title [_ ->]]%list_lookup_imap_Some. eexists. split; [reflexivity|].
    intros He. unfold draftEmailContent. rewrite He. apply createEmailContent_has_section.
  - intros Hb i s [title [Ht ->]]%list_lookup_imap_Some.
    destruct (commentFreeInputs_context draft example l Hb) as (Hc & Hn & Hts & Hl).
    cbn [fallbackStep Email.content]. unfold draftEmailContent.
    apply createEmailContent_markers; try assumption; [reflexivity | exact (Hts i title Ht)].
Qed.

Lemma fallback_personalization_witness :
  let draft := sampleDraft true (Some "We are opening a <b>new</b> clinic in May!") in
  commentFreeInputs draft sampleExample [] = true
  /\ forall i s, snd (createFallbackCampaign draft sampleExample []) !! i = Some s ->
                 personalizationContract true (Email.content s).
Proof.
  cbv zeta. split; [vm_compute; reflexivity|].
  apply (proj2 (proj2 (fallback_personalization
                         (sampleDraft true (Some "We are opening a <b>new</b> clinic in May!"))
                         sampleExample []))).
  vm_compute. reflexivity.
Defined.

(** ** Token substitution *)






















(** ** The personalization on run-time values *)








Lemma runtime_tokens_typed text candidate :
  Runtime.applyTokenReplacement (JStr text) (candidateValue candidate)
  = Some (applyTokenReplacement text candidate).
Proof.
  unfold Runtime.applyTokenReplacement, applyTokenReplacement, candidateValue.
  destruct candidate as [name company skills]. cbn [Candidate.name Candidate.company
                                                      Candidate.skills].
  assert (Hn : Js.getField (JObj {[ "name" := JStr name; "company" := JStr company;
                                    "skills" := Js.strings skills ]}) "name"
               = Some (JStr name)) by (vm_compute; reflexivity).
  assert (Hc : Js.getField (JObj {[ "name" := JStr name; "company" := JStr company;
                                    "skills" := Js.strings skills ]}) "company"
               = Some (JStr company)) by (vm_compute; reflexivity).
  assert (Hs : Js.getField (JObj {[ "name" := JStr name; "company" := JStr company;
                                    "skills" := Js.strings skills ]}) "skills"
               = Some (Js.strings skills)) by reflexivity.
  rewrite Hn, Hc, Hs. cbn [mbind option_bind Runtime.firstName Js.toString].
  assert (Hk : exists skill, Runtime.firstSkill (Js.strings skills) = Some skill
                             /\ Js.toString skill = firstSkill skills).
  { destruct skills as [|s r]; [eexists; split; reflexivity|].
    unfold Runtime.firstSkill, Js.strings. cbn [fmap list_fmap Js.spread Js.indexed].
    unfold Js.get. rewrite lookup_insert_eq. cbn [default id firstSkill Js.or Js.truthy].
    eexists. split; [reflexivity|].
    unfold Template.nonEmpty, Js.or, Js.truthy.
    destruct (negb (String.eqb s EmptyString)); reflexivity. }
  destruct Hk as (skill & -> & <-). reflexivity.
Qed.

(** On a string and a candidate of the declared type, and with a
    configuration whose [model] can be read, the function on run-time values
    does what the typed embedding does. *)
Lemma runtime_personalization_typed text candidate modelConfig llm :
  is_Some (Js.getField modelConfig "model") ->
  Runtime.generatePersonalizedContent (JStr text) (candidateValue candidate)
    (Runtime.ConfigIs modelConfig) llm
  = Runtime.Resolves (generatePersonalizedContent text candidate llm).
Proof.
  intros (m & Hm). unfold Runtime.generatePersonalizedContent, generatePersonalizedContent.
  assert (Hn : Js.getField (candidateValue candidate) "name"
               = Some (JStr (Candidate.name candidate)))
    by (destruct candidate; vm_compute; reflexivity).
  assert (Hs : Js.getField (candidateValue candidate) "skills"
               = Some (Js.strings (Candidate.skills candidate)))
    by (destruct candidate; reflexivity).
  rewrite Hn, Hs, Hm. cbn [Runtime.includes Runtime.joinable Js.strings].
  unfold Runtime.replaced. rewrite !runtime_tokens_typed.
  destruct (negb _ || negb _); [reflexivity|].
  destruct llm as [|response]; [reflexivity|].
  rewrite runtime_tokens_typed.
  destruct (Template.nonEmpty response); reflexivity.
Qed.




(** ** The step editor *)

Lemma startsWith_refl s : JsString.startsWith s s = true.
Proof.
  pose proof (startsWith_app EmptyString s) as H. rewrite append_empty_r in H. exact H.
Qed.

Lemma includes_join sep l e : e ∈ l -> JsString.includes (JsString.join sep l) e = true.
Proof.
  induction l as [|x l IH]; intros He; [inversion He|].
  apply elem_of_cons in He as [-> | He].
  - destruct l as [|y l]; cbn [JsString.join].
    + apply includes_startsWith, startsWith_refl.
    + apply includes_startsWith, startsWith_app.
  - destruct l as [|y l]; [inversion He|].
    cbn [JsString.join]. apply includes_app_r, includes_app_r, IH, He.
Qed.

Lemma mapIndexed_lookup_Some {A B : Type} (f : nat -> A -> option B) n l l' i x :
  mapIndexed f n l = Some l' -> l !! i = Some x ->
  exists y, l' !! i = Some y /\ f (n + i)%nat x = Some y.
Proof.
  revert n l' i. induction l as [|a l IH]; intros n l' i Hm Hx; [discriminate Hx|].
  cbn in Hm.
  destruct (f n a) as [y0|] eqn:Hf; [|discriminate Hm]. cbn in Hm.
  destruct (mapIndexed f (S n) l) as [ys|] eqn:Hr; [|discriminate Hm]. cbn in Hm.
  injection Hm as <-. destruct i as [|i]; cbn in Hx.
  - injection Hx as <-. exists y0. rewrite Nat.add_0_r. split; [reflexivity | exact Hf].
  - destruct (IH (S n) ys i Hr Hx) as (y & Hy & Hfy).
    exists y. split; [exact Hy|]. rewrite <- Nat.add_succ_comm. exact Hfy.
Qed.

Lemma elem_of_concat (e : string) (l : list string) (ls : list (list string)) :
  e ∈ l -> l ∈ ls -> e ∈ concat ls.
Proof.
  rewrite !list_elem_of_In. intros He Hl. apply in_concat. eauto.
Qed.

Lemma elem_of_when b (e : string) : b = true -> e ∈ Editor.when b e.
Proof. intros ->. apply list_elem_of_singleton. reflexivity. Qed.

Lemma handleSave_calls st call :
  Editor.handleSave st = Editor.Calls call -> Editor.validateCampaignData st = Some [].
Proof.
  unfold Editor.handleSave.
  destruct (Editor.validateCampaignData st) as [[|e errs]|]; [reflexivity| |]; discriminate.
Qed.

Lemma stepErrors_complete n steps :
  (forall step, step ∈ steps ->
     is_Some (Editor.blank (Email.subject step))
     /\ is_Some (Editor.blank (Email.content step))) ->
  is_Some (mapIndexed Editor.stepErrors n steps).
Proof.
  revert n. induction steps as [|step steps IH]; intros n H; [cbn; eauto|].
  destruct (H step) as ((x & Hx) & (y & Hy)); [apply list_elem_of_here|].
  destruct (IH (S n)) as (ys & Hys); [intros; apply H, list_elem_of_further; assumption|].
  assert (He : is_Some (Editor.stepErrors n step))
    by (unfold Editor.stepErrors; rewrite Hx, Hy; cbn; eauto).
  destruct He as (e & He). cbn [mapIndexed]. rewrite He. cbn. rewrite Hys. cbn. eauto.
Qed.

(** C8 (as stated) fails: a campaign whose target audience is blank and whose
    name is a number (the record comes from a parsed model response, of type
    [any]) is not saved, but no error list is produced either: the call
    [name?.trim()] of the validation throws, and the exception leaves
    [handleSave] before it sets a message. *)
Lemma validation_can_throw :
  let st :=
    {| Editor.campaignData :=
         {[ "name" := JNum 2024;
            "type" := JStr "nurture";
            "targetAudience" := JStr "   ";
            "campaignGoal" := JStr "Build a talent community" ]};
       Editor.emailSteps := [ sampleStep "step-1" "Welcome" ];
       Editor.activeStepId := "step-1";
       Editor.user := Some "user-1";
       Editor.currentProject := Some "project-1";
       Editor.editingCampaign := None;
       Editor.selectedTestCandidate := "Sarah Johnson" |} in
  Editor.blank (Js.get (Editor.campaignData st) "targetAudience") = Some true
  /\ Editor.validateCampaignData st = None
  /\ Editor.handleSave st = Editor.ValidationThrows
  /\ ~ exists saveError, Editor.handleSave st = Editor.ValidationFailed saveError.
Proof.
  cbv zeta. split; [vm_compute; reflexivity|]. split; [vm_compute; reflexivity|].
  split; [vm_compute; reflexivity|]. intros (saveError & H). vm_compute in H. discriminate H.
Qed.

(** C8 (amended): the persistence calls are reached only when validation
    returns no error, so never with a blank or missing target audience.
    Validation completes exactly when the name, the target audience and the
    goal of the campaign and the subject and the content of every step are
    strings or absent; otherwise it throws, and the save ends without a
    message and without a persistence call.  When validation completes, its
    list names every violated rule, for the campaign and for each step; a
    non-empty list blocks the save with one message that joins, and so
    contains, every error of the list.  In particular a blank or missing
    target audience puts [Target audience is required] on the list. *)
Theorem save_blocked_by_validation st :
  (forall call, Editor.handleSave st = Editor.Calls call ->
                Editor.validateCampaignData st = Some [])
  /\ (Editor.blank (Js.get (Editor.campaignData st) "targetAudience") = Some true ->
      forall call, Editor.handleSave st <> Editor.Calls call)
  /\ (forall errs, Editor.validateCampaignData st = Some errs ->
      let data := Editor.campaignData st in
      (Editor.blank (Js.get data "name") = Some true -> "Campaign name is required" ∈ errs)
      /\ (Js.truthy (Js.get data "type") = false -> "Campaign type is required" ∈ errs)
      /\ (Editor.blank (Js.get data "targetAudience") = Some true ->
          "Target audience is required" ∈ errs)
      /\ (Editor.blank (Js.get data "campaignGoal") = Some true ->
          "Campaign goal is required" ∈ errs)
      /\ (Editor.emailSteps st = [] -> "At least one email step is required" ∈ errs)
      /\ (truthyString (Editor.user st) = false -> "User authentication required" ∈ errs)
      /\ (truthyString (Editor.currentProject st) = false ->
          "Project selection required" ∈ errs)
      /\ (forall i step, Editor.emailSteps st !! i = Some step ->
            let label := "Email step " +:+ JsString.ofNat (i + 1) in
            (Editor.blank (Email.subject step) = Some true ->
             (label +:+ ": Subject is required") ∈ errs)
            /\ (Editor.blank (Email.content step) = Some true ->
                (label +:+ ": Content is required") ∈ errs)
            /\ (Js.isStr (Email.delayUnit step) "immediately" = false ->
                Js.isStr (Email.delayUnit step) "business days" = false ->
                (label +:+ ": Invalid delay unit (must be 'immediately' or 'business days')")
                ∈ errs))
      /\ (errs <> [] ->
          let saveError := "Please fix the following issues: " +:+ JsString.join ", " errs in
          Editor.handleSave st = Editor.ValidationFailed saveError
          /\ forall e, e ∈ errs -> JsString.includes saveError e = true))
  /\ (is_Some (Editor.validateCampaignData st)
      <-> is_Some (Editor.blank (Js.get (Editor.campaignData st) "name"))
          /\ is_Some (Editor.blank (Js.get (Editor.campaignData st) "targetAudience"))
          /\ is_Some (Editor.blank (Js.get (Editor.campaignData st) "campaignGoal"))
          /\ forall step, step ∈ Editor.emailSteps st ->
                is_Some (Editor.blank (Email.subject step))
                /\ is_Some (Editor.blank (Email.content step)))
  /\ (Editor.validateCampaignData st = None ->
      Editor.handleSave st = Editor.ValidationThrows).
Proof.
  assert (Hlist : forall errs, Editor.validateCampaignData st = Some errs ->
            exists noName noAudience noGoal perStep,
              Editor.blank (Js.get (Editor.campaignData st) "name") = Some noName
              /\ Editor.blank (Js.get (Editor.campaignData st) "targetAudience") = Some noAudience
              /\ Editor.blank (Js.get (Editor.campaignData st) "campaignGoal") = Some noGoal
              /\ mapIndexed Editor.stepErrors 0%nat (Editor.emailSteps st) = Some perStep
              /\ errs
                 = Editor.when noName "Campaign name is required"
                   ++ Editor.when (negb (Js.truthy (Js.get (Editor.campaignData st) "type")))
                        "Campaign type is required"
                   ++ Editor.when noAudience "Target audience is required"
                   ++ Editor.when noGoal "Campaign goal is required"
                   ++ Editor.when (length (Editor.emailSteps st) =? 0)%nat
                        "At least one email step is required"
                   ++ Editor.when (negb (truthyString (Editor.user st)))
                        "User authentication required"
                   ++ Editor.when (negb (truthyString (Editor.currentProject st)))
                        "Project selection required"
                   ++ concat perStep).
  { intros errs H. unfold Editor.validateCampaignData in H.
    destruct (Editor.blank (Js.get (Editor.campaignData st) "name")) as [a|];
      [|discriminate H]. cbn in H.
    destruct (Editor.blank (Js.get (Editor.campaignData st) "targetAudience")) as [b|];
      [|discriminate H]. cbn in H.
    destruct (Editor.blank (Js.get (Editor.campaignData st) "campaignGoal")) as [c|];
      [|discriminate H]. cbn in H.
    destruct (mapIndexed Editor.stepErrors 0%nat (Editor.emailSteps st)) as [p|];
      [|discriminate H]. cbn in H.
    injection H as <-. exists a, b, c, p. repeat split; reflexivity. }
  split; [exact (handleSave_calls st)|]. split; [|split; [|split]].
  - intros Hb call Hc. apply handleSave_calls in Hc.
    destruct (Hlist _ Hc) as (a & b & c & p & _ & Hb' & _ & _ & He).
    rewrite Hb in Hb'. injection Hb' as <-.
    destruct a; cbn in He; [discriminate He|].
    destruct (negb (Js.truthy (Js.get (Editor.campaignData st) "type")));
      cbn in He; discriminate He.
  - intros errs Hv. destruct (Hlist _ Hv) as (a & b & c & p & Ha & Hb & Hc & Hp & ->).
    cbv zeta. rewrite Ha, Hb, Hc. repeat split.
    + intros [= ->]. rewrite !elem_of_app. left. apply elem_of_when. reflexivity.
    + intros ->. rewrite !elem_of_app. right. left. apply elem_of_when. reflexivity.
    + intros [= ->]. rewrite !elem_of_app. do 2 right. left. apply elem_of_when. reflexivity.
    + intros [= ->]. rewrite !elem_of_app. do 3 right. left. apply elem_of_when. reflexivity.
    + intros ->. rewrite !elem_of_app. do 4 right. left. apply elem_of_when. reflexivity.
    + intros ->. rewrite !elem_of_app. do 5 right. left. apply elem_of_when. reflexivity.
    + intros ->. rewrite !elem_of_app. do 6 right. left. apply elem_of_when. reflexivity.
    + intros Hs. destruct (mapIndexed_lookup_Some _ _ _ _ _ _ Hp H) as (es & Hes & Hf).
      rewrite !elem_of_app. do 7 right.
      apply (elem_of_concat _ es); [|apply list_elem_of_lookup; eauto].
      cbn [Nat.add] in Hf. unfold Editor.stepErrors in Hf. rewrite Hs in Hf. cbn in Hf.
      destruct (Editor.blank (Email.content step)); [|discriminate Hf]. cbn in Hf.
      injection Hf as <-. set_solver.
    + intros Hs. destruct (mapIndexed_lookup_Some _ _ _ _ _ _ Hp H) as (es & Hes & Hf).
      rewrite !elem_of_app. do 7 right.
      apply (elem_of_concat _ es); [|apply list_elem_of_lookup; eauto].
      cbn [Nat.add] in Hf. unfold Editor.stepErrors in Hf. rewrite Hs in Hf.
      destruct (Editor.blank (Email.subject step)); [|discriminate Hf]. cbn in Hf.
      injection Hf as <-. set_solver.
    + intros H1 H2. destruct (mapIndexed_lookup_Some _ _ _ _ _ _ Hp H) as (es & Hes & Hf).
      rewrite !elem_of_app. do 7 right.
      apply (elem_of_concat _ es); [|apply list_elem_of_lookup; eauto].
      cbn [Nat.add] in Hf. unfold Editor.stepErrors in Hf. rewrite H1, H2 in Hf.
      destruct (Editor.blank (Email.subject step)); [|discriminate Hf]. cbn in Hf.
      destruct (Editor.blank (Email.content step)); [|discriminate Hf]. cbn in Hf.
      injection Hf as <-. set_solver.
    + unfold Editor.handleSave. rewrite Hv.
      match goal with |- context [length ?l] => destruct l as [|e0 l0] eqn:El end;
        [congruence | reflexivity].
    + intros e He. apply includes_app_r, includes_join, He.
  - split.
    + intros (errs & Hv).
      destruct (Hlist _ Hv) as (a & b & c & p & Ha & Hb & Hc & Hp & _).
      rewrite Ha, Hb, Hc. repeat split; eauto;
        apply list_elem_of_lookup in H as (i & Hi);
        destruct (mapIndexed_lookup_Some _ _ _ _ _ _ Hp Hi) as (es & _ & Hf);
        unfold Editor.stepErrors in Hf;
        destruct (Editor.blank (Email.subject step)); try discriminate Hf; eauto;
        cbn in Hf; destruct (Editor.blank (Email.content step)); try discriminate Hf; eauto.
    + intros ((a & Ha) & (b & Hb) & (c & Hc) & Hsteps).
      destruct (stepErrors_complete 0%nat (Editor.emailSteps st) Hsteps) as (p & Hp).
      unfold Editor.validateCampaignData. rewrite Ha, Hb, Hc. cbn. rewrite Hp. cbn. eauto.
  - intros Hv. unfold Editor.handleSave. rewrite Hv. reflexivity.
Qed.

Lemma save_blocked_by_validation_witness :
  let st := sampleEditor "   " [ sampleStep "step-1" EmptyString ] in
  Editor.blank (Js.get (Editor.campaignData st) "targetAudience") = Some true
  /\ Editor.handleSave st
     = Editor.ValidationFailed
         "Please fix the following issues: Target audience is required, Email step 1: Subject is required"
  /\ forall call, Editor.handleSave st <> Editor.Calls call.
Proof.
  cbv zeta.
  assert (H : Editor.blank
                (Js.get (Editor.campaignData
                           (sampleEditor "   " [ sampleStep "step-1" EmptyString ]))
                        "targetAudience") = Some true)
    by (vm_compute; reflexivity).
  split; [exact H|]. split; [vm_compute; reflexivity|].
  exact (proj1 (proj2 (save_blocked_by_validation
                         (sampleEditor "   " [ sampleStep "step-1" EmptyString ]))) H).
Defined.

(** The steps an editor operation keeps are kept as they are, in their
    order, ids included: adding and duplicating only insert a step, removing
    only deletes steps. *)
Lemma editor_operations_keep_steps st :
  Editor.emailSteps st `sublist_of` Editor.emailSteps (Editor.addEmailStep st)
  /\ (forall stepId, Editor.emailSteps (Editor.removeEmailStep stepId st)
                     `sublist_of` Editor.emailSteps st)
  /\ (forall now stepId, Editor.emailSteps st
                         `sublist_of` Editor.emailSteps (Editor.duplicateEmailStep now stepId st)).
Proof.
  split; [|split].
  - cbn. apply sublist_inserts_r. reflexivity.
  - intros stepId. cbn. unfold Editor.withoutId.
    induction (Editor.emailSteps st) as [|x l IH]; [constructor|].
    cbn. destruct (negb _); [apply sublist_skip, IH | apply sublist_cons, IH].
  - intros now stepId. unfold Editor.duplicateEmailStep.
    destruct (find _ _); [|reflexivity]. cbn [Editor.emailSteps Editor.withSteps].
    rewrite <- (take_drop (Z.to_nat (Editor.findIndex stepId (Editor.emailSteps st)) + 1)
                  (Editor.emailSteps st)) at 1.
    apply sublist_app; [reflexivity|]. apply sublist_cons. reflexivity.
Qed.

(** C9 (code defect): starting from two steps with distinct ids, removing the
    first and adding a step yields two steps with the same id, because
    [addEmailStep] numbers the new step by the length of the list. *)
Theorem add_after_remove_reuses_id :
  let st0 := sampleEditor "ICU nurses"
               [ sampleStep "step-1" "Welcome"; sampleStep "step-2" "Checking in" ] in
  let st := Editor.addEmailStep (Editor.removeEmailStep "step-1" st0) in
  NoDup (Email.id <$> Editor.emailSteps st0)
  /\ Email.id <$> Editor.emailSteps st = [ "step-2"; "step-2" ]
  /\ ~ NoDup (Email.id <$> Editor.emailSteps st).
Proof.
  cbv zeta. split; [|split].
  - apply (bool_decide_unpack _). vm_compute. reflexivity.
  - vm_compute. reflexivity.
  - intros H. assert (E : Email.id <$> Editor.emailSteps
              (Editor.addEmailStep
                 (Editor.removeEmailStep "step-1"
                    (sampleEditor "ICU nurses"
                       [ sampleStep "step-1" "Welcome"; sampleStep "step-2" "Checking in" ])))
              = [ "step-2"; "step-2" ]) by (vm_compute; reflexivity).
    rewrite E in H. apply NoDup_cons in H as [Hin _]. apply Hin. set_solver.
Qed.

(** ** White space and code fences *)

Lemma white_not_backtick c :
  JsString.isWhiteSpace c = true ->
  Ascii.eqb "`"%char c = false /\ Ascii.eqb "`"%char (JsString.lowerChar c) = false.
Proof.
  destruct c as [[] [] [] [] [] [] [] []]; vm_compute; intros H; try discriminate H;
    split; reflexivity.
Qed.

Lemma trimStart_white w s : allWhite w = true -> JsString.trimStart (w +:+ s) = JsString.trimStart s.
Proof.
  induction w as [|c w IH]; [reflexivity|]. cbn.
  intros [-> Hw]%andb_true_iff. apply IH, Hw.
Qed.

Lemma trimEnd_empty s : JsString.trimEnd s = EmptyString <-> allWhite s = true.
Proof.
  induction s as [|c s IH]; [split; reflexivity|]. cbn.
  destruct (JsString.trimEnd s) eqn:He.
  - destruct (JsString.isWhiteSpace c); cbn; [tauto|]. split; discriminate.
  - split; [discriminate|]. intros [_ Hs]%andb_true_iff. apply IH in Hs. discriminate Hs.
Qed.

Lemma trimEnd_white s w : allWhite w = true -> JsString.trimEnd (s +:+ w) = JsString.trimEnd s.
Proof.
  intros Hw. induction s as [|c s IH].
  - cbn. apply trimEnd_empty, Hw.
  - cbn. rewrite IH. reflexivity.
Qed.

Lemma trimEnd_keep a b :
  JsString.trimEnd b <> EmptyString -> JsString.trimEnd (a +:+ b) = a +:+ JsString.trimEnd b.
Proof.
  intros Hb. induction a as [|c a IH]; [reflexivity|]. cbn. rewrite IH.
  destruct (a +:+ JsString.trimEnd b) eqn:E; [|reflexivity].
  destruct a; [|discriminate E]. cbn in E. contradiction.
Qed.

Lemma trimStart_length s : (String.length (JsString.trimStart s) <= String.length s)%nat.
Proof.
  induction s as [|c s IH]; [reflexivity|]. cbn.
  destruct (JsString.isWhiteSpace c); cbn; lia.
Qed.

Lemma trimEnd_length s : (String.length (JsString.trimEnd s) <= String.length s)%nat.
Proof.
  induction s as [|c s IH]; [reflexivity|]. cbn.
  destruct (JsString.trimEnd s); [destruct (JsString.isWhiteSpace c)|]; cbn in *; lia.
Qed.

(** A text that [trim] leaves as it is has no white space at either end. *)
Lemma trim_fixed s :
  JsString.trim s = s -> JsString.trimStart s = s /\ JsString.trimEnd s = s.
Proof.
  unfold JsString.trim. intros H.
  assert (Hs : JsString.trimStart s = s).
  { destruct s as [|c s]; [reflexivity|]. cbn in *.
    destruct (JsString.isWhiteSpace c); [|reflexivity].
    pose proof (trimEnd_length (JsString.trimStart s)) as H1.
    pose proof (trimStart_length s) as H2.
    rewrite H in H1. cbn in H1. lia. }
  rewrite Hs in H. split; [exact Hs | exact H].
Qed.

Lemma str_length_app (a b : string) :
  String.length (a +:+ b) = (String.length a + String.length b)%nat.
Proof. induction a as [|c a IH]; [reflexivity|]. cbn. rewrite IH. reflexivity. Qed.

Lemma str_drop_app a b : JsString.drop (String.length a) (a +:+ b) = b.
Proof. induction a as [|c a IH]; [destruct b; reflexivity | exact IH]. Qed.

Lemma toLowerCase_app a b :
  JsString.toLowerCase (a +:+ b) = JsString.toLowerCase a +:+ JsString.toLowerCase b.
Proof. induction a as [|c a IH]; [reflexivity|]. cbn. rewrite IH. reflexivity. Qed.

Lemma toLowerCase_length a : String.length (JsString.toLowerCase a) = String.length a.
Proof. induction a as [|c a IH]; [reflexivity|]. cbn. rewrite IH. reflexivity. Qed.

(** The closing fence goes together with the white space before it. *)
Lemma stripClosingFence_end x : stripClosingFence (x +:+ "```") = JsString.trimEnd x.
Proof.
  induction x as [|c x IH]; [reflexivity|].
  cbn [String.append stripClosingFence JsString.trimStart JsString.trimEnd].
  destruct (JsString.isWhiteSpace c) eqn:Hc.
  - destruct (String.eqb_spec (JsString.trimStart (x +:+ "```")) "```") as [E | E].
    + assert (Hx : JsString.trimEnd x = EmptyString).
      { rewrite <- IH. destruct x as [|d x]; [reflexivity|].
        cbn [String.append stripClosingFence]. cbn [String.append] in E. rewrite E. reflexivity. }
      rewrite Hx. reflexivity.
    + rewrite IH. destruct (JsString.trimEnd x) eqn:Hx; [|reflexivity].
      apply trimEnd_empty in Hx. rewrite trimStart_white in E by exact Hx.
      contradiction E. reflexivity.
  - assert (E : String.eqb (String c (x +:+ "```")) "```" = false).
    { apply String.eqb_neq. intros E. injection E as _ E.
      apply (f_equal String.length) in E. rewrite str_length_app in E. cbn in E. lia. }
    rewrite E, IH. destruct (JsString.trimEnd x); reflexivity.
Qed.

Lemma trimStart_fence s : JsString.trimStart s = "```" -> JsString.includes s "```" = true.
Proof.
  induction s as [|c s IH]; [discriminate|]. cbn [JsString.trimStart].
  destruct (JsString.isWhiteSpace c).
  - intros H. cbn [JsString.includes]. rewrite (IH H). apply orb_true_r.
  - intros ->. reflexivity.
Qed.

Lemma stripClosingFence_none s : JsString.includes s "```" = false -> stripClosingFence s = s.
Proof.
  induction s as [|c s IH]; [reflexivity|]. intros H.
  cbn [stripClosingFence].
  destruct (String.eqb_spec (JsString.trimStart (String c s)) "```") as [E | E].
  - apply trimStart_fence in E. congruence.
  - cbn [JsString.includes] in H. apply orb_false_iff in H as [_ H]. rewrite IH by exact H.
    reflexivity.
Qed.

Lemma opensJson_head body :
  opensJson body = true ->
  exists c r, body = String c r /\ JsString.isWhiteSpace c = false
              /\ Ascii.eqb "`"%char c = false /\ Ascii.eqb "j"%char (JsString.lowerChar c) = false.
Proof.
  unfold opensJson. destruct body as [|c r]; [discriminate|].
  cbn [JsString.startsWith]. rewrite !andb_true_r. intros [E | E]%orb_true_iff; apply Ascii.eqb_eq in E; subst c;
    eexists _, r; repeat split; reflexivity.
Qed.

Lemma stripFence_json body rest :
  opensJson body = true -> stripFence (body +:+ rest) = body +:+ rest.
Proof.
  intros Ho. destruct (opensJson_head body Ho) as (c & r & -> & _ & Hb & _).
  unfold stripFence. cbn [String.append JsString.startsWith]. rewrite Hb. reflexivity.
Qed.

(** What the last two steps make of a text whose opening fence is gone. *)
Lemma cleaned_body body w2 :
  JsString.trim body = body -> allWhite w2 = true ->
  JsString.trim (stripClosingFence (body +:+ w2 +:+ "```")) = body.
Proof.
  intros Ht Hw2.
  rewrite <- append_assoc', stripClosingFence_end, trimEnd_white by exact Hw2.
  destruct (trim_fixed _ Ht) as [_ He]. rewrite He. exact Ht.
Qed.

(** X1: a JSON object or array wrapped in a code fence, with or without the
    tag [json] in any letter case and with any white space inside the fence,
    is returned bare by [cleanJsonResponse]. *)
Theorem cleanJsonResponse_fenced tag w1 body w2 :
  fenceTag tag = true -> allWhite w1 = true -> allWhite w2 = true ->
  opensJson body = true -> JsString.trim body = body ->
  cleanJsonResponse ("```" +:+ tag +:+ w1 +:+ body +:+ w2 +:+ "```") = body.
Proof.
  intros Htag Hw1 Hw2 Ho Ht. unfold cleanJsonResponse.
  destruct (opensJson_head body Ho) as (c & r & Hbody & Hc & Hb & Hj).
  assert (Hrest : JsString.trimStart (w1 +:+ body +:+ w2 +:+ "```") = body +:+ w2 +:+ "```").
  { rewrite trimStart_white by exact Hw1. rewrite Hbody. cbn. rewrite Hc. reflexivity. }
  unfold fenceTag in Htag. apply orb_true_iff in Htag as [E | E].
  - apply String.eqb_eq in E. subst tag. cbn [String.append].
    change (String "`" (String "`" (String "`" (w1 +:+ body +:+ w2 +:+ "```"))))
      with ("```" +:+ w1 +:+ body +:+ w2 +:+ "```").
    assert (Hno : stripJsonFence ("```" +:+ w1 +:+ body +:+ w2 +:+ "```")
                  = "```" +:+ w1 +:+ body +:+ w2 +:+ "```").
    { unfold stripJsonFence.
      replace (JsString.startsWith
                 (JsString.toLowerCase ("```" +:+ w1 +:+ body +:+ w2 +:+ "```")) "```json")
        with false; [reflexivity|].
      symmetry. rewrite toLowerCase_app.
      change (JsString.toLowerCase "```") with "```".
      change (JsString.startsWith
                ("```" +:+ JsString.toLowerCase (w1 +:+ body +:+ w2 +:+ "```")) "```json")
        with (JsString.startsWith
                (JsString.toLowerCase (w1 +:+ body +:+ w2 +:+ "```")) "json").
      destruct w1 as [|d w1].
      - rewrite Hbody. cbn [String.append JsString.toLowerCase JsString.startsWith].
        rewrite Hj. reflexivity.
      - cbn [String.append JsString.toLowerCase JsString.startsWith].
        cbn in Hw1. apply andb_true_iff in Hw1 as [Hd _].
        replace (Ascii.eqb "j" (JsString.lowerChar d)) with false; [reflexivity|].
        destruct d as [[] [] [] [] [] [] [] []]; vm_compute in Hd; try discriminate Hd;
          reflexivity. }
    rewrite Hno. unfold stripFence. rewrite startsWith_app.
    change 3%nat with (String.length "```"). rewrite str_drop_app, Hrest.
    apply cleaned_body; assumption.
  - apply String.eqb_eq in E.
    assert (Hlen : String.length ("```" +:+ tag) = 7%nat).
    { rewrite str_length_app, <- (toLowerCase_length tag), E. reflexivity. }
    assert (Hyes : stripJsonFence ("```" +:+ tag +:+ w1 +:+ body +:+ w2 +:+ "```")
                   = body +:+ w2 +:+ "```").
    { unfold stripJsonFence.
      replace (JsString.startsWith
                 (JsString.toLowerCase ("```" +:+ tag +:+ w1 +:+ body +:+ w2 +:+ "```"))
                 "```json") with true
        by (rewrite !toLowerCase_app, E; reflexivity).
      etransitivity; [|exact Hrest]. f_equal.
      rewrite <- (append_assoc' "```" tag), <- Hlen. apply str_drop_app. }
    rewrite Hyes, stripFence_json by exact Ho. apply cleaned_body; assumption.
Qed.

Lemma cleanJsonResponse_fenced_witness :
  let body := "{" +:+ JsString.q "nextStep" +:+ ": " +:+ JsString.q "audience" +:+ "}" in
  (fenceTag "JSON" = true /\ allWhite Template.nl = true /\ allWhite (Template.nl +:+ "  ") = true
   /\ opensJson body = true /\ JsString.trim body = body)
  /\ cleanJsonResponse
       ("```" +:+ "JSON" +:+ Template.nl +:+ body +:+ (Template.nl +:+ "  ") +:+ "```")
     = body.
Proof.
  split.
  - vm_compute. repeat split; reflexivity.
  - apply cleanJsonResponse_fenced; vm_compute; reflexivity.
Defined.

Lemma lowerChar_backtick c :
  Ascii.eqb "`"%char (JsString.lowerChar c) = Ascii.eqb "`"%char c.
Proof. destruct c as [[] [] [] [] [] [] [] []]; reflexivity. Qed.

Lemma stripJsonFence_none s : JsString.startsWith s "```" = false -> stripJsonFence s = s.
Proof.
  intros H. unfold stripJsonFence.
  replace (JsString.startsWith (JsString.toLowerCase s) "```json") with false; [reflexivity|].
  symmetry. destruct s as [|a [|b [|c s]]]; try reflexivity;
    cbn [JsString.toLowerCase JsString.startsWith] in *;
    rewrite ?lowerChar_backtick;
    destruct (Ascii.eqb "`" a); try reflexivity;
    destruct (Ascii.eqb "`" b); try reflexivity;
    destruct (Ascii.eqb "`" c); try reflexivity; discriminate H.
Qed.

Lemma stripFence_none s : JsString.startsWith s "```" = false -> stripFence s = s.
Proof. intros H. unfold stripFence. rewrite H. reflexivity. Qed.

Lemma includes_false_startsWith s sub :
  JsString.includes s sub = false -> JsString.startsWith s sub = false.
Proof.
  destruct s; cbn [JsString.includes]; intros H; apply orb_false_iff in H as [H _]; exact H.
Qed.

(** X2: a response that contains no code fence is only trimmed. *)
Theorem cleanJsonResponse_unfenced response :
  JsString.includes response "```" = false ->
  cleanJsonResponse response = JsString.trim response.
Proof.
  intros H. unfold cleanJsonResponse.
  rewrite stripJsonFence_none, stripFence_none by (apply includes_false_startsWith, H).
  rewrite stripClosingFence_none by exact H. reflexivity.
Qed.

Lemma cleanJsonResponse_unfenced_witness :
  let response := "  [1, 2, 3]" +:+ Template.nl in
  JsString.includes response "```" = false /\ cleanJsonResponse response = "[1, 2, 3]".
Proof.
  split; [reflexivity|].
  etransitivity; [apply cleanJsonResponse_unfenced; reflexivity|]. reflexivity.
Defined.

Lemma white_head_no_fence w rest :
  allWhite w = true -> w <> EmptyString -> JsString.startsWith (w +:+ rest) "```" = false.
Proof.
  destruct w as [|c w]; [contradiction|]. cbn [allWhite]. intros [Hc _]%andb_true_iff _.
  cbn [String.append JsString.startsWith].
  destruct (white_not_backtick c Hc) as [-> _]. reflexivity.
Qed.

(** X3: white space before the opening fence defeats the cleaning: the two
    replacements anchored at the start of the text do not apply, only the
    closing fence and the surrounding white space are removed, and the result
    still begins with the fence. *)
Theorem cleanJsonResponse_indented w0 tag w1 body w2 :
  allWhite w0 = true -> w0 <> EmptyString -> allWhite w2 = true ->
  opensJson body = true -> JsString.trim body = body ->
  cleanJsonResponse (w0 +:+ "```" +:+ tag +:+ w1 +:+ body +:+ w2 +:+ "```")
  = "```" +:+ tag +:+ w1 +:+ body.
Proof.
  intros Hw0 Hne Hw2 Ho Ht. unfold cleanJsonResponse.
  rewrite stripJsonFence_none, stripFence_none by (apply white_head_no_fence; assumption).
  destruct (trim_fixed _ Ht) as [_ He].
  assert (Hbody : JsString.trimEnd body <> EmptyString).
  { rewrite He. destruct (opensJson_head body Ho) as (c & r & -> & _). discriminate. }
  assert (Hend : forall a, JsString.trimEnd (a +:+ body) = a +:+ body).
  { intros a. rewrite trimEnd_keep by exact Hbody. rewrite He. reflexivity. }
  replace (w0 +:+ "```" +:+ tag +:+ w1 +:+ body +:+ w2 +:+ "```")
    with ((w0 +:+ "```" +:+ tag +:+ w1 +:+ body +:+ w2) +:+ "```")
    by (rewrite !append_assoc'; reflexivity).
  rewrite stripClosingFence_end.
  replace (w0 +:+ "```" +:+ tag +:+ w1 +:+ body +:+ w2)
    with (((w0 +:+ "```" +:+ tag +:+ w1) +:+ body) +:+ w2)
    by (rewrite !append_assoc'; reflexivity).
  rewrite trimEnd_white by exact Hw2. rewrite Hend.
  unfold JsString.trim.
  replace ((w0 +:+ "```" +:+ tag +:+ w1) +:+ body)
    with (w0 +:+ ("```" +:+ tag +:+ w1) +:+ body)
    by (rewrite !append_assoc'; reflexivity).
  rewrite trimStart_white by exact Hw0.
  replace (JsString.trimStart (("```" +:+ tag +:+ w1) +:+ body))
    with (("```" +:+ tag +:+ w1) +:+ body) by reflexivity.
  rewrite Hend, !append_assoc'. reflexivity.
Qed.

Lemma cleanJsonResponse_indented_witness :
  (allWhite " " = true /\ " " <> EmptyString /\ allWhite Template.nl = true
   /\ opensJson "{}" = true /\ JsString.trim "{}" = "{}")
  /\ cleanJsonResponse (" " +:+ "```" +:+ "json" +:+ Template.nl +:+ "{}" +:+ Template.nl +:+ "```")
     = "```" +:+ "json" +:+ Template.nl +:+ "{}".
Proof.
  split.
  - vm_compute. repeat split; try reflexivity. discriminate.
  - apply cleanJsonResponse_indented; try (vm_compute; reflexivity). discriminate.
Defined.

(** ** More on conversation turns *)

Lemma get_insert_eq (d : gmap string JsVal) k v : Js.get (<[k := v]> d) k = v.
Proof. unfold Js.get. rewrite lookup_insert_eq. reflexivity. Qed.

Lemma get_insert_ne (d : gmap string JsVal) k k' v :
  k <> k' -> Js.get (<[k := v]> d) k' = Js.get d k'.
Proof. intros H. unfold Js.get. rewrite lookup_insert_ne by exact H. reflexivity. Qed.

(** X4: the stage description that [processUserInput] puts into the prompt
    is the one that belongs to the state [determineNextStep] returns for the
    same draft. *)
Theorem stage_follows_next_step draft :
  getConversationStage draft
  = match determineNextStep draft with
    | goal => "starting the campaign creation process"
    | audience => "defining their target audience"
    | tone => "selecting the campaign tone and email length"
    | context => "providing additional context"
    | personalization => "choosing personalization preferences"
    | review | generate => "reviewing their campaign details"
    end.
Proof.
  unfold getConversationStage, determineNextStep.
  destruct (Js.truthy (Js.get draft "goal")),
           (Js.truthy (Js.get draft "targetAudience")),
           (Js.truthy (Js.get draft "tone")),
           (Js.truthy (Js.get draft "additionalContext")),
           (Js.isUndefined (Js.get draft "enablePersonalization")); reflexivity.
Qed.

Lemma isUndefined_false v : v <> JUndefined -> Js.isUndefined v = false.
Proof. destruct v; try reflexivity. congruence. Qed.

Lemma truthy_defined v : Js.truthy v = true -> Js.isUndefined v = false.
Proof. destruct v; try reflexivity. discriminate. Qed.

(** X5: [determineNextStep] never returns [generate], and once the field it
    found missing is filled in (with a truthy value; for the personalization
    preference any value but [undefined], [false] included), it returns a
    later state. *)
Theorem determineNextStep_advances draft v :
  let s := determineNextStep draft in
  s <> generate
  /\ (s <> review ->
      Js.truthy v = true \/ (s = personalization /\ v <> JUndefined) ->
      (stepRank s < stepRank (determineNextStep (<[askedField s := v]> draft)))%nat).
Proof.
  cbv zeta.
  destruct (Js.truthy (Js.get draft "goal")) eqn:Hg.
  2:{ assert (Hs : determineNextStep draft = goal)
        by (unfold determineNextStep; rewrite Hg; reflexivity).
      rewrite Hs. split; [discriminate|]. intros _ [Hv | [Hp _]]; [|discriminate Hp].
      cbn [askedField]. unfold determineNextStep.
      rewrite get_insert_eq, Hv. cbn [negb]. repeat case_match; cbn; lia. }
  destruct (Js.truthy (Js.get draft "targetAudience")) eqn:Ha.
  2:{ assert (Hs : determineNextStep draft = audience)
        by (unfold determineNextStep; rewrite Hg, Ha; reflexivity).
      rewrite Hs. split; [discriminate|]. intros _ [Hv | [Hp _]]; [|discriminate Hp].
      cbn [askedField]. unfold determineNextStep.
      rewrite get_insert_eq, get_insert_ne, Hg, Hv by discriminate.
      cbn [negb]. repeat case_match; cbn; lia. }
  destruct (Js.truthy (Js.get draft "tone")) eqn:Ht.
  2:{ assert (Hs : determineNextStep draft = tone)
        by (unfold determineNextStep; rewrite Hg, Ha, Ht; reflexivity).
      rewrite Hs. split; [discriminate|]. intros _ [Hv | [Hp _]]; [|discriminate Hp].
      cbn [askedField]. unfold determineNextStep.
      rewrite get_insert_eq, !get_insert_ne, Hg, Ha, Hv by discriminate.
      cbn [negb]. repeat case_match; cbn; lia. }
  destruct (Js.truthy (Js.get draft "additionalContext")) eqn:Hc.
  2:{ assert (Hs : determineNextStep draft = context)
        by (unfold determineNextStep; rewrite Hg, Ha, Ht, Hc; reflexivity).
      rewrite Hs. split; [discriminate|]. intros _ [Hv | [Hp _]]; [|discriminate Hp].
      cbn [askedField]. unfold determineNextStep.
      rewrite get_insert_eq, !get_insert_ne, Hg, Ha, Ht, Hv by discriminate.
      cbn [negb andb]. repeat case_match; cbn; lia. }
  destruct (Js.isUndefined (Js.get draft "enablePersonalization")) eqn:He.
  2:{ assert (Hs : determineNextStep draft = review)
        by (unfold determineNextStep; rewrite Hg, Ha, Ht, Hc, He; reflexivity).
      rewrite Hs. split; [discriminate|]. intros H. contradiction H. reflexivity. }
  assert (Hs : determineNextStep draft = personalization)
    by (unfold determineNextStep; rewrite Hg, Ha, Ht, Hc, He; reflexivity).
  rewrite Hs. split; [discriminate|]. intros _ Hv.
  assert (Hd : Js.isUndefined v = false).
  { destruct Hv as [Hv | [_ Hv]]; [apply truthy_defined, Hv | apply isUndefined_false, Hv]. }
  cbn [askedField]. unfold determineNextStep.
  rewrite get_insert_eq, !get_insert_ne, Hg, Ha, Ht, Hc, Hd by discriminate.
  cbn. lia.
Qed.

Lemma determineNextStep_advances_witness :
  let draft : gmap string JsVal :=
    {[ "goal" := JStr "Build a talent community";
       "targetAudience" := JStr "ICU nurses in Denver";
       "tone" := JStr "friendly";
       "additionalContext" := JStr "Mention the new clinic." ]} in
  (determineNextStep draft <> review
   /\ (Js.truthy (JBool false) = true
       \/ (determineNextStep draft = personalization /\ JBool false <> JUndefined)))
  /\ determineNextStep draft = personalization
  /\ (stepRank (determineNextStep draft)
      < stepRank (determineNextStep
                    (<[askedField (determineNextStep draft) := JBool false]> draft)))%nat.
Proof.
  cbv zeta.
  assert (Hs : determineNextStep
                 {[ "goal" := JStr "Build a talent community";
                    "targetAudience" := JStr "ICU nurses in Denver";
                    "tone" := JStr "friendly";
                    "additionalContext" := JStr "Mention the new clinic." ]}
               = personalization) by (vm_compute; reflexivity).
  assert (Hpre : determineNextStep
                   {[ "goal" := JStr "Build a talent community";
                      "targetAudience" := JStr "ICU nurses in Denver";
                      "tone" := JStr "friendly";
                      "additionalContext" := JStr "Mention the new clinic." ]}
                 <> review
                 /\ (Js.truthy (JBool false) = true
                     \/ (determineNextStep
                           {[ "goal" := JStr "Build a talent community";
                              "targetAudience" := JStr "ICU nurses in Denver";
                              "tone" := JStr "friendly";
                              "additionalContext" := JStr "Mention the new clinic." ]}
                         = personalization /\ JBool false <> JUndefined))).
  { split; [rewrite Hs; discriminate|]. right. split; [exact Hs | discriminate]. }
  split; [exact Hpre|]. split; [exact Hs|].
  exact (proj2 (determineNextStep_advances _ (JBool false)) (proj1 Hpre) (proj2 Hpre)).
Defined.

(** *** The turn when the model is unavailable *)

Lemma determineNextStep_emailLength draft v :
  determineNextStep (<["emailLength" := v]> draft) = determineNextStep draft.
Proof.
  unfold determineNextStep. rewrite !get_insert_ne by discriminate. reflexivity.
Qed.

Lemma createFallbackResponse_again u1 u2 draft recent :
  createFallbackResponse u2 (campaignDraft (createFallbackResponse u1 draft recent)) recent
  = createFallbackResponse u1 draft recent.
Proof.
  unfold createFallbackResponse. cbn [campaignDraft].
  rewrite determineNextStep_emailLength, get_insert_eq, insert_insert_eq.
  replace (Js.or (Js.or (Js.get draft "emailLength") (JStr "concise")) (JStr "concise"))
    with (Js.or (Js.get draft "emailLength") (JStr "concise")); [reflexivity|].
  unfold Js.or. destruct (Js.truthy (Js.get draft "emailLength")) eqn:E; [rewrite E|];
    reflexivity.
Qed.

(** X6: while the model is unavailable the conversation does not move: the
    turn returns the question of the state the draft is in, the returned
    draft is in the same state, and a further turn on the returned draft,
    whatever the user typed, returns the same response again. *)
Theorem unavailable_model_repeats_question u1 u2 draft recent llm1 llm2 :
  usable llm1 = false -> usable llm2 = false ->
  let r1 := processUserInput u1 draft recent llm1 in
  nextStep r1 = JStr (stepName (determineNextStep draft))
  /\ determineNextStep (campaignDraft r1) = determineNextStep draft
  /\ processUserInput u2 (campaignDraft r1) recent llm2 = r1.
Proof.
  intros H1 H2. cbv zeta. rewrite !processUserInput_unusable by assumption.
  split; [reflexivity|]. split.
  - cbn [createFallbackResponse campaignDraft]. apply determineNextStep_emailLength.
  - apply createFallbackResponse_again.
Qed.

Lemma unavailable_model_repeats_question_witness :
  let draft : gmap string JsVal := {[ "goal" := JStr "Build a talent community" ]} in
  let r1 := processUserInput "ICU nurses in Denver with 5 years of experience" draft []
              LlmRejects in
  (usable LlmRejects = false /\ usable (LlmNotJson "Sorry, I cannot help.") = false)
  /\ nextStep r1 = JStr "audience"
  /\ campaignDraft r1 !! "targetAudience" = None
  /\ processUserInput "ICU nurses, as I said" (campaignDraft r1) []
       (LlmNotJson "Sorry, I cannot help.") = r1.
Proof.
  cbv zeta. split; [split; reflexivity|].
  split; [vm_compute; reflexivity|]. split; [vm_compute; reflexivity|].
  exact (proj2 (proj2 (unavailable_model_repeats_question
                         "ICU nurses in Denver with 5 years of experience"
                         "ICU nurses, as I said"
                         {[ "goal" := JStr "Build a talent community" ]} []
                         LlmRejects (LlmNotJson "Sorry, I cannot help.") eq_refl eq_refl))).
Defined.

(** *** The tone, personalization and goal turns *)

Lemma detectedTone_valid inputLower : In (detectedTone inputLower) toneKeywords.
Proof. unfold detectedTone. repeat case_match; cbn; tauto. Qed.

Lemma detectedLength_valid inputLower :
  exists l : EmailLength, detectedLength inputLower = emailLengthName l.
Proof.
  unfold detectedLength. repeat case_match;
    [exists short | exists medium | exists long | exists concise]; reflexivity.
Qed.

(** X7: with the audience set and no tone yet, when the model's response
    parses, a reply whose trimmed length exceeds 5 and whose lowercase form
    contains a tone or length keyword sets [tone] and [emailLength] from the
    reply (overriding the model's patch) and moves to [context]; the tone is
    one of the five tone names and the length one of the four valid names. *)
Theorem tone_heuristic userInput draft recent parsed :
  let inputLower := JsString.toLowerCase userInput in
  isSet draft "targetAudience" = true ->
  isSet draft "tone" = false ->
  usable (LlmParsed parsed) = true ->
  5 < JsString.len (JsString.trim userInput) ->
  someIncluded toneKeywords inputLower || someIncluded lengthKeywords inputLower = true ->
  let r := processUserInput userInput draft recent (LlmParsed parsed) in
  campaignDraft r !! "tone" = Some (JStr (detectedTone inputLower))
  /\ campaignDraft r !! "emailLength" = Some (JStr (detectedLength inputLower))
  /\ nextStep r = JStr "context"
  /\ In (detectedTone inputLower) toneKeywords
  /\ exists l : EmailLength, detectedLength inputLower = emailLengthName l.
Proof.
  cbv zeta. intros Ha Ht Hu Hlen Hk.
  destruct (processUserInput_usable userInput draft recent parsed Hu) as (r & _ & ->).
  rewrite detectTargetAudience_skip by (right; exact Ha).
  set (r1 := suggestFromRecentSearches recent (autoAdvanceToAudience draft r)).
  assert (Hfire : exists m,
            detectToneAndLength userInput draft r1
            = withSuggestions contextSuggestions
                (withMessage m
                   (withNextStep context
                      (withDraftField "emailLength"
                         (JStr (detectedLength (JsString.toLowerCase userInput)))
                         (withDraftField "tone"
                            (JStr (detectedTone (JsString.toLowerCase userInput))) r1))))).
  { unfold detectToneAndLength. unfold isSet in Ha, Ht. rewrite Ha, Ht.
    apply Z.ltb_lt in Hlen. rewrite Hlen, Hk. cbn [andb negb]. eexists. reflexivity. }
  destruct Hfire as (m & ->).
  rewrite captureAdditionalContext_skip by (right; left; exact Ht).
  rewrite detectPersonalizationPreference_skip by (right; reflexivity).
  split; [|split; [|split; [|split]]].
  - cbn. rewrite lookup_insert_ne by discriminate. apply lookup_insert_eq.
  - cbn. apply lookup_insert_eq.
  - reflexivity.
  - apply detectedTone_valid.
  - apply detectedLength_valid.
Qed.

Lemma tone_heuristic_witness :
  let draft : gmap string JsVal :=
    {[ "goal" := JStr "Build a talent community";
       "targetAudience" := JStr "ICU nurses in Denver" ]} in
  let llm := LlmParsed (JObj {[ "campaignDraft" := JObj {[ "tone" := JStr "professional" ]} ]}) in
  let userInput := "Professional, but friendly and brief" in
  let r := processUserInput userInput draft [] llm in
  (isSet draft "targetAudience" = true /\ isSet draft "tone" = false /\ usable llm = true
   /\ 5 < JsString.len (JsString.trim userInput)
   /\ someIncluded toneKeywords (JsString.toLowerCase userInput)
      || someIncluded lengthKeywords (JsString.toLowerCase userInput) = true)
  /\ campaignDraft r !! "tone" = Some (JStr "friendly")
  /\ campaignDraft r !! "emailLength" = Some (JStr "short")
  /\ nextStep r = JStr "context".
Proof.
  cbv zeta. split; [vm_compute; repeat split; reflexivity|].
  pose proof (tone_heuristic "Professional, but friendly and brief"
                {[ "goal" := JStr "Build a talent community";
                   "targetAudience" := JStr "ICU nurses in Denver" ]} []
                (JObj {[ "campaignDraft" := JObj {[ "tone" := JStr "professional" ]} ]})
                eq_refl eq_refl eq_refl eq_refl eq_refl) as (H1 & H2 & H3 & _).
  split; [exact H1|]. split; [exact H2 | exact H3].
Defined.

(** X8: with goal, audience, tone and additional context set, when the
    model's response parses and the turn is the personalization turn (the
    model states [personalization], or states nothing while the draft has no
    preference yet), every non-blank reply settles the preference and moves
    to [review].  Personalization is enabled exactly when the lowercase
    reply contains one of [yes], [enable], [personalization], [customize],
    [personalize]: a refusal that mentions the word [personalization] enables
    it. *)
Theorem personalization_heuristic userInput draft recent parsed :
  let inputLower := JsString.toLowerCase userInput in
  isSet draft "goal" = true -> isSet draft "targetAudience" = true ->
  isSet draft "tone" = true -> isSet draft "additionalContext" = true ->
  usable (LlmParsed parsed) = true ->
  statedNextStep (LlmParsed parsed) = JStr "personalization"
  \/ (Js.truthy (statedNextStep (LlmParsed parsed)) = false
      /\ Js.isUndefined (Js.get draft "enablePersonalization") = true) ->
  0 < JsString.len (JsString.trim userInput) ->
  let r := processUserInput userInput draft recent (LlmParsed parsed) in
  campaignDraft r !! "enablePersonalization"
  = Some (JBool (JsString.includes inputLower "yes"
                 || JsString.includes inputLower "enable"
                 || JsString.includes inputLower "personalization"
                 || JsString.includes inputLower "customize"
                 || JsString.includes inputLower "personalize"))
  /\ nextStep r = JStr "review"
  /\ (JsString.includes inputLower "personalization" = true ->
      campaignDraft r !! "enablePersonalization" = Some (JBool true)).
Proof.
  cbv zeta. intros Hg Ha Ht Hc Hu Hst Hlen.
  destruct (processUserInput_usable userInput draft recent parsed Hu) as (r & Hr & ->).
  destruct (initialResult_usable parsed draft Hu) as (r' & Hr' & _ & Hn).
  rewrite Hr in Hr'. injection Hr' as <-.
  destruct (patchOf_usable parsed Hu) as (_ & Hs). rewrite Hs in Hn.
  assert (Hnext : nextStep r = JStr "personalization").
  { rewrite Hn. destruct Hst as [-> | [Hf Hun]]; [reflexivity|].
    unfold Js.or. rewrite Hf. unfold determineNextStep. unfold isSet in Hg, Ha, Ht, Hc.
    rewrite Hg, Ha, Ht, Hc, Hun. reflexivity. }
  rewrite detectTargetAudience_skip by (right; exact Ha).
  rewrite detectToneAndLength_skip by (right; exact Ht).
  rewrite captureAdditionalContext_skip by (right; right; exact Hc).
  set (r1 := suggestFromRecentSearches recent (autoAdvanceToAudience draft r)).
  assert (Hnext1 : nextStep r1 = JStr "personalization").
  { unfold r1. rewrite suggestFromRecentSearches_nextStep. unfold autoAdvanceToAudience.
    unfold isSet in Hg. rewrite Hg, andb_false_r. exact Hnext. }
  assert (Hfire : exists m l,
            detectPersonalizationPreference userInput draft r1
            = withSuggestions l
                (withMessage m
                   (withNextStep review
                      (withDraftField "enablePersonalization"
                         (JBool (isEnablingPersonalization (JsString.toLowerCase userInput)))
                         r1)))).
  { unfold detectPersonalizationPreference. unfold isSet in Hc. rewrite Hc, Hnext1.
    apply Z.ltb_lt in Hlen. rewrite Hlen. cbn [andb Js.isStr String.eqb].
    replace (String.eqb "personalization" "personalization") with true by reflexivity.
    do 2 eexists. reflexivity. }
  destruct Hfire as (m & l & ->).
  assert (Hset : campaignDraft
                   (withSuggestions l
                      (withMessage m
                         (withNextStep review
                            (withDraftField "enablePersonalization"
                               (JBool (isEnablingPersonalization
                                         (JsString.toLowerCase userInput))) r1))))
                 !! "enablePersonalization"
                 = Some (JBool (isEnablingPersonalization (JsString.toLowerCase userInput))))
    by (cbn; apply lookup_insert_eq).
  split; [exact Hset|]. split; [reflexivity|].
  intros Hp. rewrite Hset. unfold isEnablingPersonalization. rewrite Hp.
  rewrite !orb_true_r. reflexivity.
Qed.

Lemma personalization_heuristic_witness :
  let draft : gmap string JsVal :=
    {[ "goal" := JStr "Build a talent community";
       "targetAudience" := JStr "ICU nurses in Denver";
       "tone" := JStr "friendly";
       "additionalContext" := JStr "Mention the new clinic." ]} in
  let llm := LlmParsed (JObj {[ "message" := JStr "Understood." ]}) in
  let userInput := "No personalization, thanks" in
  (isSet draft "goal" = true /\ isSet draft "targetAudience" = true
   /\ isSet draft "tone" = true /\ isSet draft "additionalContext" = true
   /\ usable llm = true
   /\ (statedNextStep llm = JStr "personalization"
       \/ (Js.truthy (statedNextStep llm) = false
           /\ Js.isUndefined (Js.get draft "enablePersonalization") = true))
   /\ 0 < JsString.len (JsString.trim userInput)
   /\ JsString.includes (JsString.toLowerCase userInput) "personalization" = true)
  /\ campaignDraft (processUserInput userInput draft [] llm) !! "enablePersonalization"
     = Some (JBool true)
  /\ nextStep (processUserInput userInput draft [] llm) = JStr "review".
Proof.
  cbv zeta.
  pose proof (personalization_heuristic "No personalization, thanks"
                {[ "goal" := JStr "Build a talent community";
                   "targetAudience" := JStr "ICU nurses in Denver";
                   "tone" := JStr "friendly";
                   "additionalContext" := JStr "Mention the new clinic." ]} []
                (JObj {[ "message" := JStr "Understood." ]})
                eq_refl eq_refl eq_refl eq_refl eq_refl
                (or_intror (conj eq_refl eq_refl)) eq_refl) as (_ & H2 & H3).
  split.
  - vm_compute. repeat split; try reflexivity. right. split; reflexivity.
  - split; [apply H3; reflexivity | exact H2].
Defined.

Lemma statedSuggestions_usable parsed draft r :
  usable (LlmParsed parsed) = true -> initialResult parsed draft = Some r ->
  suggestions r = Js.or (statedSuggestions (LlmParsed parsed)) (JArr []).
Proof.
  destruct parsed; try discriminate; intros _ H; injection H as <-; reflexivity.
Qed.

(** X9: when the draft has no goal (and no audience) yet and the model's
    patch carries a goal and a matched example id, the turn moves to
    [audience] whatever next state the model stated, and the goal of the
    patch is in the returned draft; if the model sent no suggestions and
    there are recent searches, the suggestions are made from the first three
    of them. *)
Theorem goal_turn userInput draft recent parsed :
  isSet draft "goal" = false -> isSet draft "targetAudience" = false ->
  usable (LlmParsed parsed) = true ->
  isSet (patchOf (LlmParsed parsed)) "goal" = true ->
  isSet (patchOf (LlmParsed parsed)) "matchedExampleId" = true ->
  let r := processUserInput userInput draft recent (LlmParsed parsed) in
  nextStep r = JStr "audience"
  /\ campaignDraft r !! "goal" = patchOf (LlmParsed parsed) !! "goal"
  /\ (recent <> [] ->
      Js.truthy (statedSuggestions (LlmParsed parsed)) = false
      \/ Js.lengthIsZero (statedSuggestions (LlmParsed parsed)) = true ->
      suggestions r = Js.strings (audienceSuggestions recent)).
Proof.
  cbv zeta. intros Hg Ha Hu Hpg Hpm.
  destruct (processUserInput_usable userInput draft recent parsed Hu) as (r & Hr & ->).
  destruct (initialResult_usable parsed draft Hu) as (r' & Hr' & Hd & _).
  rewrite Hr in Hr'. injection Hr' as <-.
  destruct (patchOf_usable parsed Hu) as (Hp & _). rewrite Hp in Hd.
  pose proof (statedSuggestions_usable parsed draft r Hu Hr) as Hsug.
  rewrite detectTargetAudience_skip by (left; exact Hg).
  rewrite detectToneAndLength_skip by (left; exact Ha).
  rewrite captureAdditionalContext_skip by (left; exact Ha).
  assert (Hlook : forall k, isSet (patchOf (LlmParsed parsed)) k = true ->
                            campaignDraft r !! k = patchOf (LlmParsed parsed) !! k).
  { intros k Hk. rewrite Hd. destruct (isSet_lookup _ k Hk) as (v & Hv).
    rewrite Hv. apply lookup_union_Some_l, lookup_union_Some_l, Hv. }
  assert (Hauto : autoAdvanceToAudience draft r = withNextStep audience r).
  { unfold autoAdvanceToAudience, Js.get. rewrite (Hlook _ Hpg), (Hlook _ Hpm).
    unfold isSet, Js.get in Hpg, Hpm, Hg. rewrite Hpg, Hpm, Hg. reflexivity. }
  rewrite Hauto.
  rewrite detectPersonalizationPreference_skip
    by (right; rewrite suggestFromRecentSearches_nextStep; reflexivity).
  split; [rewrite suggestFromRecentSearches_nextStep; reflexivity|]. split.
  - rewrite suggestFromRecentSearches_draft. apply Hlook, Hpg.
  - intros Hrec Hno. unfold suggestFromRecentSearches.
    cbn [nextStep withNextStep stepName Js.isStr suggestions].
    replace (String.eqb "audience" "audience") with true by reflexivity.
    replace (0 <? length recent)%nat with true
      by (symmetry; apply Nat.ltb_lt; destruct recent; [contradiction | cbn; lia]).
    rewrite Hsug.
    replace (negb (Js.truthy (Js.or (statedSuggestions (LlmParsed parsed)) (JArr [])))
             || Js.lengthIsZero (Js.or (statedSuggestions (LlmParsed parsed)) (JArr [])))
      with true; [reflexivity|].
    symmetry. unfold Js.or.
    destruct (Js.truthy (statedSuggestions (LlmParsed parsed))) eqn:E.
    + destruct Hno as [Hno | Hno]; [discriminate Hno|]. rewrite Hno. apply orb_true_r.
    + reflexivity.
Qed.

Lemma goal_turn_witness :
  let draft : gmap string JsVal := {[ "companyName" := JStr "Acme Health" ]} in
  let llm :=
    LlmParsed (JObj {[ "campaignDraft" :=
                         JObj {[ "goal" := JStr "Build a talent community";
                                 "matchedExampleId" := JStr "talent-community" ]};
                       "nextStep" := JStr "goal";
                       "suggestions" := JArr [] ]}) in
  let recent := [ "ICU nurses in Denver"; "ER nurses"; "Surgeons"; "Pharmacists" ] in
  let r := processUserInput "I want to build a talent community" draft recent llm in
  (isSet draft "goal" = false /\ isSet draft "targetAudience" = false /\ usable llm = true
   /\ isSet (patchOf llm) "goal" = true /\ isSet (patchOf llm) "matchedExampleId" = true
   /\ recent <> []
   /\ (Js.truthy (statedSuggestions llm) = false \/ Js.lengthIsZero (statedSuggestions llm) = true))
  /\ nextStep r = JStr "audience"
  /\ suggestions r
     = Js.strings [ "Candidates matching: " +:+ JsString.q "ICU nurses in Denver";
                    "Candidates matching: " +:+ JsString.q "ER nurses";
                    "Candidates matching: " +:+ JsString.q "Surgeons" ].
Proof.
  cbv zeta.
  pose proof (goal_turn "I want to build a talent community"
                {[ "companyName" := JStr "Acme Health" ]}
                [ "ICU nurses in Denver"; "ER nurses"; "Surgeons"; "Pharmacists" ]
                (JObj {[ "campaignDraft" :=
                           JObj {[ "goal" := JStr "Build a talent community";
                                   "matchedExampleId" := JStr "talent-community" ]};
                         "nextStep" := JStr "goal";
                         "suggestions" := JArr [] ]})
                eq_refl eq_refl eq_refl eq_refl eq_refl) as (H1 & _ & H3).
  split.
  - vm_compute. repeat split; try reflexivity; [discriminate | right; reflexivity].
  - split; [exact H1|]. apply H3; [discriminate | right; reflexivity].
Defined.

(** *** The heuristics of one turn *)

Lemma detectTargetAudience_fires userInput draft r :
  detectTargetAudience userInput draft r = r
  \/ nextStep (detectTargetAudience userInput draft r) = JStr "tone".
Proof. unfold detectTargetAudience. repeat case_match; auto. Qed.

Lemma detectToneAndLength_fires userInput draft r :
  detectToneAndLength userInput draft r = r
  \/ nextStep (detectToneAndLength userInput draft r) = JStr "context".
Proof. unfold detectToneAndLength. repeat case_match; auto. Qed.

(** X10: in one turn at most one of the four reply heuristics (audience,
    tone, additional context, personalization) changes the response: the
    result of [processUserInput] on a parsed response is the response after
    the two suggestion steps, or one heuristic applied to it. *)
Theorem one_heuristic_per_turn userInput draft recent parsed :
  usable (LlmParsed parsed) = true ->
  exists r0, initialResult parsed draft = Some r0
    /\ let base := suggestFromRecentSearches recent (autoAdvanceToAudience draft r0) in
       let r := processUserInput userInput draft recent (LlmParsed parsed) in
       r = base
       \/ r = detectTargetAudience userInput draft base
       \/ r = detectToneAndLength userInput draft base
       \/ r = captureAdditionalContext userInput draft base
       \/ r = detectPersonalizationPreference userInput draft base.
Proof.
  intros Hu.
  destruct (processUserInput_usable userInput draft recent parsed Hu) as (r & Hr & ->).
  exists r. split; [exact Hr|]. cbv zeta.
  set (base := suggestFromRecentSearches recent (autoAdvanceToAudience draft r)).
  destruct (isSet draft "targetAudience") eqn:Ha.
  - rewrite (detectTargetAudience_skip userInput draft base) by (right; exact Ha).
    destruct (isSet draft "tone") eqn:Ht.
    + rewrite (detectToneAndLength_skip userInput draft base) by (right; exact Ht).
      destruct (isSet draft "additionalContext") eqn:Hc.
      * rewrite (captureAdditionalContext_skip userInput draft base)
          by (right; right; exact Hc).
        right; right; right; right. reflexivity.
      * rewrite detectPersonalizationPreference_skip by (left; exact Hc).
        right; right; right; left. reflexivity.
    + rewrite captureAdditionalContext_skip by (right; left; exact Ht).
      destruct (detectToneAndLength_fires userInput draft base) as [-> | Hn].
      * right; right; right; right. reflexivity.
      * rewrite detectPersonalizationPreference_skip by (right; rewrite Hn; reflexivity).
        right; right; left. reflexivity.
  - rewrite detectToneAndLength_skip by (left; exact Ha).
    rewrite captureAdditionalContext_skip by (left; exact Ha).
    destruct (detectTargetAudience_fires userInput draft base) as [-> | Hn].
    + right; right; right; right. reflexivity.
    + rewrite detectPersonalizationPreference_skip by (right; rewrite Hn; reflexivity).
      right; left. reflexivity.
Qed.

Lemma one_heuristic_per_turn_witness :
  let draft : gmap string JsVal := {[ "goal" := JStr "Build a talent community" ]} in
  usable (LlmParsed (JObj ∅)) = true
  /\ exists r0, initialResult (JObj ∅) draft = Some r0
       /\ let base := suggestFromRecentSearches [] (autoAdvanceToAudience draft r0) in
          let r := processUserInput "friendly ICU nurses in Denver" draft []
                     (LlmParsed (JObj ∅)) in
          r = base
          \/ r = detectTargetAudience "friendly ICU nurses in Denver" draft base
          \/ r = detectToneAndLength "friendly ICU nurses in Denver" draft base
          \/ r = captureAdditionalContext "friendly ICU nurses in Denver" draft base
          \/ r = detectPersonalizationPreference "friendly ICU nurses in Denver" draft base.
Proof.
  cbv zeta. split; [reflexivity|].
  exact (one_heuristic_per_turn "friendly ICU nurses in Denver"
           {[ "goal" := JStr "Build a talent community" ]} [] (JObj ∅) eq_refl).
Defined.

(** X11: a draft returned by a turn on a parsed response always carries a
    personalization preference (the default [false], the value of the input
    draft or of the patch, or the choice just made), provided neither the
    input draft nor the patch holds an explicit [undefined] there.  So
    [determineNextStep] never returns [personalization] for a returned draft,
    and a later turn during which the model is unavailable does not ask the
    personalization question. *)
Theorem returned_draft_has_preference userInput draft recent parsed :
  usable (LlmParsed parsed) = true ->
  draft !! "enablePersonalization" <> Some JUndefined ->
  patchOf (LlmParsed parsed) !! "enablePersonalization" <> Some JUndefined ->
  let r := processUserInput userInput draft recent (LlmParsed parsed) in
  Js.isUndefined (Js.get (campaignDraft r) "enablePersonalization") = false
  /\ determineNextStep (campaignDraft r) <> personalization
  /\ forall userInput' recent' llm',
       usable llm' = false ->
       nextStep (processUserInput userInput' (campaignDraft r) recent' llm')
       <> JStr "personalization".
Proof.
  cbv zeta. intros Hu Hd Hp.
  set (res := processUserInput userInput draft recent (LlmParsed parsed)).
  assert (Hdef : Js.isUndefined (Js.get (campaignDraft res) "enablePersonalization") = false).
  { subst res.
    destruct (processUserInput_usable userInput draft recent parsed Hu) as (r & Hr & ->).
    destruct (initialResult_usable parsed draft Hu) as (r' & Hr' & Hdr & _).
    rewrite Hr in Hr'. injection Hr' as <-.
    destruct (patchOf_usable parsed Hu) as (Hpo & _). rewrite Hpo in Hdr.
    set (r3 := captureAdditionalContext userInput draft
                 (detectToneAndLength userInput draft
                    (detectTargetAudience userInput draft
                       (suggestFromRecentSearches recent (autoAdvanceToAudience draft r))))).
    assert (H3 : campaignDraft r3 !! "enablePersonalization"
                 = campaignDraft r !! "enablePersonalization").
    { unfold r3.
      rewrite captureAdditionalContext_draft by (left; discriminate).
      rewrite detectToneAndLength_draft by (try discriminate; left; discriminate).
      rewrite detectTargetAudience_draft by (left; discriminate).
      rewrite suggestFromRecentSearches_draft, autoAdvanceToAudience_draft. reflexivity. }
    unfold detectPersonalizationPreference. case_match.
    - cbn [campaignDraft withSuggestions withMessage withNextStep withDraftField].
      rewrite get_insert_eq. reflexivity.
    - unfold Js.get. rewrite H3, Hdr.
      rewrite !lookup_union.
      replace (({[ "emailLength" := JStr "concise"; "enablePersonalization" := JBool false ]}
                : gmap string JsVal) !! "enablePersonalization")
        with (Some (JBool false)) by (vm_compute; reflexivity).
      destruct (patchOf (LlmParsed parsed) !! "enablePersonalization") as [v|] eqn:E1.
      + destruct (draft !! "enablePersonalization"); cbn;
          apply isUndefined_false; congruence.
      + destruct (draft !! "enablePersonalization") as [w|] eqn:E2; cbn.
        * apply isUndefined_false. congruence.
        * reflexivity. }
  assert (Hnext : determineNextStep (campaignDraft res) <> personalization).
  { unfold determineNextStep. rewrite Hdef, andb_false_r. repeat case_match; discriminate. }
  split; [exact Hdef|]. split; [exact Hnext|].
  intros u' rs' llm' Hu'. rewrite processUserInput_unusable by exact Hu'.
  cbn [createFallbackResponse nextStep]. intros E. injection E as E.
  apply Hnext. destruct (determineNextStep (campaignDraft res)); try discriminate E.
  reflexivity.
Qed.

Lemma returned_draft_has_preference_witness :
  let draft : gmap string JsVal :=
    {[ "goal" := JStr "Build a talent community";
       "targetAudience" := JStr "ICU nurses in Denver";
       "tone" := JStr "friendly" ]} in
  let userInput := "Please mention the new clinic in Denver." in
  let r := processUserInput userInput draft [] (LlmParsed (JObj ∅)) in
  (usable (LlmParsed (JObj ∅)) = true
   /\ draft !! "enablePersonalization" <> Some JUndefined
   /\ patchOf (LlmParsed (JObj ∅)) !! "enablePersonalization" <> Some JUndefined)
  /\ nextStep r = JStr "personalization"
  /\ nextStep (processUserInput "yes" (campaignDraft r) [] LlmRejects) = JStr "review"
  /\ nextStep (processUserInput "yes" (campaignDraft r) [] LlmRejects)
     <> JStr "personalization".
Proof.
  cbv zeta. split; [split; [reflexivity | split; vm_compute; discriminate]|].
  split; [vm_compute; reflexivity|]. split; [vm_compute; reflexivity|].
  assert (H1 : ({[ "goal" := JStr "Build a talent community";
                   "targetAudience" := JStr "ICU nurses in Denver";
                   "tone" := JStr "friendly" ]} : gmap string JsVal)
               !! "enablePersonalization" <> Some JUndefined)
    by (vm_compute; discriminate).
  assert (H2 : patchOf (LlmParsed (JObj ∅)) !! "enablePersonalization" <> Some JUndefined)
    by (vm_compute; discriminate).
  exact (proj2 (proj2 (returned_draft_has_preference
                         "Please mention the new clinic in Denver." _ [] (JObj ∅)
                         eq_refl H1 H2)) "yes" [] LlmRejects eq_refl).
Defined.

(** *** Who declares the conversation complete *)

Lemma isComplete_heuristics userInput draft recent r :
  isComplete (detectPersonalizationPreference userInput draft
                (captureAdditionalContext userInput draft
                   (detectToneAndLength userInput draft
                      (detectTargetAudience userInput draft
                         (suggestFromRecentSearches recent
                            (autoAdvanceToAudience draft r))))))
  = isComplete r.
Proof.
  unfold detectPersonalizationPreference, captureAdditionalContext, detectToneAndLength,
    detectTargetAudience, suggestFromRecentSearches, autoAdvanceToAudience.
  repeat case_match; reflexivity.
Qed.

(** X12: [processUserInput] never declares the conversation complete on its
    own: the returned flag is the one the model stated, or [false] when the
    model stated none or was unavailable; no heuristic sets it, not even the
    one that moves to [review]. *)
Theorem completion_is_the_models userInput draft recent llm :
  isComplete (processUserInput userInput draft recent llm)
  = if usable llm then Js.or (statedComplete llm) (JBool false) else JBool false.
Proof.
  destruct (usable llm) eqn:Hu.
  - destruct llm as [| | |parsed]; try discriminate Hu.
    destruct (processUserInput_usable userInput draft recent parsed Hu) as (r & Hr & ->).
    rewrite isComplete_heuristics.
    destruct parsed; try discriminate Hu; cbn in Hr; injection Hr as <-; reflexivity.
  - rewrite processUserInput_unusable by exact Hu. reflexivity.
Qed.

(** ** Campaign names *)

Lemma allWhite_app a b : allWhite (a +:+ b) = allWhite a && allWhite b.
Proof.
  induction a as [|c a IH]; [reflexivity|]. cbn. rewrite IH. apply andb_assoc.
Qed.

Lemma allWhite_trimStart s : allWhite (JsString.trimStart s) = allWhite s.
Proof.
  induction s as [|c s IH]; [reflexivity|]. cbn.
  destruct (JsString.isWhiteSpace c) eqn:E; [exact IH|]. cbn. rewrite E. reflexivity.
Qed.

Lemma trim_empty s : JsString.trim s = EmptyString <-> allWhite s = true.
Proof. unfold JsString.trim. rewrite trimEnd_empty, allWhite_trimStart. reflexivity. Qed.

Lemma trimStart_idem s : JsString.trimStart (JsString.trimStart s) = JsString.trimStart s.
Proof.
  induction s as [|c s IH]; [reflexivity|]. cbn.
  destruct (JsString.isWhiteSpace c) eqn:E; [exact IH|]. cbn. rewrite E. reflexivity.
Qed.

Lemma trimEnd_idem s : JsString.trimEnd (JsString.trimEnd s) = JsString.trimEnd s.
Proof.
  induction s as [|c s IH]; [reflexivity|]. cbn.
  destruct (JsString.trimEnd s) as [|d t] eqn:E.
  - destruct (JsString.isWhiteSpace c) eqn:Ec; [reflexivity|]. cbn. rewrite Ec. reflexivity.
  - cbn [JsString.trimEnd]. cbn [JsString.trimEnd] in IH. rewrite IH. reflexivity.
Qed.

Lemma trimStart_trimEnd s :
  JsString.trimStart s = s -> JsString.trimStart (JsString.trimEnd s) = JsString.trimEnd s.
Proof.
  destruct s as [|c s]; [reflexivity|]. cbn.
  destruct (JsString.isWhiteSpace c) eqn:Ec.
  - intros H. pose proof (trimStart_length s) as Hl. rewrite H in Hl. cbn in Hl. lia.
  - intros _. destruct (JsString.trimEnd s); cbn; rewrite Ec; reflexivity.
Qed.

Lemma trim_idem s : JsString.trim (JsString.trim s) = JsString.trim s.
Proof.
  unfold JsString.trim.
  rewrite (trimStart_trimEnd (JsString.trimStart s)) by apply trimStart_idem.
  apply trimEnd_idem.
Qed.

(** X13: [generateCampaignName] always returns a name that the editor's
    validation accepts (a string that is not blank).  It is the trimmed
    answer of the model when that is not blank, and the campaign type
    followed by [ Campaign] when the call fails or the answer is blank. *)
Theorem campaign_name_never_blank campaignType targetAudience campaignGoal llm :
  let name := generateCampaignName campaignType targetAudience campaignGoal llm in
  Editor.blank (JStr name) = Some false
  /\ (forall content, llm = TextContent content -> allWhite content = false ->
      name = JsString.trim content)
  /\ (llm = TextRejects \/ (exists content, llm = TextContent content /\ allWhite content = true) ->
      name = campaignType +:+ " Campaign").
Proof.
  cbv zeta.
  assert (Hfb : String.eqb (JsString.trim (campaignType +:+ " Campaign")) EmptyString = false).
  { apply String.eqb_neq. rewrite trim_empty, allWhite_app, andb_false_r. discriminate. }
  unfold generateCampaignName, Template.nonEmpty, Editor.blank.
  destruct llm as [|content].
  - split; [rewrite Hfb; reflexivity|]. split; [discriminate | reflexivity].
  - destruct (String.eqb_spec (JsString.trim content) EmptyString) as [E | E]; cbn [negb].
    + split; [rewrite Hfb; reflexivity|]. split.
      * intros c [= <-] Hw. apply trim_empty in E. congruence.
      * reflexivity.
    + split; [|split].
      * rewrite trim_idem. apply String.eqb_neq in E. rewrite E. reflexivity.
      * intros c [= <-] _. reflexivity.
      * intros [H | (c & [= <-] & Hw)]; [discriminate H|].
        apply trim_empty in Hw. contradiction.
Qed.

Lemma campaign_name_never_blank_witness :
  (TextContent "   " = TextRejects
   \/ exists content, TextContent "   " = TextContent content /\ allWhite content = true)
  /\ generateCampaignName "nurture" "ICU nurses" "Build a talent community" (TextContent "   ")
     = "nurture Campaign"
  /\ generateCampaignName "nurture" "ICU nurses" "Build a talent community"
       (TextContent " Denver ICU Talent Community  ")
     = "Denver ICU Talent Community".
Proof.
  assert (H : TextContent "   " = TextRejects
              \/ exists content, TextContent "   " = TextContent content
                                 /\ allWhite content = true)
    by (right; exists "   "; split; reflexivity).
  split; [exact H|]. split.
  - exact (proj2 (proj2 (campaign_name_never_blank "nurture" "ICU nurses"
                           "Build a talent community" (TextContent "   "))) H).
  - reflexivity.
Defined.

(** ** Ids and delays of generated steps *)

Lemma ofNat_inj n m : JsString.ofNat n = JsString.ofNat m -> n = m.
Proof.
  unfold JsString.ofNat. intros H.
  apply DecimalNat.Unsigned.to_uint_inj.
  apply (f_equal NilEmpty.uint_of_string) in H. rewrite !NilEmpty.usu in H.
  injection H as H. exact H.
Qed.

Lemma stepId_inj i j : stepId i = stepId j -> i = j.
Proof.
  unfold stepId. intros H. assert (H' : JsString.ofNat (i + 1) = JsString.ofNat (j + 1)).
  { cbn in H. injection H as H. exact H. }
  apply ofNat_inj in H'. lia.
Qed.

Lemma stepIds_NoDup n : NoDup (stepIds n).
Proof.
  unfold stepIds. apply NoDup_fmap_2_strong; [|apply NoDup_seq].
  intros x y _ _. apply stepId_inj.
Qed.

Lemma mapIndexed_ids {A : Type} (f : nat -> A -> option Email.EmailStep) n l l' :
  (forall i x y, f i x = Some y -> Email.id y = stepId i) ->
  mapIndexed f n l = Some l' ->
  Email.id <$> l' = stepId <$> seq n (length l').
Proof.
  intros Hf. revert n l'. induction l as [|x l IH]; intros n l' H; cbn in H.
  - injection H as <-. reflexivity.
  - destruct (f n x) as [y|] eqn:Hy; [|discriminate H]. cbn in H.
    destruct (mapIndexed f (S n) l) as [ys|] eqn:Hys; [|discriminate H]. cbn in H.
    injection H as <-. cbn. rewrite (Hf _ _ _ Hy), (IH _ _ Hys). reflexivity.
Qed.

Lemma imap_ids draft l titles :
  Email.id <$> imap (fallbackStep draft l) titles = stepIds (length (imap (fallbackStep draft l) titles)).
Proof.
  unfold stepIds. apply list_eq. intros i.
  rewrite !list_lookup_fmap, list_lookup_imap, length_imap.
  destruct (titles !! i) as [t|] eqn:E; cbn.
  - rewrite lookup_seq_lt by (apply lookup_lt_Some in E; exact E). reflexivity.
  - rewrite lookup_seq_ge by (apply lookup_ge_None in E; exact E). reflexivity.
Qed.

Lemma ensureStep_id index raw s : ensureStep index raw = Some s -> Email.id s = stepId index.
Proof.
  unfold ensureStep. intros H.
  destruct (Js.getField raw "type"); [|discriminate H].
  destruct (Js.getField raw "subject"); [|discriminate H].
  destruct (Js.getField raw "content"); [|discriminate H].
  destruct (Js.getField raw "delay"); [|discriminate H].
  destruct (Js.getField raw "delayUnit"); [|discriminate H].
  cbn in H. injection H as <-. reflexivity.
Qed.

Lemma validateEmail_shape index raw s :
  validateEmail index raw = Some s ->
  Email.id s = stepId index
  /\ (Email.type s = JStr "email" \/ Email.type s = JStr "connection")
  /\ exists n, Email.delay s = JNum n /\ 0 <= n.
Proof.
  unfold validateEmail. intros H.
  destruct (Js.getField raw "delayUnit"); [|discriminate H].
  destruct (Js.getField raw "type") as [ty|]; [|discriminate H].
  destruct (Js.getField raw "subject"); [|discriminate H].
  destruct (Js.getField raw "content"); [|discriminate H].
  destruct (Js.getField raw "delay"); [|discriminate H].
  cbn in H. injection H as <-. cbn. split; [reflexivity|]. split.
  - destruct (Js.isStr ty "connection"); auto.
  - eexists. split; [reflexivity|]. lia.
Qed.

(** X14: the steps returned by either generator carry the ids [step-1],
    [step-2], ... in order, on the primary and on the fallback path alike;
    these ids are pairwise distinct. *)
Theorem generated_ids_distinct :
  (forall byId byGoal draft l llm data steps,
     generateCampaignFromDraft byId byGoal draft l llm = Returns data steps ->
     Email.id <$> steps = stepIds (length steps))
  /\ (forall prompt l llm,
        Email.id <$> generateCampaignSequence prompt l llm
        = stepIds (length (generateCampaignSequence prompt l llm)))
  /\ forall n, NoDup (stepIds n).
Proof.
  split; [|split].
  - intros byId byGoal draft l llm data steps H.
    unfold generateCampaignFromDraft in H.
    destruct (findMatchingExample byId byGoal draft) as [example|]; [|discriminate H].
    assert (Hfb : forall d s, Returns (fst (createFallbackCampaign draft example l))
                                      (snd (createFallbackCampaign draft example l))
                              = Returns d s ->
                              Email.id <$> s = stepIds (length s)).
    { intros d s [= _ <-]. apply imap_ids. }
    destruct llm as [| | |result]; try (apply (Hfb _ _ H)).
    destruct (campaignFromResponse draft result) as [[d s]|] eqn:E; [|apply (Hfb _ _ H)].
    cbn in H. injection H as <- <-.
    destruct (campaignFromResponse_steps _ _ _ _ E) as (raw & _ & Hm).
    apply (mapIndexed_ids ensureStep 0 raw); [apply ensureStep_id | exact Hm].
  - intros prompt l llm. unfold generateCampaignSequence.
    destruct llm as [| | |emailData]; try reflexivity.
    destruct (mapArray validateEmail emailData) as [steps|] eqn:E; [|reflexivity].
    destruct emailData; try discriminate E. cbn in E.
    apply (mapIndexed_ids validateEmail 0 l0); [|exact E].
    intros i x y Hy. apply (validateEmail_shape i x y Hy).
  - apply stepIds_NoDup.
Qed.

(** X15: whatever the model wrote, every step returned by
    [generateCampaignSequence] has the type [email] or [connection] and the
    delay unit [immediately] or [business days].  When every delay the model
    wrote is one the code reads exactly (no integer, or an integer of size at
    most 2^53), the delay of the step is a non-negative integer, at most 2^53
    or twice the index of the step. *)
Theorem sequence_steps_well_formed prompt l llm i s :
  generateCampaignSequence prompt l llm !! i = Some s ->
  ((Email.type s = JStr "email" \/ Email.type s = JStr "connection")
   /\ (Email.delayUnit s = JStr "immediately" \/ Email.delayUnit s = JStr "business days"))
  /\ (exactDelays llm = true ->
      exists n, Email.delay s = JNum n /\ 0 <= n <= Z.max (2 ^ 53) (Z.of_nat i * 2)).
Proof.
  intros H.
  assert (Hfb : fallbackSequence prompt l !! i = Some s ->
                ((Email.type s = JStr "email" \/ Email.type s = JStr "connection")
                 /\ (Email.delayUnit s = JStr "immediately"
                     \/ Email.delayUnit s = JStr "business days"))
                /\ exists n, Email.delay s = JNum n
                             /\ 0 <= n <= Z.max (2 ^ 53) (Z.of_nat i * 2)).
  { intros Hs. destruct i as [|[|[|i]]]; cbn in Hs; try discriminate Hs;
      injection Hs as <-; cbn [Email.type Email.delayUnit Email.delay];
      (split; [split; [left; reflexivity | auto]|]); eexists;
      (split; [reflexivity | lia]). }
  assert (Hfb' : fallbackSequence prompt l !! i = Some s ->
                 ((Email.type s = JStr "email" \/ Email.type s = JStr "connection")
                  /\ (Email.delayUnit s = JStr "immediately"
                      \/ Email.delayUnit s = JStr "business days"))
                 /\ (exactDelays llm = true ->
                     exists n, Email.delay s = JNum n
                               /\ 0 <= n <= Z.max (2 ^ 53) (Z.of_nat i * 2))).
  { intros Hs. destruct (Hfb Hs) as [H1 H2]. split; [exact H1 | intros _; exact H2]. }
  unfold generateCampaignSequence in H.
  destruct llm as [| | |emailData]; try (apply Hfb', H).
  destruct (mapArray validateEmail emailData) as [steps|] eqn:E; [|apply Hfb', H].
  destruct emailData as [| | | | |emails|]; try discriminate E. cbn [mapArray] in E.
  destruct (mapIndexed_lookup validateEmail 0 _ _ _ _ E H) as (raw & Hraw & Hv).
  cbn [Nat.add] in Hv. split.
  - split; [apply (validateEmail_shape _ _ _ Hv)|].
    pose proof (validateEmail_delayUnit _ _ _ Hv) as Hu. destruct i; auto.
  - intros Hex. cbn [exactDelays] in Hex. rewrite forallb_forall in Hex.
    specialize (Hex raw). unfold exactDelay in Hex.
    assert (Hin : In raw emails) by (apply list_elem_of_In, list_elem_of_lookup; eauto).
    specialize (Hex Hin).
    unfold validateEmail in Hv.
    destruct (Js.getField raw "delayUnit"); [|discriminate Hv].
    destruct (Js.getField raw "type"); [|discriminate Hv].
    destruct (Js.getField raw "subject"); [|discriminate Hv].
    destruct (Js.getField raw "content"); [|discriminate Hv].
    destruct (Js.getField raw "delay") as [delay|]; [|discriminate Hv].
    cbn in Hv. injection Hv as <-. cbn [Email.delay]. eexists. split; [reflexivity|].
    destruct (ParseInt.parseInt delay) as [n|].
    + apply Z.leb_le in Hex. destruct (n =? 0); destruct (i =? 0)%nat; lia.
    + destruct (i =? 0)%nat; lia.
Qed.

Lemma sequence_steps_well_formed_witness :
  let llm := LlmParsed (JArr [ JObj {[ "type" := JStr "sms"; "delay" := JNum (-4) ]} ]) in
  let prompt :=
    {| Prompt.campaignType := "nurture"; Prompt.targetAudience := "ICU nurses";
       Prompt.campaignGoal := "Build a talent community"; Prompt.contentSources := [];
       Prompt.aiInstructions := EmptyString; Prompt.tone := "friendly";
       Prompt.emailLength := None; Prompt.companyName := "Acme Health";
       Prompt.recruiterName := "Dana Fox"; Prompt.enablePersonalization := None |} in
  let s :=
    {| Email.id := "step-1"; Email.type := JStr "email"; Email.subject := JStr "Follow-up 1";
       Email.content := JStr "Email content here..."; Email.delay := JNum 0;
       Email.delayUnit := JStr "immediately" |} in
  (generateCampaignSequence prompt [] llm !! 0%nat = Some s /\ exactDelays llm = true)
  /\ (Email.type s = JStr "email" \/ Email.type s = JStr "connection")
  /\ (Email.delayUnit s = JStr "immediately" \/ Email.delayUnit s = JStr "business days")
  /\ exists n, Email.delay s = JNum n /\ 0 <= n <= Z.max (2 ^ 53) (Z.of_nat 0 * 2).
Proof.
  intros llm prompt s.
  assert (H : generateCampaignSequence prompt [] llm !! 0%nat = Some s)
    by (vm_compute; reflexivity).
  assert (Hex : exactDelays llm = true) by (vm_compute; reflexivity).
  split; [split; [exact H | exact Hex]|].
  destruct (sequence_steps_well_formed prompt [] llm 0%nat s H) as [[Ht Hu] Hd].
  split; [exact Ht|]. split; [exact Hu|]. exact (Hd Hex).
Defined.

Lemma generated_ids_distinct_witness :
  let llm :=
    LlmParsed (JObj {[ "emailSteps" :=
      JArr [ JObj {[ "subject" := JStr "Welcome" ]};
             JObj {[ "subject" := JStr "Checking in" ]} ] ]}) in
  exists data steps,
    generateCampaignFromDraft sampleCatalogById emptyCatalog (sampleDraft false None) [] llm
    = Returns data steps
    /\ Email.id <$> steps = stepIds (length steps)
    /\ stepIds 2 = [ "step-1"; "step-2" ].
Proof.
  cbv zeta.
  destruct (generateCampaignFromDraft sampleCatalogById emptyCatalog (sampleDraft false None) []
              (LlmParsed (JObj {[ "emailSteps" :=
                 JArr [ JObj {[ "subject" := JStr "Welcome" ]};
                        JObj {[ "subject" := JStr "Checking in" ]} ] ]})))
    as [error | data steps] eqn:E; [vm_compute in E; discriminate E|].
  exists data, steps. split; [reflexivity|]. split; [|reflexivity].
  exact (proj1 generated_ids_distinct _ _ _ _ _ _ _ E).
Defined.

(** *** Reading a numeric delay *)












(** *** The record of a generated campaign *)

(** X17: whichever path produces it, the campaign record returned by
    [generateCampaignFromDraft] carries the email length of the draft
    ([concise] when the draft has none) and its personalization flag
    ([false] when it has none), also when the model's record states other
    values. *)
Theorem generated_record_keeps_preferences byId byGoal draft l llm data steps :
  generateCampaignFromDraft byId byGoal draft l llm = Returns data steps ->
  data !! "emailLength" = Some (JStr (lengthOrConcise (Draft.emailLength draft)))
  /\ data !! "enablePersonalization"
     = Some (JBool (optBool (Draft.enablePersonalization draft))).
Proof.
  intros H. unfold generateCampaignFromDraft in H.
  destruct (findMatchingExample byId byGoal draft) as [example|]; [|discriminate H].
  assert (Hfb : Returns (fst (createFallbackCampaign draft example l))
                        (snd (createFallbackCampaign draft example l))
                = Returns data steps ->
                data !! "emailLength" = Some (JStr (lengthOrConcise (Draft.emailLength draft)))
                /\ data !! "enablePersonalization"
                   = Some (JBool (optBool (Draft.enablePersonalization draft)))).
  { intros [= <- _]. cbn [createFallbackCampaign fst]. unfold fallbackCampaignData.
    split.
    - rewrite !lookup_insert_ne by discriminate. apply lookup_insert_eq.
    - rewrite !lookup_insert_ne by discriminate. apply lookup_singleton_eq. }
  destruct llm as [| | |result]; try (apply Hfb, H).
  destruct (campaignFromResponse draft result) as [[d s]|] eqn:E; [|apply Hfb, H].
  cbn in H. injection H as <- <-.
  unfold campaignFromResponse in E.
  destruct (Js.getField result "emailSteps") as [raw|]; [|discriminate E]. cbn in E.
  destruct (mapArray ensureStep raw); [|discriminate E]. cbn in E.
  destruct (Js.getField result "campaignData"); [|discriminate E]. cbn in E.
  injection E as <- _. split.
  - rewrite lookup_insert_ne by discriminate. apply lookup_insert_eq.
  - apply lookup_insert_eq.
Qed.

Lemma generated_record_keeps_preferences_witness :
  let llm :=
    LlmParsed (JObj {[ "campaignData" := JObj {[ "name" := JStr "Talent community";
                                                 "emailLength" := JStr "long";
                                                 "enablePersonalization" := JBool true ]};
                       "emailSteps" := JArr [ JObj {[ "subject" := JStr "Welcome" ]} ] ]}) in
  exists data steps,
    generateCampaignFromDraft sampleCatalogById emptyCatalog (sampleDraft false None) [] llm
    = Returns data steps
    /\ data !! "name" = Some (JStr "Talent community")
    /\ data !! "emailLength" = Some (JStr "concise")
    /\ data !! "enablePersonalization" = Some (JBool false).
Proof.
  cbv zeta.
  destruct (generateCampaignFromDraft sampleCatalogById emptyCatalog (sampleDraft false None) []
              (LlmParsed (JObj {[ "campaignData" := JObj {[ "name" := JStr "Talent community";
                                                           "emailLength" := JStr "long";
                                                           "enablePersonalization" := JBool true ]};
                                 "emailSteps" := JArr [ JObj {[ "subject" := JStr "Welcome" ]} ] ]})))
    as [error | data steps] eqn:E; [vm_compute in E; discriminate E|].
  exists data, steps. split; [reflexivity|].
  destruct (generated_record_keeps_preferences _ _ _ _ _ _ _ E) as [H1 H2].
  split; [|split; [exact H1 | exact H2]].
  vm_compute in E. injection E as <- _. vm_compute. reflexivity.
Defined.

(** ** The replacement of the personalization section *)

Lemma indexOf_found s sub : JsString.startsWith s sub = true -> JsString.indexOf s sub = 0.
Proof. intros H. destruct s; cbn [JsString.indexOf]; rewrite H; reflexivity. Qed.

Lemma indexOf_next c s sub :
  JsString.startsWith (String c s) sub = false -> 0 <= JsString.indexOf s sub ->
  JsString.indexOf (String c s) sub = 1 + JsString.indexOf s sub.
Proof.
  intros H Hs. cbn [JsString.indexOf]. rewrite H.
  replace (JsString.indexOf s sub <? 0) with false by (symmetry; apply Z.ltb_ge, Hs). lia.
Qed.

Lemma len_app a b : JsString.len (a +:+ b) = JsString.len a + JsString.len b.
Proof. unfold JsString.len. rewrite str_length_app. lia. Qed.

(** The counterpart of [countOcc_skip] for the position of the first
    occurrence. *)
Lemma indexOf_skip a b s x sub :
  pairFree a b s = true ->
  lastIsNot a s = true \/ headIsNot b x = true ->
  0 <= JsString.indexOf x (String a (String b sub)) ->
  JsString.indexOf (s +:+ x) (String a (String b sub))
  = JsString.len s + JsString.indexOf x (String a (String b sub)).
Proof.
  intros Hs Hb Hx. revert Hb. induction s as [|c s IH]; intros Hb; [reflexivity|].
  cbn [pairFree] in Hs. apply andb_true_iff in Hs as [Hc Hs].
  cbn [String.append].
  assert (Hn : JsString.startsWith (String c (s +:+ x)) (String a (String b sub)) = false).
  { cbn [JsString.startsWith]. destruct (Ascii.eqb_spec a c) as [<- | _]; [|reflexivity].
    rewrite Ascii.eqb_refl in Hc. cbn [andb] in *.
    destruct s as [|d s]; cbn [String.append].
    - destruct Hb as [Hb | Hb]; [cbn in Hb; rewrite Ascii.eqb_refl in Hb; discriminate Hb|].
      destruct x as [|e x]; [reflexivity|]. cbn in Hb. cbn [JsString.startsWith].
      apply negb_true_iff in Hb. rewrite (Ascii.eqb_sym b e), Hb. reflexivity.
    - cbn in Hc. rewrite negb_involutive in Hc. cbn [JsString.startsWith].
      apply negb_true_iff in Hc. rewrite (Ascii.eqb_sym b d), Hc. reflexivity. }
  assert (Hrec : JsString.indexOf (s +:+ x) (String a (String b sub))
                 = JsString.len s + JsString.indexOf x (String a (String b sub))).
  { destruct s as [|d s]; [reflexivity|]. apply IH; [exact Hs|].
    destruct Hb as [Hb | Hb]; [left; exact Hb | right; exact Hb]. }
  rewrite indexOf_next; [|exact Hn|rewrite Hrec; unfold JsString.len; lia].
  rewrite Hrec. unfold JsString.len. cbn [String.length]. lia.
Qed.

Lemma str_take_app a b : JsString.take (String.length a) (a +:+ b) = a.
Proof. induction a as [|c a IH]; [destruct b; reflexivity|]. cbn. rewrite IH. reflexivity. Qed.

Lemma str_take_all s : JsString.take (String.length s) s = s.
Proof. induction s as [|c s IH]; [reflexivity|]. cbn. rewrite IH. reflexivity. Qed.

Lemma str_drop_zero s : JsString.drop 0 s = s.
Proof. destruct s; reflexivity. Qed.

Lemma substring_prefix a b : JsString.substring (a +:+ b) 0 (JsString.len a) = a.
Proof.
  unfold JsString.substring. rewrite len_app. unfold JsString.len.
  replace (Z.to_nat (Z.min (Z.max 0 0) (Z.of_nat (String.length a) + Z.of_nat (String.length b))))
    with 0%nat by lia.
  replace (Z.to_nat (Z.min (Z.max (Z.of_nat (String.length a)) 0)
                       (Z.of_nat (String.length a) + Z.of_nat (String.length b))))
    with (String.length a) by lia.
  rewrite Nat.min_0_l, Nat.max_0_l, Nat.sub_0_r, str_drop_zero. apply str_take_app.
Qed.

Lemma substringFrom_suffix a b : JsString.substringFrom (a +:+ b) (JsString.len a) = b.
Proof.
  unfold JsString.substringFrom, JsString.substring. rewrite len_app. unfold JsString.len.
  replace (Z.to_nat (Z.min (Z.max (Z.of_nat (String.length a)) 0)
                       (Z.of_nat (String.length a) + Z.of_nat (String.length b))))
    with (String.length a) by lia.
  replace (Z.to_nat (Z.min (Z.max (Z.of_nat (String.length a) + Z.of_nat (String.length b)) 0)
                       (Z.of_nat (String.length a) + Z.of_nat (String.length b))))
    with (String.length a + String.length b)%nat by lia.
  rewrite Nat.min_l, Nat.max_r by lia.
  replace (String.length a + String.length b - String.length a)%nat with (String.length b) by lia.
  rewrite str_drop_app. apply str_take_all.
Qed.

Lemma indexOf_skip_marker s x :
  opensNoComment s = true -> lastIsNot "<"%char s = true \/ headIsNot "!"%char x = true ->
  (0 <= JsString.indexOf x Template.startMarker ->
   JsString.indexOf (s +:+ x) Template.startMarker
   = JsString.len s + JsString.indexOf x Template.startMarker)
  /\ (0 <= JsString.indexOf x Template.endMarker ->
      JsString.indexOf (s +:+ x) Template.endMarker
      = JsString.len s + JsString.indexOf x Template.endMarker).
Proof.
  intros Hs Hx. split.
  - exact (indexOf_skip "<"%char "!"%char s x "-- PERSONALIZATION_SECTION_START -->" Hs Hx).
  - exact (indexOf_skip "<"%char "!"%char s x "-- PERSONALIZATION_SECTION_END -->" Hs Hx).
Qed.

(** Where the markers are first found in a content whose text before the
    start marker, and between the markers, opens no HTML comment. *)
Lemma marker_positions a b c :
  opensNoComment a = true -> opensNoComment b = true ->
  let content := a +:+ Template.startMarker +:+ b +:+ Template.endMarker +:+ c in
  JsString.indexOf content Template.startMarker = JsString.len a
  /\ JsString.indexOf content Template.endMarker
     = JsString.len (a +:+ Template.startMarker +:+ b).
Proof.
  intros Ha Hb. cbv zeta. split.
  - set (x := Template.startMarker +:+ b +:+ Template.endMarker +:+ c).
    assert (Hx : JsString.indexOf x Template.startMarker = 0)
      by apply indexOf_found, startsWith_app.
    rewrite (proj1 (indexOf_skip_marker a x Ha (or_intror eq_refl))) by (rewrite Hx; lia).
    rewrite Hx. lia.
  - set (rest := Template.endMarker +:+ c).
    assert (Hrest : JsString.indexOf rest Template.endMarker = 0)
      by apply indexOf_found, startsWith_app.
    assert (Hb' : JsString.indexOf (b +:+ rest) Template.endMarker = JsString.len b).
    { rewrite (proj2 (indexOf_skip_marker b rest Hb (or_intror eq_refl)))
        by (rewrite Hrest; lia).
      rewrite Hrest. lia. }
    assert (Hs1 : JsString.indexOf ("!-- PERSONALIZATION_SECTION_START -->" +:+ b +:+ rest)
                    Template.endMarker
                  = JsString.len "!-- PERSONALIZATION_SECTION_START -->" + JsString.len b).
    { rewrite (proj2 (indexOf_skip_marker "!-- PERSONALIZATION_SECTION_START -->"
                        (b +:+ rest) eq_refl (or_introl eq_refl)))
        by (rewrite Hb'; unfold JsString.len; lia).
      rewrite Hb'. reflexivity. }
    assert (Hs : JsString.indexOf (Template.startMarker +:+ b +:+ rest) Template.endMarker
                 = JsString.len Template.startMarker + JsString.len b).
    { change (Template.startMarker +:+ b +:+ rest)
        with (String "<" ("!-- PERSONALIZATION_SECTION_START -->" +:+ b +:+ rest)).
      rewrite indexOf_next; [| reflexivity | rewrite Hs1; unfold JsString.len; lia].
      rewrite Hs1. unfold JsString.len. cbn [String.length Template.startMarker]. lia. }
    rewrite !len_app.
    rewrite (proj2 (indexOf_skip_marker a (Template.startMarker +:+ b +:+ rest) Ha
                      (or_intror eq_refl)))
      by (rewrite Hs; unfold JsString.len; lia).
    rewrite Hs. lia.
Qed.

Lemma replaceSection_region a b c personalizedContent :
  opensNoComment a = true -> opensNoComment b = true ->
  replaceSection (a +:+ Template.startMarker +:+ b +:+ Template.endMarker +:+ c)
    personalizedContent
  = a +:+ Template.startMarker +:+ Template.nl +:+ personalizedContent +:+ Template.nl
    +:+ Template.endMarker +:+ c.
Proof.
  intros Ha Hb. unfold replaceSection. rewrite markers_present.
  destruct (marker_positions a b c Ha Hb) as [-> ->].
  rewrite substring_prefix.
  replace (JsString.len (a +:+ Template.startMarker +:+ b) + JsString.len Template.endMarker)
    with (JsString.len ((a +:+ Template.startMarker +:+ b) +:+ Template.endMarker))
    by apply len_app.
  replace (a +:+ Template.startMarker +:+ b +:+ Template.endMarker +:+ c)
    with (((a +:+ Template.startMarker +:+ b) +:+ Template.endMarker) +:+ c)
    by (rewrite !append_assoc'; reflexivity).
  rewrite substringFrom_suffix. reflexivity.
Qed.

Lemma wrapParagraph_paragraph text : JsString.includes (wrapParagraph text) "<p" = true.
Proof.
  unfold wrapParagraph. destruct (JsString.includes text "<p") eqn:E; [exact E|].
  reflexivity.
Qed.

(** X18: when the content has a personalization section and the text before
    the start marker and between the two markers opens no HTML comment,
    [generatePersonalizedContent] with a non-empty answer of the model
    replaces exactly the text between the first pair of markers: the text
    before and after it and the markers themselves are kept, the old text
    between them is dropped, and the new text, which always contains a
    paragraph tag, stands on a line of its own; token replacement is then
    applied to the whole. *)
Theorem personalized_region_replaced a b c candidate response :
  opensNoComment a = true -> opensNoComment b = true -> response <> EmptyString ->
  let paragraph := wrapParagraph (JsString.trim response) in
  generatePersonalizedContent
    (a +:+ Template.startMarker +:+ b +:+ Template.endMarker +:+ c) candidate
    (TextContent response)
  = {| output :=
         applyTokenReplacement
           (a +:+ Template.startMarker +:+ Template.nl +:+ paragraph +:+ Template.nl
            +:+ Template.endMarker +:+ c) candidate;
       requests := 1 |}
  /\ JsString.includes paragraph "<p" = true.
Proof.
  intros Ha Hb Hr. cbv zeta. split; [|apply wrapParagraph_paragraph].
  unfold generatePersonalizedContent.
  pose proof (markers_present a b c) as Hm. unfold hasPersonalizationSection in Hm.
  apply andb_true_iff in Hm as [-> ->]. cbn [negb orb].
  unfold Template.nonEmpty. apply String.eqb_neq in Hr. rewrite Hr. cbn [negb].
  rewrite replaceSection_region by assumption. reflexivity.
Qed.

Lemma personalized_region_replaced_witness :
  let a := "<p>Hi {{First Name}},</p>" in
  let b := "<p>Your experience stands out.</p>" in
  let c := "<p>Best, {{Your Name}}</p><!-- sent by the campaign tool -->" in
  (opensNoComment a = true /\ opensNoComment b = true
   /\ " We admire your work in {{Skill}}. " <> EmptyString)
  /\ output (generatePersonalizedContent
               (a +:+ Template.startMarker +:+ b +:+ Template.endMarker +:+ c) sampleCandidate
               (TextContent " We admire your work in {{Skill}}. "))
     = "<p>Hi Sarah,</p>" +:+ Template.startMarker +:+ Template.nl
       +:+ Template.html "<p style=~color: #555; font-size: 16px; margin: 15px 0; background-color: #f0f7ff; padding: 15px; border-left: 4px solid #0066cc; border-radius: 4px;~>We admire your work in Pediatric Care.</p>"
       +:+ Template.nl +:+ Template.endMarker
       +:+ "<p>Best, Saurabh Agrawal</p><!-- sent by the campaign tool -->".
Proof.
  intros a b c.
  assert (Ha : opensNoComment a = true) by reflexivity.
  assert (Hb : opensNoComment b = true) by reflexivity.
  assert (Hr : " We admire your work in {{Skill}}. " <> EmptyString) by discriminate.
  split; [split; [exact Ha | split; [exact Hb | exact Hr]]|].
  rewrite (proj1 (personalized_region_replaced a b c sampleCandidate
                    " We admire your work in {{Skill}}. " Ha Hb Hr)).
  vm_compute. reflexivity.
Defined.

(** *** Markers in the wrong order *)

Lemma reversed_marker_positions a b c :
  opensNoComment a = true -> opensNoComment b = true ->
  let content := a +:+ Template.endMarker +:+ b +:+ Template.startMarker +:+ c in
  JsString.indexOf content Template.endMarker = JsString.len a
  /\ JsString.indexOf content Template.startMarker
     = JsString.len (a +:+ Template.endMarker +:+ b).
Proof.
  intros Ha Hb. cbv zeta. split.
  - set (x := Template.endMarker +:+ b +:+ Template.startMarker +:+ c).
    assert (Hx : JsString.indexOf x Template.endMarker = 0)
      by apply indexOf_found, startsWith_app.
    rewrite (proj2 (indexOf_skip_marker a x Ha (or_intror eq_refl))) by (rewrite Hx; lia).
    rewrite Hx. lia.
  - set (rest := Template.startMarker +:+ c).
    assert (Hrest : JsString.indexOf rest Template.startMarker = 0)
      by apply indexOf_found, startsWith_app.
    assert (Hb' : JsString.indexOf (b +:+ rest) Template.startMarker = JsString.len b).
    { rewrite (proj1 (indexOf_skip_marker b rest Hb (or_intror eq_refl)))
        by (rewrite Hrest; lia).
      rewrite Hrest. lia. }
    assert (Hs1 : JsString.indexOf ("!-- PERSONALIZATION_SECTION_END -->" +:+ b +:+ rest)
                    Template.startMarker
                  = JsString.len "!-- PERSONALIZATION_SECTION_END -->" + JsString.len b).
    { rewrite (proj1 (indexOf_skip_marker "!-- PERSONALIZATION_SECTION_END -->"
                        (b +:+ rest) eq_refl (or_introl eq_refl)))
        by (rewrite Hb'; unfold JsString.len; lia).
      rewrite Hb'. reflexivity. }
    assert (Hs : JsString.indexOf (Template.endMarker +:+ b +:+ rest) Template.startMarker
                 = JsString.len Template.endMarker + JsString.len b).
    { change (Template.endMarker +:+ b +:+ rest)
        with (String "<" ("!-- PERSONALIZATION_SECTION_END -->" +:+ b +:+ rest)).
      rewrite indexOf_next; [| reflexivity | rewrite Hs1; unfold JsString.len; lia].
      rewrite Hs1. unfold JsString.len. cbn [String.length Template.endMarker]. lia. }
    rewrite !len_app.
    rewrite (proj1 (indexOf_skip_marker a (Template.endMarker +:+ b +:+ rest) Ha
                      (or_intror eq_refl)))
      by (rewrite Hs; unfold JsString.len; lia).
    rewrite Hs. lia.
Qed.

(** X19: the replacement does not check the order of the markers.  When the
    end marker comes first, the text up to the start marker is kept, the new
    section is put there, and the text from behind the end marker on is
    appended again: the text between the two markers, and the start marker,
    appear twice in the result. *)
Theorem reversed_markers_duplicate_text a b c candidate response :
  opensNoComment a = true -> opensNoComment b = true -> response <> EmptyString ->
  generatePersonalizedContent
    (a +:+ Template.endMarker +:+ b +:+ Template.startMarker +:+ c) candidate
    (TextContent response)
  = {| output :=
         applyTokenReplacement
           ((a +:+ Template.endMarker +:+ b)
            +:+ Template.startMarker +:+ Template.nl
            +:+ wrapParagraph (JsString.trim response) +:+ Template.nl +:+ Template.endMarker
            +:+ (b +:+ Template.startMarker +:+ c)) candidate;
       requests := 1 |}.
Proof.
  intros Ha Hb Hr. unfold generatePersonalizedContent.
  assert (Hinc : JsString.includes
                   (a +:+ Template.endMarker +:+ b +:+ Template.startMarker +:+ c)
                   Template.startMarker = true
                 /\ JsString.includes
                      (a +:+ Template.endMarker +:+ b +:+ Template.startMarker +:+ c)
                      Template.endMarker = true).
  { split; [|apply includes_mid].
    rewrite <- (append_assoc' Template.endMarker), <- (append_assoc' a). apply includes_mid. }
  destruct Hinc as [Hs He]. rewrite Hs, He. cbn [negb orb].
  unfold Template.nonEmpty. apply String.eqb_neq in Hr. rewrite Hr. cbn [negb].
  unfold replaceSection, hasPersonalizationSection. rewrite Hs, He. cbn [andb].
  destruct (reversed_marker_positions a b c Ha Hb) as [-> ->].
  replace (a +:+ Template.endMarker +:+ b +:+ Template.startMarker +:+ c)
    with ((a +:+ Template.endMarker +:+ b) +:+ Template.startMarker +:+ c) at 1
    by (rewrite !append_assoc'; reflexivity).
  rewrite substring_prefix.
  replace (JsString.len a + JsString.len Template.endMarker)
    with (JsString.len (a +:+ Template.endMarker)) by apply len_app.
  replace (a +:+ Template.endMarker +:+ b +:+ Template.startMarker +:+ c)
    with ((a +:+ Template.endMarker) +:+ b +:+ Template.startMarker +:+ c)
    by (rewrite !append_assoc'; reflexivity).
  rewrite substringFrom_suffix. rewrite !append_assoc'. reflexivity.
Qed.

Lemma reversed_markers_duplicate_text_witness :
  (opensNoComment "<p>Hi,</p>" = true /\ opensNoComment "<p>middle</p>" = true
   /\ "<p>New.</p>" <> EmptyString)
  /\ output (generatePersonalizedContent
               ("<p>Hi,</p>" +:+ Template.endMarker +:+ "<p>middle</p>"
                +:+ Template.startMarker +:+ "<p>Bye</p>") sampleCandidate
               (TextContent "<p>New.</p>"))
     = "<p>Hi,</p>" +:+ Template.endMarker +:+ "<p>middle</p>" +:+ Template.startMarker
       +:+ Template.nl +:+ "<p>New.</p>" +:+ Template.nl +:+ Template.endMarker
       +:+ "<p>middle</p>" +:+ Template.startMarker +:+ "<p>Bye</p>".
Proof.
  assert (Hr : "<p>New.</p>" <> EmptyString) by discriminate.
  split; [split; [reflexivity | split; [reflexivity | exact Hr]]|].
  rewrite (reversed_markers_duplicate_text "<p>Hi,</p>" "<p>middle</p>" "<p>Bye</p>"
             sampleCandidate "<p>New.</p>" eq_refl eq_refl Hr).
  vm_compute. reflexivity.
Defined.

(** *** Personalizing a step of the deterministic template *)

(** X20: a step that [createFallbackCampaign] generates with personalization
    enabled, from inputs that open no HTML comment, is cut by its markers
    into the text before the section, the template's own sentence and the
    text after it; [generatePersonalizedContent] with a non-empty answer of
    the model replaces that sentence by the answer and keeps the rest. *)
Theorem personalized_fallback_step draft example l candidate response i s :
  commentFreeInputs draft example l = true ->
  Draft.enablePersonalization draft = Some true ->
  snd (createFallbackCampaign draft example l) !! i = Some s ->
  response <> EmptyString ->
  exists before after,
    Email.content s
    = JStr (before +:+ Template.startMarker
            +:+ sectionBody i (Template.shown (Draft.companyName draft))
            +:+ Template.endMarker +:+ after)
    /\ generatePersonalizedContent
         (before +:+ Template.startMarker
          +:+ sectionBody i (Template.shown (Draft.companyName draft))
          +:+ Template.endMarker +:+ after) candidate (TextContent response)
       = {| output :=
              applyTokenReplacement
                (before +:+ Template.startMarker +:+ Template.nl
                 +:+ wrapParagraph (JsString.trim response) +:+ Template.nl
                 +:+ Template.endMarker +:+ after) candidate;
            requests := 1 |}.
Proof.
  intros Hb He [title [Ht ->]]%list_lookup_imap_Some Hr.
  destruct (commentFreeInputs_context draft example l Hb) as (Hc & Hn & Hts & Hl).
  cbn [fallbackStep Email.content]. unfold draftEmailContent.
  replace (optBool (Draft.enablePersonalization draft)) with true by (rewrite He; reflexivity).
  unfold Template.createEmailContent.
  set (base := Template.contentBase _ _ _ _ _ _ _).
  set (tail := Template.contentTail _ _ _ _).
  assert (Hbase : opensNoComment base = true).
  { apply opensNoComment_contentBase; try assumption;
      [reflexivity | exact (Hts i title Ht) | | |]; apply opensNoComment_collateralText, Hl. }
  exists (base +:+ sectionLead), tail.
  assert (Hshape : base +:+ Template.personalizationSection i (Template.shown (Draft.companyName draft))
                   +:+ tail
                   = (base +:+ sectionLead) +:+ Template.startMarker
                     +:+ sectionBody i (Template.shown (Draft.companyName draft))
                     +:+ Template.endMarker +:+ tail).
  { rewrite personalizationSection_shape, !append_assoc'. reflexivity. }
  split; [rewrite Hshape; reflexivity|].
  assert (Hbefore : opensNoComment (base +:+ sectionLead) = true).
  { unfold opensNoComment in *. apply pairFree_app; [exact Hbase | reflexivity|].
    right. reflexivity. }
  pose proof (opensNoComment_sectionBody i _ Hn) as Hbody.
  unfold generatePersonalizedContent.
  pose proof (markers_present (base +:+ sectionLead)
                (sectionBody i (Template.shown (Draft.companyName draft))) tail) as Hm.
  unfold hasPersonalizationSection in Hm. apply andb_true_iff in Hm as [-> ->].
  cbn [negb orb]. unfold Template.nonEmpty. apply String.eqb_neq in Hr. rewrite Hr.
  cbn [negb]. rewrite replaceSection_region by assumption. reflexivity.
Qed.

Lemma personalized_fallback_step_witness :
  let draft := sampleDraft true (Some "We are opening a <b>new</b> clinic in May!") in
  exists s,
    (commentFreeInputs draft sampleExample [] = true
     /\ Draft.enablePersonalization draft = Some true
     /\ snd (createFallbackCampaign draft sampleExample []) !! 1%nat = Some s
     /\ "Your pediatric skills impress us." <> EmptyString)
    /\ exists before after,
         Email.content s
         = JStr (before +:+ Template.startMarker
                 +:+ sectionBody 1 (Template.shown (Draft.companyName draft))
                 +:+ Template.endMarker +:+ after).
Proof.
  intros draft.
  exists (fallbackStep draft [] 1 "Life on our teams").
  assert (H1 : commentFreeInputs draft sampleExample [] = true) by (vm_compute; reflexivity).
  assert (H3 : snd (createFallbackCampaign draft sampleExample []) !! 1%nat
               = Some (fallbackStep draft [] 1 "Life on our teams")) by reflexivity.
  assert (H4 : "Your pediatric skills impress us." <> EmptyString) by discriminate.
  split; [repeat split; assumption || reflexivity|].
  destruct (personalized_fallback_step draft sampleExample [] sampleCandidate
              "Your pediatric skills impress us." 1%nat _ H1 eq_refl H3 H4)
    as (before & after & Hc & _).
  exists before, after. exact Hc.
Defined.

(** ** Editing the list of steps *)

Lemma withoutId_sublist stepId steps : Editor.withoutId stepId steps `sublist_of` steps.
Proof.
  induction steps as [|x l IH]; [constructor|]. cbn.
  destruct (negb (String.eqb (Email.id x) stepId)); [apply sublist_skip | apply sublist_cons];
    exact IH.
Qed.

Lemma find_by_id stepId steps :
  match List.find (fun step => String.eqb (Email.id step) stepId) steps with
  | Some s =>
      exists pre post, steps = pre ++ s :: post /\ Email.id s = stepId
                       /\ (stepId ∉ (Email.id <$> pre))
                       /\ Editor.findIndex stepId steps = Z.of_nat (length pre)
  | None => (stepId ∉ (Email.id <$> steps)) /\ Editor.findIndex stepId steps = -1
  end.
Proof.
  induction steps as [|x l IH]; [split; [apply not_elem_of_nil | reflexivity]|].
  cbn [List.find Editor.findIndex].
  destruct (String.eqb_spec (Email.id x) stepId) as [E | E].
  - exists [], l. repeat split; [exact E | apply not_elem_of_nil].
  - destruct (List.find _ l) as [s|].
    + destruct IH as (pre & post & -> & Hs & Hpre & Hi).
      exists (x :: pre), post. repeat split; [exact Hs | |].
      * rewrite fmap_cons. apply not_elem_of_cons. split; [congruence | exact Hpre].
      * rewrite Hi.
        replace (Z.of_nat (length pre) <? 0) with false by (symmetry; apply Z.ltb_ge; lia).
        cbn [length]. lia.
    + destruct IH as (Hl & ->). split; [|reflexivity].
      rewrite fmap_cons. apply not_elem_of_cons. split; [congruence | exact Hl].
Qed.

Lemma find_first stepId pre s post :
  Email.id s = stepId -> stepId ∉ (Email.id <$> pre) ->
  List.find (fun step => String.eqb (Email.id step) stepId) (pre ++ s :: post) = Some s
  /\ Editor.findIndex stepId (pre ++ s :: post) = Z.of_nat (length pre).
Proof.
  intros Hs. induction pre as [|x pre IH]; intros Hpre.
  - cbn. rewrite Hs, String.eqb_refl. split; reflexivity.
  - rewrite fmap_cons in Hpre. apply not_elem_of_cons in Hpre as [Hx Hpre].
    cbn [app List.find Editor.findIndex].
    destruct (String.eqb_spec (Email.id x) stepId) as [E | E]; [congruence|].
    destruct (IH Hpre) as (-> & ->). split; [reflexivity|].
    replace (Z.of_nat (length pre) <? 0) with false by (symmetry; apply Z.ltb_ge; lia).
    cbn [length]. lia.
Qed.

Lemma withoutId_absent stepId steps :
  stepId ∉ (Email.id <$> steps) -> Editor.withoutId stepId steps = steps.
Proof.
  induction steps as [|x l IH]; [reflexivity|]. intros H.
  rewrite fmap_cons in H. apply not_elem_of_cons in H as [Hx H]. cbn.
  destruct (String.eqb_spec (Email.id x) stepId) as [E | E]; [congruence|].
  cbn. f_equal. apply IH, H.
Qed.

Lemma withoutId_app stepId a b :
  Editor.withoutId stepId (a ++ b) = Editor.withoutId stepId a ++ Editor.withoutId stepId b.
Proof. apply List.filter_app. Qed.

Lemma withoutId_gone stepId steps : stepId ∉ (Email.id <$> Editor.withoutId stepId steps).
Proof.
  induction steps as [|x l IH]; [apply not_elem_of_nil|]. cbn.
  destruct (String.eqb_spec (Email.id x) stepId) as [E | E]; cbn; [exact IH|].
  apply not_elem_of_cons. split; [congruence | exact IH].
Qed.

Lemma idsOf_add st : idsOf (Editor.addEmailStep st) = idsOf st ++ [nextId st].
Proof. unfold idsOf, Editor.addEmailStep. cbn. rewrite fmap_app. reflexivity. Qed.

Lemma duplicate_found now stepId st pre s post :
  Editor.emailSteps st = pre ++ s :: post -> Email.id s = stepId ->
  stepId ∉ (Email.id <$> pre) ->
  Editor.duplicateEmailStep now stepId st
  = Editor.withSteps (pre ++ s :: copyOf now s :: post) (Email.id (copyOf now s)) st.
Proof.
  intros Hsteps Hs Hpre. unfold Editor.duplicateEmailStep. rewrite Hsteps.
  destruct (find_first stepId pre s post Hs Hpre) as (-> & ->).
  rewrite Nat2Z.id. f_equal.
  replace (length pre + 1)%nat with (length (pre ++ [s])) by (rewrite length_app; reflexivity).
  replace (pre ++ s :: post) with ((pre ++ [s]) ++ post) by (rewrite <- app_assoc; reflexivity).
  rewrite take_app_length, drop_app_length, <- app_assoc. reflexivity.
Qed.

Lemma duplicate_absent now stepId st :
  stepId ∉ idsOf st -> Editor.duplicateEmailStep now stepId st = st.
Proof.
  intros H. unfold Editor.duplicateEmailStep.
  pose proof (find_by_id stepId (Editor.emailSteps st)) as Hf.
  destruct (List.find _ (Editor.emailSteps st)) as [s|]; [|reflexivity].
  destruct Hf as (pre & post & Hsteps & Hs & _). contradiction H.
  unfold idsOf. rewrite Hsteps, fmap_app, fmap_cons, Hs.
  apply elem_of_app. right. apply list_elem_of_here.
Qed.

Lemma idsOf_update stepId field value st :
  idsOf (Editing.updateEmailStep stepId field value st) = idsOf st.
Proof.
  unfold idsOf, Editing.updateEmailStep. cbn [Editor.emailSteps Editor.withSteps].
  induction (Editor.emailSteps st) as [|x l IH]; [reflexivity|]. cbn. rewrite IH. f_equal.
  destruct (String.eqb (Email.id x) stepId); reflexivity.
Qed.

(** X21: which editor operations keep the ids of the steps pairwise
    distinct.  Removing a step and updating a field always do (an update
    leaves the ids as they are).  Adding a step does exactly when no step
    already has the id built from the number of steps; duplicating a step
    does exactly when no step already has the id built from the clock. *)
Theorem step_ids_stay_distinct st :
  NoDup (idsOf st) ->
  (forall stepId, NoDup (idsOf (Editor.removeEmailStep stepId st)))
  /\ (forall stepId field value,
        idsOf (Editing.updateEmailStep stepId field value st) = idsOf st)
  /\ (NoDup (idsOf (Editor.addEmailStep st)) <-> nextId st ∉ idsOf st)
  /\ (forall now stepId, stepId ∈ idsOf st ->
        (NoDup (idsOf (Editor.duplicateEmailStep now stepId st))
         <-> "step-" +:+ JsString.ofZ now ∉ idsOf st)).
Proof.
  intros Hnd. split; [|split; [|split]].
  - intros stepId. unfold idsOf, Editor.removeEmailStep. cbn [Editor.emailSteps Editor.withSteps].
    apply (sublist_NoDup _ _ Hnd). apply fmap_sublist, withoutId_sublist.
  - intros. apply idsOf_update.
  - rewrite idsOf_add, NoDup_app. split.
    + intros (_ & H & _) Hin. apply (H _ Hin). apply list_elem_of_here.
    + intros H. split; [exact Hnd|]. split; [|apply NoDup_singleton].
      intros x Hx ->%list_elem_of_singleton. contradiction.
  - intros now stepId Hin.
    pose proof (find_by_id stepId (Editor.emailSteps st)) as Hf.
    destruct (List.find _ (Editor.emailSteps st)) as [s|];
      [|destruct Hf as [Hf _]; contradiction].
    destruct Hf as (pre & post & Hsteps & Hs & Hpre & _).
    rewrite (duplicate_found now stepId st pre s post Hsteps Hs Hpre).
    unfold idsOf in *. cbn [Editor.emailSteps Editor.withSteps]. rewrite Hsteps in *.
    rewrite !fmap_app, !fmap_cons in *. cbn [Email.id copyOf].
    set (new := "step-" +:+ JsString.ofZ now).
    assert (Hperm : (Email.id <$> pre) ++ Email.id s :: new :: (Email.id <$> post)
                    ≡ₚ new :: ((Email.id <$> pre) ++ Email.id s :: (Email.id <$> post))).
    { rewrite (Permutation_middle (Email.id <$> pre) (Email.id s :: (Email.id <$> post)) new).
      apply Permutation_app_head, perm_swap. }
    rewrite Hperm, NoDup_cons. tauto.
Qed.

Lemma step_ids_stay_distinct_witness :
  let st := sampleEditor "ICU nurses"
              [ sampleStep "step-2" "Checking in"; sampleStep "step-3" "Last call" ] in
  NoDup (idsOf st)
  /\ nextId st = "step-3"
  /\ ~ NoDup (idsOf (Editor.addEmailStep st))
  /\ NoDup (idsOf (Editor.removeEmailStep "step-2" st)).
Proof.
  intros st.
  assert (Hnd : NoDup (idsOf st)).
  { apply (bool_decide_unpack _). vm_compute. reflexivity. }
  split; [exact Hnd|]. split; [reflexivity|].
  destruct (step_ids_stay_distinct st Hnd) as (Hrem & _ & Hadd & _).
  split; [|apply Hrem].
  intros H. apply Hadd in H. apply H. vm_compute. apply list_elem_of_In. right. left. reflexivity.
Defined.

(** *** The active step *)

Lemma find_app_absent stepId (a b : list Email.EmailStep) :
  stepId ∉ (Email.id <$> a) ->
  List.find (fun step => String.eqb (Email.id step) stepId) (a ++ b)
  = List.find (fun step => String.eqb (Email.id step) stepId) b.
Proof.
  induction a as [|x a IH]; [reflexivity|]. intros H. cbn.
  destruct (String.eqb_spec (Email.id x) stepId) as [E | E].
  - contradiction H. rewrite fmap_cons, E. apply list_elem_of_here.
  - apply IH. intros Hin. apply H. rewrite fmap_cons. apply list_elem_of_further, Hin.
Qed.

Lemma find_app_present stepId (a b : list Email.EmailStep) s :
  List.find (fun step => String.eqb (Email.id step) stepId) a = Some s ->
  List.find (fun step => String.eqb (Email.id step) stepId) (a ++ b) = Some s.
Proof.
  induction a as [|x a IH]; [discriminate|]. cbn.
  destruct (String.eqb (Email.id x) stepId); [trivial | exact IH].
Qed.

(** X22: after [addEmailStep] the active id is the id of the added step, and
    the active step is the added one when no step had that id before; when a
    step did, the first such step is the active one, and not the step just
    added. *)
Theorem added_step_is_active st :
  let st' := Editor.addEmailStep st in
  Editor.activeStepId st' = nextId st
  /\ (exists new, Editor.emailSteps st' = Editor.emailSteps st ++ [new]
                  /\ Email.id new = nextId st
                  /\ (nextId st ∉ idsOf st -> Editing.activeStep st' = Some new))
  /\ (forall old,
        List.find (fun step => String.eqb (Email.id step) (nextId st)) (Editor.emailSteps st)
        = Some old ->
        Editing.activeStep st' = Some old).
Proof.
  cbv zeta. split; [reflexivity|]. split.
  - eexists. split; [reflexivity|]. split; [reflexivity|]. intros H.
    unfold Editing.activeStep, Editor.addEmailStep.
    cbn [Editor.emailSteps Editor.activeStepId Editor.withSteps Email.id].
    rewrite find_app_absent by exact H. cbn [List.find Email.id].
    rewrite String.eqb_refl. reflexivity.
  - intros old H. unfold Editing.activeStep, Editor.addEmailStep.
    cbn [Editor.emailSteps Editor.activeStepId Editor.withSteps Email.id].
    apply find_app_present, H.
Qed.

Lemma added_step_is_active_witness :
  let st := sampleEditor "ICU nurses" [ sampleStep "step-2" "Checking in" ] in
  List.find (fun step => String.eqb (Email.id step) (nextId st)) (Editor.emailSteps st)
  = Some (sampleStep "step-2" "Checking in")
  /\ length (Editor.emailSteps (Editor.addEmailStep st)) = 2%nat
  /\ Editing.activeStep (Editor.addEmailStep st) = Some (sampleStep "step-2" "Checking in").
Proof.
  intros st.
  assert (H : List.find (fun step => String.eqb (Email.id step) (nextId st))
                (Editor.emailSteps st) = Some (sampleStep "step-2" "Checking in"))
    by reflexivity.
  split; [exact H|]. split; [reflexivity|].
  exact (proj2 (proj2 (added_step_is_active st)) _ H).
Defined.

(** *** The delay invariant under editing *)

Lemma delaysWellFormed_app steps new :
  delaysWellFormed steps ->
  (steps = [] -> Email.delay new = JNum 0 /\ Email.delayUnit new = JStr "immediately") ->
  (steps <> [] -> Email.delayUnit new = JStr "business days") ->
  delaysWellFormed (steps ++ [new]).
Proof.
  intros [H0 Hl] He Hn. split.
  - intros s Hs. destruct steps as [|x l]; [|apply H0, Hs].
    cbn in Hs. injection Hs as <-. apply He. reflexivity.
  - intros i s Hs. destruct (decide (S i < length steps)%nat) as [Hlt | Hge].
    + rewrite lookup_app_l in Hs by exact Hlt. apply (Hl i s Hs).
    + rewrite lookup_app_r in Hs by lia.
      destruct (S i - length steps)%nat eqn:E; [|destruct n; discriminate Hs].
      cbn in Hs. injection Hs as <-. apply Hn. intros ->. cbn in E. discriminate E.
Qed.

Lemma delaysWellFormed_insert pre s copy post :
  delaysWellFormed (pre ++ s :: post) -> Email.delayUnit copy = JStr "business days" ->
  delaysWellFormed (pre ++ s :: copy :: post).
Proof.
  intros [H0 Hl] Hc. split.
  - intros x Hx. apply H0. destruct pre; exact Hx.
  - intros i x Hx.
    destruct (decide (S i < length (pre ++ [s]))%nat) as [Hlt | Hge].
    + apply (Hl i). replace (pre ++ s :: post) with ((pre ++ [s]) ++ post)
        by (rewrite <- app_assoc; reflexivity).
      replace (pre ++ s :: copy :: post) with ((pre ++ [s]) ++ copy :: post) in Hx
        by (rewrite <- app_assoc; reflexivity).
      rewrite lookup_app_l in Hx by exact Hlt. rewrite lookup_app_l by exact Hlt. exact Hx.
    + replace (pre ++ s :: copy :: post) with ((pre ++ [s]) ++ copy :: post) in Hx
        by (rewrite <- app_assoc; reflexivity).
      rewrite lookup_app_r in Hx by lia.
      destruct (S i - length (pre ++ [s]))%nat as [|k] eqn:E.
      * cbn in Hx. injection Hx as <-. exact Hc.
      * cbn in Hx. rewrite length_app in *. cbn [length] in *.
        destruct i as [|i]; [lia|]. apply (Hl i).
        replace (pre ++ s :: post) with ((pre ++ [s]) ++ post)
          by (rewrite <- app_assoc; reflexivity).
        rewrite lookup_app_r by (rewrite length_app; cbn [length]; lia).
        rewrite length_app. cbn [length].
        replace (S i - (length pre + 1))%nat with k by lia. exact Hx.
Qed.

(** X23: the delay invariant of generated campaigns (the first step is sent
    immediately with delay 0, every later step after business days) is kept
    by [addEmailStep] and [duplicateEmailStep], and broken by
    [removeEmailStep] whenever the first step is removed and another step
    follows: that step becomes the first and keeps its business days. *)
Theorem editing_and_delay_invariant st :
  delaysWellFormed (Editor.emailSteps st) ->
  delaysWellFormed (Editor.emailSteps (Editor.addEmailStep st))
  /\ (forall now stepId,
        delaysWellFormed (Editor.emailSteps (Editor.duplicateEmailStep now stepId st)))
  /\ (forall first second rest,
        Editor.emailSteps st = first :: second :: rest ->
        Email.id second <> Email.id first ->
        ~ delaysWellFormed
            (Editor.emailSteps (Editor.removeEmailStep (Email.id first) st))).
Proof.
  intros Hd. split; [|split].
  - unfold Editor.addEmailStep. cbn [Editor.emailSteps Editor.withSteps].
    apply delaysWellFormed_app; [exact Hd | |]; cbn [Email.delay Email.delayUnit].
    + intros ->. split; reflexivity.
    + intros Hne. destruct (Editor.emailSteps st); [contradiction | reflexivity].
  - intros now stepId.
    pose proof (find_by_id stepId (Editor.emailSteps st)) as Hf.
    destruct (List.find _ (Editor.emailSteps st)) as [s|] eqn:E.
    + destruct Hf as (pre & post & Hsteps & Hs & Hpre & _).
      rewrite (duplicate_found now stepId st pre s post Hsteps Hs Hpre).
      cbn [Editor.emailSteps Editor.withSteps]. apply delaysWellFormed_insert; [|reflexivity].
      rewrite <- Hsteps. exact Hd.
    + unfold Editor.duplicateEmailStep. rewrite E. exact Hd.
  - intros first second rest Hsteps Hne [H0 _].
    destruct Hd as [_ Hl]. pose proof (Hl 0%nat second) as H2.
    rewrite Hsteps in H2. specialize (H2 eq_refl).
    unfold Editor.removeEmailStep in H0. cbn [Editor.emailSteps Editor.withSteps] in H0.
    rewrite Hsteps in H0. cbn [Editor.withoutId List.filter] in H0.
    rewrite String.eqb_refl in H0. cbn [negb] in H0.
    replace (String.eqb (Email.id second) (Email.id first)) with false in H0
      by (symmetry; apply String.eqb_neq, Hne).
    cbn [negb] in H0. destruct (H0 second eq_refl) as [_ Hu]. congruence.
Qed.

Lemma editing_and_delay_invariant_witness :
  let first :=
    {| Email.id := "step-1"; Email.type := JStr "email"; Email.subject := JStr "Welcome";
       Email.content := JStr "<p>Hi {{First Name}}</p>"; Email.delay := JNum 0;
       Email.delayUnit := JStr "immediately" |} in
  let st := sampleEditor "ICU nurses" [ first; sampleStep "step-2" "Checking in" ] in
  delaysWellFormed (Editor.emailSteps st)
  /\ Editor.emailSteps (Editor.removeEmailStep "step-1" st) = [ sampleStep "step-2" "Checking in" ]
  /\ ~ delaysWellFormed (Editor.emailSteps (Editor.removeEmailStep "step-1" st)).
Proof.
  intros first st.
  assert (Hd : delaysWellFormed (Editor.emailSteps st)).
  { split.
    - intros s [= <-]. split; reflexivity.
    - intros [|[|i]] s H; try discriminate H. injection H as <-. reflexivity. }
  split; [exact Hd|]. split; [reflexivity|].
  refine (proj2 (proj2 (editing_and_delay_invariant st Hd)) first
            (sampleStep "step-2" "Checking in") [] eq_refl _).
  discriminate.
Defined.

(** *** Removing and duplicating a step *)

Lemma idAt_elem remaining i id :
  Editor.idAt remaining i = Some id -> id ∈ (Email.id <$> remaining).
Proof.
  unfold Editor.idAt. destruct (remaining !! i) as [s|] eqn:E; [|discriminate].
  intros [= <-]. apply list_elem_of_fmap. exists s. split; [reflexivity|].
  apply list_elem_of_lookup. eauto.
Qed.

(** X24: what [removeEmailStep] leaves behind.  No remaining step has the
    removed id; while steps remain the active id is the id of one of them.
    When the removed step is the only one with its id, the steps before and
    after it are kept in order and the step before it becomes active (the
    new first step when it was the first).  Removing an id that no step has
    keeps the steps and makes the first step active. *)
Theorem removal_and_active_step stepId st :
  let st' := Editor.removeEmailStep stepId st in
  (stepId ∉ idsOf st')
  /\ (Editor.emailSteps st' <> [] -> Editor.activeStepId st' ∈ idsOf st')
  /\ (forall pre s post,
        Editor.emailSteps st = pre ++ s :: post -> Email.id s = stepId ->
        stepId ∉ (Email.id <$> pre) -> stepId ∉ (Email.id <$> post) ->
        Editor.emailSteps st' = pre ++ post
        /\ (forall p, last pre = Some p -> Email.id p <> EmptyString ->
                      Editor.activeStepId st' = Email.id p)
        /\ (forall n rest, pre = [] -> post = n :: rest ->
                           Editor.activeStepId st' = Email.id n)
        /\ (pre = [] -> post = [] -> Editor.activeStepId st' = Editor.activeStepId st))
  /\ (stepId ∉ idsOf st ->
      Editor.emailSteps st' = Editor.emailSteps st
      /\ forall first rest, Editor.emailSteps st = first :: rest ->
                            Editor.activeStepId st' = Email.id first).
Proof.
  cbv zeta. split; [|split; [|split]].
  - apply withoutId_gone.
  - unfold Editor.removeEmailStep, idsOf. cbn [Editor.emailSteps Editor.activeStepId Editor.withSteps].
    set (remaining := Editor.withoutId stepId (Editor.emailSteps st)).
    intros Hne.
    replace (0 <? length remaining)%nat with true
      by (symmetry; apply Nat.ltb_lt; destruct remaining; [contradiction | cbn; lia]).
    set (k := Z.to_nat (Z.max 0 (Editor.findIndex stepId (Editor.emailSteps st) - 1))).
    destruct (Editor.idAt remaining k) as [id|] eqn:Ek.
    + cbn [truthyString default]. destruct (negb (String.eqb id EmptyString)).
      * apply (idAt_elem remaining k), Ek.
      * destruct remaining as [|h t]; [contradiction|]. cbn. apply list_elem_of_here.
    + cbn [truthyString]. destruct remaining as [|h t]; [contradiction|].
      cbn. apply list_elem_of_here.
  - intros pre s post Hsteps Hs Hpre Hpost.
    assert (Hrem : Editor.withoutId stepId (Editor.emailSteps st) = pre ++ post).
    { rewrite Hsteps, withoutId_app, (withoutId_absent _ pre Hpre).
      change (Editor.withoutId stepId (s :: post))
        with (if negb (String.eqb (Email.id s) stepId)
              then s :: Editor.withoutId stepId post else Editor.withoutId stepId post).
      rewrite Hs, String.eqb_refl. cbn [negb].
      rewrite (withoutId_absent _ post Hpost). reflexivity. }
    destruct (find_first stepId pre s post Hs Hpre) as (_ & Hi). rewrite <- Hsteps in Hi.
    unfold Editor.removeEmailStep. cbn [Editor.emailSteps Editor.activeStepId Editor.withSteps].
    rewrite Hrem, Hi. split; [reflexivity|]. split; [|split].
    + intros p Hp Hid.
      assert (Hpre' : exists pre', pre = pre' ++ [p]).
      { destruct (last_Some pre p) as [H _]. exact (H Hp). }
      destruct Hpre' as (pre' & ->).
      replace (0 <? length ((pre' ++ [p]) ++ post))%nat with true
        by (symmetry; apply Nat.ltb_lt; rewrite !length_app; cbn; lia).
      replace (Z.to_nat (Z.max 0 (Z.of_nat (length (pre' ++ [p])) - 1))) with (length pre')
        by (rewrite length_app; cbn [length]; lia).
      assert (Hat : Editor.idAt ((pre' ++ [p]) ++ post) (length pre') = Some (Email.id p)).
      { unfold Editor.idAt. rewrite <- !app_assoc.
        rewrite lookup_app_r by lia. rewrite Nat.sub_diag. reflexivity. }
      rewrite Hat. cbn [truthyString default].
      replace (String.eqb (Email.id p) EmptyString) with false
        by (symmetry; apply String.eqb_neq, Hid).
      reflexivity.
    + intros n rest -> ->. cbn [app length Nat.ltb Nat.leb].
      replace (Z.to_nat (Z.max 0 (Z.of_nat 0 - 1))) with 0%nat by lia.
      cbn. destruct (negb (String.eqb (Email.id n) EmptyString)); reflexivity.
    + intros -> ->. reflexivity.
  - intros Habs. unfold idsOf in Habs.
    pose proof (find_by_id stepId (Editor.emailSteps st)) as Hf.
    destruct (List.find _ (Editor.emailSteps st)) as [s|].
    { destruct Hf as (pre & post & Hsteps & Hs & _). contradiction Habs.
      rewrite Hsteps, fmap_app, fmap_cons, Hs. apply elem_of_app. right. apply list_elem_of_here. }
    destruct Hf as (_ & Hi).
    unfold Editor.removeEmailStep. cbn [Editor.emailSteps Editor.activeStepId Editor.withSteps].
    rewrite (withoutId_absent _ _ Habs), Hi. split; [reflexivity|].
    intros first rest ->. cbn [length Nat.ltb Nat.leb].
    replace (Z.to_nat (Z.max 0 (-1 - 1))) with 0%nat by lia.
    cbn. destruct (negb (String.eqb (Email.id first) EmptyString)); reflexivity.
Qed.

Lemma removal_and_active_step_witness :
  let steps := [ sampleStep "step-1" "Welcome"; sampleStep "step-2" "Checking in";
                 sampleStep "step-3" "Last call" ] in
  let st := Editor.withSteps steps "step-3" (sampleEditor "ICU nurses" steps) in
  (Editor.emailSteps st = [ sampleStep "step-1" "Welcome" ] ++ sampleStep "step-2" "Checking in"
                            :: [ sampleStep "step-3" "Last call" ]
   /\ last [ sampleStep "step-1" "Welcome" ] = Some (sampleStep "step-1" "Welcome"))
  /\ Editor.activeStepId (Editor.removeEmailStep "step-2" st) = "step-1"
  /\ Editor.activeStepId (Editor.removeEmailStep "step-9" st) = "step-1".
Proof.
  intros steps st. split; [split; reflexivity|].
  assert (Hno : forall id (l : list Email.EmailStep),
            forallb (fun s => negb (String.eqb (Email.id s) id)) l = true ->
            id ∉ (Email.id <$> l)).
  { intros id l H [s [-> Hin]]%list_elem_of_fmap.
    rewrite forallb_forall in H. apply list_elem_of_In in Hin.
    specialize (H s Hin). rewrite String.eqb_refl in H. discriminate H. }
  split.
  - destruct (removal_and_active_step "step-2" st) as (_ & _ & H & _).
    destruct (H [ sampleStep "step-1" "Welcome" ] (sampleStep "step-2" "Checking in")
                [ sampleStep "step-3" "Last call" ] eq_refl eq_refl
                (Hno "step-2" [ sampleStep "step-1" "Welcome" ] eq_refl)
                (Hno "step-2" [ sampleStep "step-3" "Last call" ] eq_refl)) as (_ & Hp & _).
    apply (Hp (sampleStep "step-1" "Welcome") eq_refl). discriminate.
  - destruct (removal_and_active_step "step-9" st) as (_ & _ & _ & H).
    destruct (H (Hno "step-9" steps eq_refl)) as (_ & Hf).
    apply (Hf (sampleStep "step-1" "Welcome") _ eq_refl).
Defined.

(** X25: [duplicateEmailStep] puts the copy right after the first step that
    has the given id and makes it active: the copy has the type and the
    content of the original, its subject followed by [ (Copy)], the delay 3
    in business days, and the id built from the clock; every other step
    stays where it was, before or after the pair.  For an id that no step has
    nothing changes. *)
Theorem duplicate_inserts_copy now stepId st :
  (forall pre s post,
     Editor.emailSteps st = pre ++ s :: post -> Email.id s = stepId ->
     stepId ∉ (Email.id <$> pre) ->
     Editor.emailSteps (Editor.duplicateEmailStep now stepId st)
     = pre ++ s :: copyOf now s :: post
     /\ Editor.activeStepId (Editor.duplicateEmailStep now stepId st)
        = "step-" +:+ JsString.ofZ now)
  /\ (stepId ∉ idsOf st -> Editor.duplicateEmailStep now stepId st = st).
Proof.
  split.
  - intros pre s post Hsteps Hs Hpre.
    rewrite (duplicate_found now stepId st pre s post Hsteps Hs Hpre). split; reflexivity.
  - apply duplicate_absent.
Qed.

Lemma duplicate_inserts_copy_witness :
  let st := sampleEditor "ICU nurses"
              [ sampleStep "step-1" "Welcome"; sampleStep "step-2" "Checking in" ] in
  (Editor.emailSteps st = [] ++ sampleStep "step-1" "Welcome"
                            :: [ sampleStep "step-2" "Checking in" ]
   /\ "step-1" ∉ (Email.id <$> ([] : list Email.EmailStep)))
  /\ Email.subject <$> Editor.emailSteps (Editor.duplicateEmailStep 1730600000000 "step-1" st)
     = [ JStr "Welcome"; JStr "Welcome (Copy)"; JStr "Checking in" ]
  /\ Editor.activeStepId (Editor.duplicateEmailStep 1730600000000 "step-1" st)
     = "step-" +:+ JsString.ofZ 1730600000000.
Proof.
  intros st.
  assert (Hpre : "step-1" ∉ (Email.id <$> ([] : list Email.EmailStep)))
    by (intros H; apply list_elem_of_In in H; exact H).
  split; [split; [reflexivity | exact Hpre]|].
  destruct (proj1 (duplicate_inserts_copy 1730600000000 "step-1" st) []
              (sampleStep "step-1" "Welcome") [ sampleStep "step-2" "Checking in" ]
              eq_refl eq_refl Hpre) as [Hsteps Hactive].
  split.
  - rewrite Hsteps. reflexivity.
  - exact Hactive.
Defined.

(** *** Inserting into the active step *)

Lemma find_map_same_id (g : Email.EmailStep -> Email.EmailStep) stepId steps :
  (forall x, Email.id (g x) = Email.id x) ->
  List.find (fun step => String.eqb (Email.id step) stepId) (List.map g steps)
  = g <$> List.find (fun step => String.eqb (Email.id step) stepId) steps.
Proof.
  intros Hg. induction steps as [|x l IH]; [reflexivity|]. cbn. rewrite Hg.
  destruct (String.eqb (Email.id x) stepId); [reflexivity | exact IH].
Qed.

Lemma activeStep_id st step : Editing.activeStep st = Some step -> Email.id step = Editor.activeStepId st.
Proof.
  unfold Editing.activeStep. intros H. apply find_some in H as [_ H].
  apply String.eqb_eq, H.
Qed.

Lemma activeStep_update st step value :
  Editing.activeStep st = Some step ->
  Editing.activeStep (Editing.updateEmailStep (Email.id step) Editing.content value st)
  = Some (Editing.setField Editing.content value step).
Proof.
  intros H. pose proof (activeStep_id st step H) as Hid.
  unfold Editing.activeStep, Editing.updateEmailStep in *.
  cbn [Editor.emailSteps Editor.activeStepId Editor.withSteps].
  rewrite (find_map_same_id
             (fun s => if String.eqb (Email.id s) (Email.id step)
                       then Editing.setField Editing.content value s else s)).
  - rewrite H. cbn. rewrite String.eqb_refl. reflexivity.
  - intros x. destruct (String.eqb (Email.id x) (Email.id step)); reflexivity.
Qed.

(** X26: [insertHTMLTemplate] and [insertPersonalizationToken] change
    nothing when no step is active, and [insertHTMLTemplate] nothing either
    when the template type is not one of the six listed.  Otherwise the
    token in double braces, or the template, is appended to the content of
    the active step and the ids of the steps stay as they are.  After the
    [personalization] template is inserted the active step has a
    personalization section, whatever its content was, so personalizing it
    sends a request to the model. *)
Theorem insert_template st templateType :
  (Editing.activeStep st = None \/ Editing.htmlTemplate templateType = None ->
   Editing.insertHTMLTemplate templateType st = st)
  /\ (Editing.activeStep st = None ->
      forall token, Editing.insertPersonalizationToken token st = st)
  /\ (forall step text token,
        Editing.activeStep st = Some step -> Email.content step = JStr text ->
        let st' := Editing.insertPersonalizationToken token st in
        idsOf st' = idsOf st
        /\ Email.content <$> Editing.activeStep st'
           = Some (JStr (text +:+ "{{" +:+ token +:+ "}}")))
  /\ (forall step text template,
        Editing.activeStep st = Some step -> Email.content step = JStr text ->
        Editing.htmlTemplate templateType = Some template ->
        let st' := Editing.insertHTMLTemplate templateType st in
        idsOf st' = idsOf st
        /\ Email.content <$> Editing.activeStep st' = Some (JStr (text +:+ template))
        /\ (templateType = "personalization" ->
            hasPersonalizationSection (text +:+ template) = true
            /\ forall candidate llm,
                 requests (generatePersonalizedContent (text +:+ template) candidate llm)
                 = 1%nat)).
Proof.
  split; [|split; [|split]].
  - unfold Editing.insertHTMLTemplate. intros [-> | ->]; [reflexivity|].
    destruct (Editing.activeStep st); reflexivity.
  - unfold Editing.insertPersonalizationToken. intros ->. reflexivity.
  - intros step text token Ha Hc. cbv zeta.
    unfold Editing.insertPersonalizationToken. rewrite Ha.
    split; [apply idsOf_update|].
    rewrite (activeStep_update st step _ Ha). cbn. unfold Editing.appended.
    rewrite Hc. reflexivity.
  - intros step text template Ha Hc Ht. cbv zeta.
    unfold Editing.insertHTMLTemplate. rewrite Ha, Ht.
    split; [apply idsOf_update|]. split.
    + rewrite (activeStep_update st step _ Ha). cbn. unfold Editing.appended.
      rewrite Hc. reflexivity.
    + intros ->.
      assert (Hs : hasPersonalizationSection (text +:+ template) = true).
      { vm_compute in Ht. injection Ht as <-.
        unfold hasPersonalizationSection. apply andb_true_iff.
        split; apply includes_app_r; vm_compute; reflexivity. }
      split; [exact Hs|]. intros candidate llm. unfold generatePersonalizedContent.
      unfold hasPersonalizationSection in Hs. apply andb_true_iff in Hs as [-> ->].
      cbn [negb orb]. destruct llm as [|response]; [reflexivity|].
      destruct (Template.nonEmpty response); reflexivity.
Qed.

Lemma insert_template_witness :
  let st := sampleEditor "ICU nurses" [ sampleStep "step-1" "Welcome" ] in
  (Editing.activeStep st = Some (sampleStep "step-1" "Welcome")
   /\ Email.content (sampleStep "step-1" "Welcome") = JStr "<p>Hi {{First Name}}</p>"
   /\ hasPersonalizationSection "<p>Hi {{First Name}}</p>" = false)
  /\ exists template,
       Editing.htmlTemplate "personalization" = Some template
       /\ Email.content <$> Editing.activeStep (Editing.insertHTMLTemplate "personalization" st)
          = Some (JStr ("<p>Hi {{First Name}}</p>" +:+ template))
       /\ hasPersonalizationSection ("<p>Hi {{First Name}}</p>" +:+ template) = true.
Proof.
  intros st. split; [repeat split; reflexivity|].
  eexists. split; [reflexivity|].
  destruct (proj2 (proj2 (proj2 (insert_template st "personalization")))
              (sampleStep "step-1" "Welcome") "<p>Hi {{First Name}}</p>" _
              eq_refl eq_refl eq_refl) as (_ & Hc & Hp).
  split; [exact Hc | exact (proj1 (Hp eq_refl))].
Defined.

(** *** The preview of a subject line *)



(** *** Saving a validated campaign *)




